(** * pymonome: a shallow embedding of [monome.py]

    The development follows the layout of the Python module: the
    row packer, the [Grid] link, the [GridBuffer] LED mirror, [Page] and
    the page managers, and [Section]/[Splitter].  Python integers are
    modelled as [Z], Python lists as [list], exceptions as an explicit
    result type, and in-place mutation as explicit state passing. *)

From stdpp Require Import gmap strings list.
From Stdlib Require Import ZArith Lia.

Local Open Scope Z_scope.

(** ** A small Python prelude *)

(** The exceptions the module can raise: built-in ones, and [struct.error]
    from the packing of a message. *)
Inductive PyErr : Type :=
  | IndexError
  | NameError
  | AttributeError
  | ValueError
  | TypeError
  | StructError.

(** The outcome of evaluating an expression: a value or a raised exception. *)
Inductive res (A : Type) : Type :=
  | Ok (a : A)
  | Raise (e : PyErr).

Arguments Ok {A} a.
Arguments Raise {A} e.

Definition res_bind {A B : Type} (r : res A) (k : A -> res B) : res B :=
  match r with
  | Ok a => k a
  | Raise e => Raise e
  end.

Notation "'let?' x := r 'in' k" := (res_bind r (fun x => k))
  (at level 10, x name, r at level 100, k at level 200).

(** A statement run on a mutable object: the object after the statement
    (mutations made before an exception persist) and the exception raised,
    if any. *)
Definition outcome (S : Type) : Type := (S * option PyErr)%type.

Definition finished {S : Type} (s : S) : outcome S := (s, None).
Definition raised {S : Type} (s : S) (e : PyErr) : outcome S := (s, Some e).

Definition then_ {S : Type} (o : outcome S) (k : S -> outcome S) : outcome S :=
  match o with
  | (s, None) => k s
  | (s, Some e) => (s, Some e)
  end.

(** [for v in l: body(v)] on a mutable object; stops at the first exception. *)
Fixpoint for_each {S A : Type} (body : A -> S -> outcome S) (l : list A) (s : S)
  : outcome S :=
  match l with
  | [] => finished s
  | v :: l' => then_ (body v s) (for_each body l')
  end.

(** Normalisation of a subscript against a sequence of length [len]:
    negative subscripts count from the end; [None] stands for [IndexError]. *)
Definition py_index (len : nat) (i : Z) : option nat :=
  if (0 <=? i) && (i <? Z.of_nat len) then Some (Z.to_nat i)
  else if (- Z.of_nat len <=? i) && (i <? 0) then Some (Z.to_nat (Z.of_nat len + i))
  else None.

(** [l[i]] *)
Definition py_getitem {A : Type} (l : list A) (i : Z) : res A :=
  match py_index (length l) i with
  | Some k => match l !! k with Some v => Ok v | None => Raise IndexError end
  | None => Raise IndexError
  end.

(** [l[i] = v] *)
Definition py_setitem {A : Type} (l : list A) (i : Z) (v : A) : res (list A) :=
  match py_index (length l) i with
  | Some k => Ok (<[k := v]> l)
  | None => Raise IndexError
  end.

(** [l[:n]] *)
Definition py_take {A : Type} (n : Z) (l : list A) : list A :=
  if 0 <=? n then take (Z.to_nat n) l
  else take (Z.to_nat (Z.of_nat (length l) + n)) l.

(** [range(n)] *)
Definition py_range (n : Z) : list Z :=
  Z.of_nat <$> seq 0 (Z.to_nat n).

(** [enumerate(l)] *)
Definition enumerate {A : Type} (l : list A) : list (Z * A) :=
  imap (fun i v => (Z.of_nat i, v)) l.

(** ** [pack_row] *)

(** [row[7] << 7 | row[6] << 6 | ... | row[1] << 1 | row[0]]; the
    subscripts are evaluated left to right and [|] associates to the left. *)
Definition pack_row (row : list Z) : res Z :=
  let? r7 := py_getitem row 7 in
  let? r6 := py_getitem row 6 in
  let? r5 := py_getitem row 5 in
  let? r4 := py_getitem row 4 in
  let? r3 := py_getitem row 3 in
  let? r2 := py_getitem row 2 in
  let? r1 := py_getitem row 1 in
  let? r0 := py_getitem row 0 in
  Ok (Z.lor (Z.lor (Z.lor (Z.lor (Z.lor (Z.lor (Z.lor
        (Z.shiftl r7 7) (Z.shiftl r6 6)) (Z.shiftl r5 5)) (Z.shiftl r4 4))
        (Z.shiftl r3 3)) (Z.shiftl r2 2)) (Z.shiftl r1 1)) r0).

(** A binary value, and a row of exactly eight of them. *)
Definition binary (b : Z) : bool := (b =? 0) || (b =? 1).

Definition binary_row8 (row : list Z) : bool :=
  (length row =? 8)%nat && forallb binary row.

(** The sum over the columns of [row[col] << col]. *)
Definition shift_sum (row : list Z) : Z :=
  foldr Z.add 0 (imap (fun col b => Z.shiftl b (Z.of_nat col)) row).

(** The decoder the specification asks the packing to round-trip with:
    column [i] of the row is bit [i] of the packed integer. *)
Definition unpack_row (n : Z) : list Z :=
  (fun i => Z.b2z (Z.testbit n (Z.of_nat i))) <$> seq 0 8.

(** [range(a, b)] *)
Definition py_range2 (a b : Z) : list Z :=
  (fun i => a + Z.of_nat i) <$> seq 0 (Z.to_nat (b - a)).

(** ** [GridBuffer] *)

Record GridBuffer : Type := mkGridBuffer {
  levels : list (list Z);
  buf_width : Z;
  buf_height : Z
}.

(** [GridBuffer.__init__]:
    [[[0 for col in range(width)] for row in range(height)]]. *)
Definition GridBuffer_init (width height : Z) : GridBuffer :=
  {| levels := (fun _ => (fun _ => 0) <$> py_range width) <$> py_range height;
     buf_width := width;
     buf_height := height |}.

(** The statement [self.levels[y][x] = l]: the row [self.levels[y]] is
    fetched first, then its item [x] is assigned in place. *)
Definition store_level (y x l : Z) (b : GridBuffer) : outcome GridBuffer :=
  match py_index (length (levels b)) y with
  | None => raised b IndexError
  | Some r =>
      match levels b !! r with
      | None => raised b IndexError
      | Some row =>
          match py_index (length row) x with
          | None => raised b IndexError
          | Some c =>
              finished {| levels := <[r := <[c := l]> row]> (levels b);
                          buf_width := buf_width b;
                          buf_height := buf_height b |}
          end
      end
  end.

(** The expression [self.levels[y][x]]. *)
Definition load_level (y x : Z) (b : GridBuffer) : res Z :=
  let? row := py_getitem (levels b) y in py_getitem row x.

Definition GridBuffer_led_level_set (x y l : Z) (b : GridBuffer) : outcome GridBuffer :=
  if (x <? buf_width b) && (y <? buf_height b) then store_level y x l b
  else finished b.

Definition GridBuffer_led_level_all (l : Z) (b : GridBuffer) : outcome GridBuffer :=
  for_each (fun x => for_each (fun y => store_level y x l) (py_range (buf_height b)))
           (py_range (buf_width b)) b.

Definition GridBuffer_led_level_row (x_offset y : Z) (data : list Z) (b : GridBuffer)
  : outcome GridBuffer :=
  if y <? buf_height b then
    for_each (fun '(x, l) => store_level y (x + x_offset) l)
             (enumerate (py_take (buf_width b - x_offset) data)) b
  else finished b.

Definition GridBuffer_led_level_col (x y_offset : Z) (data : list Z) (b : GridBuffer)
  : outcome GridBuffer :=
  if x <? buf_width b then
    for_each (fun '(y, l) => store_level (y + y_offset) x l)
             (enumerate (py_take (buf_height b - y_offset) data)) b
  else finished b.

Definition GridBuffer_led_level_map (x_offset y_offset : Z) (data : list (list Z))
    (b : GridBuffer) : outcome GridBuffer :=
  for_each (fun '(r, row) => GridBuffer_led_level_row x_offset (y_offset + r) row)
           (enumerate data) b.

Definition GridBuffer_led_set (x y s : Z) (b : GridBuffer) : outcome GridBuffer :=
  GridBuffer_led_level_set x y (s * 15) b.

Definition GridBuffer_led_all (s : Z) (b : GridBuffer) : outcome GridBuffer :=
  GridBuffer_led_level_all (s * 15) b.

Definition GridBuffer_led_row (x_offset y : Z) (data : list Z) (b : GridBuffer)
  : outcome GridBuffer :=
  for_each (fun '(x, s) => GridBuffer_led_set (x_offset + x) y s) (enumerate data) b.

Definition GridBuffer_led_col (x y_offset : Z) (data : list Z) (b : GridBuffer)
  : outcome GridBuffer :=
  for_each (fun '(y, s) => GridBuffer_led_set x (y_offset + y) s) (enumerate data) b.

Definition GridBuffer_led_map (x_offset y_offset : Z) (data : list (list Z))
    (b : GridBuffer) : outcome GridBuffer :=
  for_each (fun '(r, row) => GridBuffer_led_row x_offset (y_offset + r) row)
           (enumerate data) b.

(** [[f(v) for v in l]] where [f] may raise. *)
Fixpoint list_comp {A B : Type} (f : A -> res B) (l : list A) : res (list B) :=
  match l with
  | [] => Ok []
  | v :: l' => let? w := f v in let? ws := list_comp f l' in Ok (w :: ws)
  end.

Definition GridBuffer_get_level_map (x_offset y_offset : Z) (b : GridBuffer)
  : res (list (list Z)) :=
  list_comp (fun y => list_comp (fun col => load_level y col b)
                                (py_range2 x_offset (x_offset + 8)))
            (py_range2 y_offset (y_offset + 8)).

Definition GridBuffer_get_binary_map (x_offset y_offset : Z) (b : GridBuffer)
  : res (list (list Z)) :=
  list_comp (fun y => list_comp (fun col => let? l := load_level y col b in
                                            Ok (if 7 <? l then 1 else 0))
                                (py_range2 x_offset (x_offset + 8)))
            (py_range2 y_offset (y_offset + 8)).

(** [GridBuffer.render(grid)]: [grid] is any object with a [led_level_map]
    method; the buffer itself is only read. *)
Definition GridBuffer_render {T : Type}
    (led_level_map : Z -> Z -> list (list Z) -> T -> outcome T)
    (b : GridBuffer) (grid : T) : outcome T :=
  for_each (fun x_offset =>
    for_each (fun y_offset grid =>
      match GridBuffer_get_level_map x_offset y_offset b with
      | Raise e => raised grid e
      | Ok m => led_level_map x_offset y_offset m grid
      end)
      ((fun i => i * 8) <$> py_range (buf_height b / 8)))
    ((fun i => i * 8) <$> py_range (buf_width b / 8)) grid.

(** The module's global names that the classes look up when they run.
    [monome.py] never binds [LedBuffer]. *)
Record Globals : Type := mkGlobals {
  LedBuffer : option (Z -> Z -> GridBuffer)
}.

Definition monome_globals : Globals := {| LedBuffer := None |}.

(** The common body of [__and__], [__xor__] and [__or__], which differ in
    the operator only:
    [result = LedBuffer(self.width, self.height)], then for every [row] in
    [range(self.height)] and [col] in [range(self.width)]
    [result.levels[row][col] = self.levels[row][col] <op> other.levels[row][col]]. *)
Definition GridBuffer_combine (G : Globals) (op : Z -> Z -> Z)
    (self other : GridBuffer) : res GridBuffer :=
  match LedBuffer G with
  | None => Raise NameError
  | Some alloc =>
      let body row col result :=
        match (let? a := load_level row col self in
               let? b := load_level row col other in Ok (op a b)) with
        | Raise e => raised result e
        | Ok v => store_level row col v result
        end in
      match for_each (fun row => for_each (body row) (py_range (buf_width self)))
                     (py_range (buf_height self))
                     (alloc (buf_width self) (buf_height self)) with
      | (result, None) => Ok result
      | (_, Some e) => Raise e
      end
  end.

Definition GridBuffer_and (G : Globals) := GridBuffer_combine G Z.land.
Definition GridBuffer_xor (G : Globals) := GridBuffer_combine G Z.lxor.
Definition GridBuffer_or (G : Globals) := GridBuffer_combine G Z.lor.

(** The LED operations of a surface, as data, and their dispatch. *)
Inductive LedOp : Type :=
  | Op_led_set (x y s : Z)
  | Op_led_all (s : Z)
  | Op_led_map (x_offset y_offset : Z) (data : list (list Z))
  | Op_led_row (x_offset y : Z) (data : list Z)
  | Op_led_col (x y_offset : Z) (data : list Z)
  | Op_led_level_set (x y l : Z)
  | Op_led_level_all (l : Z)
  | Op_led_level_map (x_offset y_offset : Z) (data : list (list Z))
  | Op_led_level_row (x_offset y : Z) (data : list Z)
  | Op_led_level_col (x y_offset : Z) (data : list Z).

Definition GridBuffer_apply (op : LedOp) (b : GridBuffer) : outcome GridBuffer :=
  match op with
  | Op_led_set x y s => GridBuffer_led_set x y s b
  | Op_led_all s => GridBuffer_led_all s b
  | Op_led_map xo yo data => GridBuffer_led_map xo yo data b
  | Op_led_row xo y data => GridBuffer_led_row xo y data b
  | Op_led_col x yo data => GridBuffer_led_col x yo data b
  | Op_led_level_set x y l => GridBuffer_led_level_set x y l b
  | Op_led_level_all l => GridBuffer_led_level_all l b
  | Op_led_level_map xo yo data => GridBuffer_led_level_map xo yo data b
  | Op_led_level_row xo y data => GridBuffer_led_level_row xo y data b
  | Op_led_level_col x yo data => GridBuffer_led_level_col x yo data b
  end.

(** A caller issuing a sequence of operations on one surface; an operation
    that raises leaves the surface as it was at the raise, and the caller
    goes on with the next operation. *)
Definition GridBuffer_run (ops : list LedOp) (b : GridBuffer) : GridBuffer :=
  foldl (fun b op => fst (GridBuffer_apply op b)) b ops.

(** Every stored level lies in [[0,15]]. *)
Definition level_ok (l : Z) : bool := (0 <=? l) && (l <=? 15).

Definition levels_in_range (b : GridBuffer) : bool :=
  forallb (forallb level_ok) (levels b).

(** The arguments of an operation are of the documented kinds: levels in
    [[0,15]], binary values 0 or 1; coordinates and offsets are arbitrary. *)
Definition op_values_ok (op : LedOp) : bool :=
  match op with
  | Op_led_set _ _ s => binary s
  | Op_led_all s => binary s
  | Op_led_map _ _ data => forallb (forallb binary) data
  | Op_led_row _ _ data => forallb binary data
  | Op_led_col _ _ data => forallb binary data
  | Op_led_level_set _ _ l => level_ok l
  | Op_led_level_all l => level_ok l
  | Op_led_level_map _ _ data => forallb (forallb level_ok) data
  | Op_led_level_row _ _ data => forallb level_ok data
  | Op_led_level_col _ _ data => forallb level_ok data
  end.

Definition is_binary_op (op : LedOp) : bool :=
  match op with
  | Op_led_set _ _ _ | Op_led_all _ | Op_led_map _ _ _
  | Op_led_row _ _ _ | Op_led_col _ _ _ => true
  | _ => false
  end.

Definition In_range (b : GridBuffer) : Prop :=
  Forall (Forall (fun l => 0 <= l <= 15)) (levels b).

(** [b'] differs from [b] only in cells that now hold 0 or 15. *)
Definition only_binary_writes (b b' : GridBuffer) : Prop :=
  Forall2 (Forall2 (fun old new => new = old \/ new = 0 \/ new = 15))
          (levels b) (levels b').

(** *** Reading the surface by position *)

(** The level stored at column [x] of row [y], for coordinates counted from
    the top-left corner (no wrap-around). *)
Definition level_at (b : GridBuffer) (x y : nat) : option Z :=
  match levels b !! y with
  | Some row => row !! x
  | None => None
  end.

(** A surface of [W] columns and [H] rows, as [GridBuffer_init] builds it. *)
Definition shape (W H : nat) (b : GridBuffer) : Prop :=
  buf_width b = Z.of_nat W /\ buf_height b = Z.of_nat H /\
  length (levels b) = H /\ Forall (fun row => length row = W) (levels b).

(** The position a subscript [i] selects in a sequence of length [len]:
    counted from the end when [i] is negative. *)
Definition wrap (len : nat) (i : Z) : nat :=
  Z.to_nat (if i <? 0 then Z.of_nat len + i else i).

(** The effect of a successful [self.levels[y][x] = l] on normalised
    subscripts. *)
Definition put (x y : nat) (l : Z) (b : GridBuffer) : GridBuffer :=
  match levels b !! y with
  | Some row => {| levels := <[y := <[x := l]> row]> (levels b);
                   buf_width := buf_width b;
                   buf_height := buf_height b |}
  | None => b
  end.

(** One iteration of a loop of stores whose subscripts and value are
    computed from the loop variable by [fx], [fy] and [fv]. *)
Definition put_item {A : Type} (W H : nat) (fx fy fv : A -> Z)
    (b : GridBuffer) (a : A) : GridBuffer :=
  put (wrap W (fx a)) (wrap H (fy a)) (fv a) b.

(** ** [Grid]: the link to one device *)

(** [DISCONNECTED, CONNECTING, READY = range(3)] *)
Inductive ConnState : Type :=
  | DISCONNECTED
  | CONNECTING
  | READY.

(** An argument of an OSC message. *)
Inductive OscArg : Type :=
  | OInt (n : Z)
  | OStr (s : string).

(** A message: an address and its arguments. *)
Record Msg : Type := mkMsg {
  msg_path : string;
  msg_args : list OscArg
}.

(** The calls a [Grid] makes on its [event_handler]. *)
Inductive Callback : Type :=
  | on_grid_ready
  | on_grid_key (x y s : Z)
  | on_grid_disconnect.

(** The attributes of a [Grid].  [host] and [port] are the name of the
    link's own socket, as [connection_made] reads it from the transport;
    [sent] lists the messages handed to the transport, oldest first;
    [transport_closed] records [self.transport.close()]; [event_handler] is
    the single listener slot, and [callbacks] lists the calls made on the
    listener, oldest first. *)
Record Grid : Type := mkGrid {
  prefix : string;
  grid_id : option string;
  grid_width : option Z;
  grid_height : option Z;
  varibright : bool;
  state : ConnState;
  host : string;
  port : Z;
  transport_closed : bool;
  sent : list Msg;
  event_handler : option nat;
  callbacks : list Callback
}.

(** The datagram of a packed message is handed to the transport: [sent]
    grows by the message. *)
Definition Grid_sendto (path : string) (args : list OscArg) (g : Grid) : Grid :=
  {| prefix := prefix g; grid_id := grid_id g; grid_width := grid_width g;
     grid_height := grid_height g; varibright := varibright g; state := state g;
     host := host g; port := port g; transport_closed := transport_closed g;
     sent := sent g ++ [mkMsg path args];
     event_handler := event_handler g; callbacks := callbacks g |}.

(** An integer argument is packed as a 32-bit signed integer: the integers
    that pack are those of [[-2^31, 2^31)]. *)
Definition int32 (n : Z) : bool := (- 2 ^ 31 <=? n) && (n <? 2 ^ 31).

Definition packs (a : OscArg) : bool :=
  match a with
  | OInt n => int32 n
  | OStr _ => true
  end.

(** [self.send(path, *args)], which [Grid] inherits from the OSC protocol
    class: the message is packed, then the datagram is handed to the
    transport.  Packing an integer outside the 32-bit range raises
    [struct.error], and then nothing is sent. *)
Definition Grid_send (path : string) (args : list OscArg) (g : Grid) : outcome Grid :=
  if forallb packs args then finished (Grid_sendto path args g)
  else raised g StructError.

Definition Grid_set_state (st : ConnState) (g : Grid) : Grid :=
  {| prefix := prefix g; grid_id := grid_id g; grid_width := grid_width g;
     grid_height := grid_height g; varibright := varibright g; state := st;
     host := host g; port := port g; transport_closed := transport_closed g;
     sent := sent g;
     event_handler := event_handler g; callbacks := callbacks g |}.

Definition Grid_close_transport (g : Grid) : Grid :=
  {| prefix := prefix g; grid_id := grid_id g; grid_width := grid_width g;
     grid_height := grid_height g; varibright := varibright g; state := state g;
     host := host g; port := port g; transport_closed := true;
     sent := sent g;
     event_handler := event_handler g; callbacks := callbacks g |}.

Definition Grid_call_handler (c : Callback) (g : Grid) : Grid :=
  {| prefix := prefix g; grid_id := grid_id g; grid_width := grid_width g;
     grid_height := grid_height g; varibright := varibright g; state := state g;
     host := host g; port := port g; transport_closed := transport_closed g;
     sent := sent g;
     event_handler := event_handler g; callbacks := callbacks g ++ [c] |}.

(** [Grid.connect].  The five messages carry strings and the port of the
    link's own socket, a number of 0..65535, which always packs: these
    sends hand their datagrams to the transport without raising. *)
Definition Grid_connect (g : Grid) : Grid :=
  match state g with
  | DISCONNECTED =>
      Grid_sendto "/sys/info/size" [OStr (host g); OInt (port g)]
        (Grid_sendto "/sys/info/id" [OStr (host g); OInt (port g)]
          (Grid_sendto "/sys/prefix" [OStr (prefix g)]
            (Grid_sendto "/sys/port" [OInt (port g)]
              (Grid_sendto "/sys/host" [OStr (host g)]
                (Grid_set_state CONNECTING g)))))
  | _ => g
  end.

(** The method [Grid.__sys_disconnect]. *)
Definition Grid_sys_disconnect (g : Grid) : Grid :=
  let g := Grid_close_transport (Grid_set_state DISCONNECTED g) in
  match event_handler g with
  | Some _ => Grid_call_handler on_grid_ready g
  | None => g
  end.

(** The handler registered for ['/sys/disconnect'] in [Grid.__init__] is
    [lambda *args: self.__sys_disconnect]: called with the message, it
    evaluates the attribute and returns the bound method, which nobody
    calls.  (The handler for ['/sys/{id,size,...}'] is the bound method
    [self.__sys_info] itself.) *)
Definition Grid_handle_sys_disconnect (args : list OscArg) (g : Grid) : Grid := g.

(** The method [Grid.__grid_key], registered directly as a handler. *)
Definition Grid_handle_grid_key (x y s : Z) (g : Grid) : Grid :=
  match event_handler g with
  | Some _ => Grid_call_handler (on_grid_key x y s) g
  | None => g
  end.

(** What the claim about a disconnect notification asks of the link. *)
Definition disconnect_observed (before after : Grid) : Prop :=
  state after = DISCONNECTED /\
  transport_closed after = true /\
  (forall h, event_handler before = Some h ->
     callbacks after = callbacks before ++ [on_grid_disconnect]).

(** A link that completed its handshake, with a listener attached. *)
Definition ready_grid : Grid :=
  {| prefix := "pymonome"; grid_id := Some "m0000045"; grid_width := Some 8;
     grid_height := Some 8; varibright := true; state := READY;
     host := "127.0.0.1"; port := 50000; transport_closed := false;
     sent := []; event_handler := Some 0%nat; callbacks := [] |}.

(** ** [Section] and [Splitter] *)

(** A [Section]: a rectangle of the splitter's coordinate space.  The calls
    it makes on its splitter are modelled as the operation forwarded. *)
Record GridSection : Type := mkSection {
  part_width : Z;
  part_height : Z;
  part_offset_x : Z;
  part_offset_y : Z
}.

Definition Section_led_set (sec : GridSection) (x y s : Z) : option LedOp :=
  if (x <? part_width sec) && (y <? part_height sec)
  then Some (Op_led_set (x + part_offset_x sec) (y + part_offset_y sec) s)
  else None.

(** [[[s for col in range(8)] for row in range(8)]] *)
Definition fill8 (s : Z) : list (list Z) :=
  (fun _ => (fun _ => s) <$> py_range 8) <$> py_range 8.



Definition Section_led_row (sec : GridSection) (x_offset y : Z) (data : list Z)
  : option LedOp :=
  Some (Op_led_row (part_offset_x sec + x_offset) (part_offset_y sec + y)
                   (py_take (part_width sec) data)).

Definition Section_led_col (sec : GridSection) (x y_offset : Z) (data : list Z)
  : option LedOp :=
  Some (Op_led_col (part_offset_x sec + x) (part_offset_y sec + y_offset)
                   (py_take (part_height sec) data)).

Definition Section_led_level_set (sec : GridSection) (x y l : Z) : option LedOp :=
  if (x <? part_width sec) && (y <? part_height sec)
  then Some (Op_led_level_set (part_offset_x sec + x) (part_offset_y sec + y) l)
  else None.













Definition is_row_or_col (op : LedOp) : bool :=
  match op with
  | Op_led_row _ _ _ | Op_led_level_row _ _ _
  | Op_led_col _ _ _ | Op_led_level_col _ _ _ => true
  | _ => false
  end.

(** [Splitter.grid_key]: every section whose rectangle contains the
    coordinate gets the key, in list order (the loop has no [break]).  The
    result lists the [grid_key] calls made, each with the position of the
    section in [self.sections]. *)
Definition section_contains (part : GridSection) (x y : Z) : bool :=
  (part_offset_x part <=? x) && (x <? part_offset_x part + part_width part) &&
  (part_offset_y part <=? y) && (y <? part_offset_y part + part_height part).

Fixpoint Splitter_grid_key_from (n : nat) (sections : list GridSection) (x y s : Z)
  : list (nat * (Z * Z * Z)) :=
  match sections with
  | [] => []
  | part :: rest =>
      (if section_contains part x y
       then [(n, (x - part_offset_x part, y - part_offset_y part, s))]
       else [])
      ++ Splitter_grid_key_from (S n) rest x y s
  end.

Definition Splitter_grid_key (sections : list GridSection) (x y s : Z)
  : list (nat * (Z * Z * Z)) :=
  Splitter_grid_key_from 0 sections x y s.

(** No coordinate lies in the rectangles of two sections of the list. *)
Definition non_overlapping (sections : list GridSection) : Prop :=
  forall i j a b x y, i <> j -> sections !! i = Some a -> sections !! j = Some b ->
    ~ (section_contains a x y = true /\ section_contains b x y = true).

(** *** The LED commands of a [Grid] *)

(** ['/{}/grid/led/set'.format(self.prefix)] and the like. *)
Definition led_path (g : Grid) (suffix : string) : string :=
  "/" +:+ prefix g +:+ suffix.

(** [l[a:b]] for [0 <= a <= b]. *)
Definition py_slice {A : Type} (a b : Z) (l : list A) : list A :=
  take (Z.to_nat (b - a)) (drop (Z.to_nat a) l).

(** [l >> 3 & 1] *)
Definition downgrade (l : Z) : Z := Z.land (Z.shiftr l 3) 1.

Definition Grid_led_set (x y s : Z) (g : Grid) : outcome Grid :=
  Grid_send (led_path g "/grid/led/set") [OInt x; OInt y; OInt s] g.

Definition Grid_led_all (s : Z) (g : Grid) : outcome Grid :=
  Grid_send (led_path g "/grid/led/all") [OInt s] g.

Definition Grid_led_map (x_offset y_offset : Z) (data : list (list Z)) (g : Grid)
  : outcome Grid :=
  match list_comp (fun i => let? row := py_getitem data i in pack_row row)
                  (py_range 8) with
  | Raise e => raised g e
  | Ok args =>
      Grid_send (led_path g "/grid/led/map")
                (OInt x_offset :: OInt y_offset :: (OInt <$> args)) g
  end.

(** [[pack_row(data[i*8:(i+1)*8]) for i in range(len(data) // 8)]] *)
Definition pack_groups (data : list Z) : res (list Z) :=
  list_comp (fun i => pack_row (py_slice (i * 8) ((i + 1) * 8) data))
            (py_range (Z.of_nat (length data) / 8)).

Definition Grid_led_row (x_offset y : Z) (data : list Z) (g : Grid) : outcome Grid :=
  match pack_groups data with
  | Raise e => raised g e
  | Ok args =>
      Grid_send (led_path g "/grid/led/row")
                (OInt x_offset :: OInt y :: (OInt <$> args)) g
  end.

Definition Grid_led_col (x y_offset : Z) (data : list Z) (g : Grid) : outcome Grid :=
  match pack_groups data with
  | Raise e => raised g e
  | Ok args =>
      Grid_send (led_path g "/grid/led/col")
                (OInt x :: OInt y_offset :: (OInt <$> args)) g
  end.

Definition Grid_led_intensity (i : Z) (g : Grid) : outcome Grid :=
  Grid_send (led_path g "/grid/led/intensity") [OInt i] g.

Definition Grid_led_level_set (x y l : Z) (g : Grid) : outcome Grid :=
  if varibright g
  then Grid_send (led_path g "/grid/led/level/set") [OInt x; OInt y; OInt l] g
  else Grid_led_set x y (downgrade l) g.

Definition Grid_led_level_all (l : Z) (g : Grid) : outcome Grid :=
  if varibright g
  then Grid_send (led_path g "/grid/led/level/all") [OInt l] g
  else Grid_led_all (downgrade l) g.

Definition Grid_led_level_map (x_offset y_offset : Z) (data : list (list Z)) (g : Grid)
  : outcome Grid :=
  if varibright g
  then Grid_send (led_path g "/grid/led/level/map")
                 (OInt x_offset :: OInt y_offset :: (OInt <$> concat data)) g
  else Grid_led_map x_offset y_offset ((fun row : list Z => downgrade <$> row) <$> data) g.

Definition Grid_led_level_row (x_offset y : Z) (data : list Z) (g : Grid)
  : outcome Grid :=
  if varibright g
  then Grid_send (led_path g "/grid/led/level/row")
                 (OInt x_offset :: OInt y :: (OInt <$> data)) g
  else Grid_led_row x_offset y (downgrade <$> data) g.

Definition Grid_led_level_col (x y_offset : Z) (data : list Z) (g : Grid)
  : outcome Grid :=
  if varibright g
  then Grid_send (led_path g "/grid/led/level/col")
                 (OInt x :: OInt y_offset :: (OInt <$> data)) g
  else Grid_led_col x y_offset (downgrade <$> data) g.

Definition Grid_tilt_set (n s : Z) (g : Grid) : outcome Grid :=
  Grid_send (led_path g "/tilt/set") [OInt n; OInt s] g.

(** The command surface of the link, by operation. *)
Definition Grid_apply (op : LedOp) (g : Grid) : outcome Grid :=
  match op with
  | Op_led_set x y s => Grid_led_set x y s g
  | Op_led_all s => Grid_led_all s g
  | Op_led_map xo yo data => Grid_led_map xo yo data g
  | Op_led_row xo y data => Grid_led_row xo y data g
  | Op_led_col x yo data => Grid_led_col x yo data g
  | Op_led_level_set x y l => Grid_led_level_set x y l g
  | Op_led_level_all l => Grid_led_level_all l g
  | Op_led_level_map xo yo data => Grid_led_level_map xo yo data g
  | Op_led_level_row xo y data => Grid_led_level_row xo y data g
  | Op_led_level_col x yo data => Grid_led_level_col x yo data g
  end.

(** ** [Page] and the page managers *)

(** A page object: its private buffer ([None] until [ready]), its intensity,
    and the size its manager gives it. *)
Record Page : Type := mkPage {
  page_buffer : option GridBuffer;
  page_intensity : Z;
  page_width : option Z;
  page_height : option Z
}.

(** [Page.__init__] *)
Definition Page_init : Page :=
  {| page_buffer := None; page_intensity := 15;
     page_width := None; page_height := None |}.

(** [Page.ready]: [self.__buffer = LedBuffer(self.width, self.height)]. *)
Definition Page_ready (G : Globals) (pg : Page) : res Page :=
  match LedBuffer G with
  | None => Raise NameError
  | Some alloc =>
      match page_width pg, page_height pg with
      | Some w, Some h =>
          Ok {| page_buffer := Some (alloc w h); page_intensity := page_intensity pg;
                page_width := page_width pg; page_height := page_height pg |}
      | _, _ => Raise TypeError
      end
  end.

(** A [BasePageManager], which is a [Grid]: the inherited attributes, the
    list of its pages, the set of pressed coordinates and the current page.
    Pages are objects compared by identity: [pages] and [current_page] hold
    object identities, [heap] the objects.  A page's [grid_key] is supplied
    by the application; [key_events] lists the calls made to it, oldest
    first, each with the identity of the page called. *)
Record BasePageManager : Type := mkManager {
  grid : Grid;
  pages : list nat;
  presses : gset (Z * Z);
  current_page : option nat;
  heap : gmap nat Page;
  key_events : list (nat * (Z * Z * Z))
}.

Definition set_grid (g : Grid) (m : BasePageManager) : BasePageManager :=
  {| grid := g; pages := pages m; presses := presses m;
     current_page := current_page m; heap := heap m; key_events := key_events m |}.

Definition set_presses (ps : gset (Z * Z)) (m : BasePageManager) : BasePageManager :=
  {| grid := grid m; pages := pages m; presses := ps;
     current_page := current_page m; heap := heap m; key_events := key_events m |}.

Definition set_current_page (p : option nat) (m : BasePageManager) : BasePageManager :=
  {| grid := grid m; pages := pages m; presses := presses m;
     current_page := p; heap := heap m; key_events := key_events m |}.

Definition set_page (p : nat) (pg : Page) (m : BasePageManager) : BasePageManager :=
  {| grid := grid m; pages := pages m; presses := presses m;
     current_page := current_page m; heap := <[p := pg]> (heap m);
     key_events := key_events m |}.

Definition log_key (p : nat) (x y s : Z) (m : BasePageManager) : BasePageManager :=
  {| grid := grid m; pages := pages m; presses := presses m;
     current_page := current_page m; heap := heap m;
     key_events := key_events m ++ [(p, (x, y, s))] |}.

(** A method of the inherited [Grid] run on the manager. *)
Definition on_grid (f : Grid -> outcome Grid) (m : BasePageManager)
  : outcome BasePageManager :=
  (set_grid (fst (f (grid m))) m, snd (f (grid m))).

(** [Page.is_active]: [self is self.manager.current_page]. *)
Definition Page_is_active (p : nat) (m : BasePageManager) : bool :=
  bool_decide (current_page m = Some p).

(** The ten LED methods of [Page] have one shape:
    [self.__buffer.op(...)], then [self.manager.op(...)] if the page is
    active. *)
Definition Page_write (p : nat) (op : LedOp) (m : BasePageManager)
  : outcome BasePageManager :=
  match heap m !! p with
  | None => raised m AttributeError
  | Some pg =>
      match page_buffer pg with
      | None => raised m AttributeError
      | Some b =>
          let m1 := set_page p {| page_buffer := Some (fst (GridBuffer_apply op b));
                                  page_intensity := page_intensity pg;
                                  page_width := page_width pg;
                                  page_height := page_height pg |} m in
          match snd (GridBuffer_apply op b) with
          | Some e => raised m1 e
          | None =>
              if Page_is_active p m1 then on_grid (Grid_apply op) m1 else finished m1
          end
      end
  end.

Definition Page_led_set (p : nat) (x y s : Z) := Page_write p (Op_led_set x y s).
Definition Page_led_all (p : nat) (s : Z) := Page_write p (Op_led_all s).
Definition Page_led_map (p : nat) (x_offset y_offset : Z) (data : list (list Z)) :=
  Page_write p (Op_led_map x_offset y_offset data).
Definition Page_led_row (p : nat) (x_offset y : Z) (data : list Z) :=
  Page_write p (Op_led_row x_offset y data).
Definition Page_led_col (p : nat) (x y_offset : Z) (data : list Z) :=
  Page_write p (Op_led_col x y_offset data).
Definition Page_led_level_set (p : nat) (x y l : Z) :=
  Page_write p (Op_led_level_set x y l).
Definition Page_led_level_all (p : nat) (l : Z) := Page_write p (Op_led_level_all l).
Definition Page_led_level_map (p : nat) (x_offset y_offset : Z) (data : list (list Z)) :=
  Page_write p (Op_led_level_map x_offset y_offset data).
Definition Page_led_level_row (p : nat) (x_offset y : Z) (data : list Z) :=
  Page_write p (Op_led_level_row x_offset y data).
Definition Page_led_level_col (p : nat) (x y_offset : Z) (data : list Z) :=
  Page_write p (Op_led_level_col x y_offset data).

Definition Page_led_intensity (p : nat) (i : Z) (m : BasePageManager)
  : outcome BasePageManager :=
  match heap m !! p with
  | None => raised m AttributeError
  | Some pg =>
      let m1 := set_page p {| page_buffer := page_buffer pg; page_intensity := i;
                              page_width := page_width pg;
                              page_height := page_height pg |} m in
      if Page_is_active p m1 then on_grid (Grid_led_intensity i) m1 else finished m1
  end.

(** [Page.render]: [self.__buffer.render(self.manager)], then
    [self.manager.led_intensity(self.__intensity)]. *)
Definition Page_render (p : nat) (m : BasePageManager) : outcome BasePageManager :=
  match heap m !! p with
  | None => raised m AttributeError
  | Some pg =>
      match page_buffer pg with
      | None => raised m AttributeError
      | Some b =>
          then_ (on_grid (GridBuffer_render Grid_led_level_map b) m)
                (on_grid (Grid_led_intensity (page_intensity pg)))
      end
  end.

(** [self.current_page.grid_key(x, y, s)] *)
Definition deliver_key (x y s : Z) (m : BasePageManager) : outcome BasePageManager :=
  match current_page m with
  | None => raised m AttributeError
  | Some p => finished (log_key p x y s m)
  end.

(** [BasePageManager.grid_key] *)
Definition BasePageManager_grid_key (x y s : Z) (m : BasePageManager)
  : outcome BasePageManager :=
  deliver_key x y s
    (set_presses (if s =? 1 then {[ (x, y) ]} ∪ presses m
                  else presses m ∖ {[ (x, y) ]}) m).

(** [BasePageManager.switch_page] *)
Definition BasePageManager_switch_page (page_num : Z) (m : BasePageManager)
  : outcome BasePageManager :=
  match (if page_num =? -1 then Ok true
         else let? target := py_getitem (pages m) page_num in
              Ok (negb (bool_decide (current_page m = Some target)))) with
  | Raise e => raised m e
  | Ok leaving =>
      then_ (if leaving : bool
             then then_ (for_each (fun xy => deliver_key (fst xy) (snd xy) 0)
                                  (elements (presses m)) m)
                        (fun m1 => finished (set_presses ∅ m1))
             else finished m)
            (fun m2 =>
               if page_num =? -1
               then on_grid (Grid_led_all 0) (set_current_page None m2)
               else match py_getitem (pages m2) page_num with
                    | Raise e => raised m2 e
                    | Ok target => Page_render target (set_current_page (Some target) m2)
                    end)
  end.

(** [super().ready()] in [BasePageManager], whose base class is [Grid]:
    neither [Grid] nor the protocol classes it derives from define [ready]
    ([Grid] has the private [__ready] only), so the attribute lookup raises
    [AttributeError]. *)
Definition Grid_super_ready (m : BasePageManager) : outcome BasePageManager :=
  raised m AttributeError.

(** [BasePageManager.ready]: [super().ready()], then every page gets the
    grid's size and is made ready. *)
Definition BasePageManager_ready (G : Globals) (m : BasePageManager)
  : outcome BasePageManager :=
  then_ (Grid_super_ready m)
        (fun m0 =>
           for_each (fun p m1 =>
              match heap m1 !! p with
              | None => raised m1 AttributeError
              | Some pg =>
                  let sized := {| page_buffer := page_buffer pg;
                                  page_intensity := page_intensity pg;
                                  page_width := grid_width (grid m1);
                                  page_height := grid_height (grid m1) |} in
                  match Page_ready G sized with
                  | Raise e => raised (set_page p sized m1) e
                  | Ok pg' => finished (set_page p pg' m1)
                  end
              end) (pages m0) m0).

(** [l.index(v)]: the position of the first occurrence. *)
Fixpoint py_list_index (v : option nat) (l : list nat) : res Z :=
  match l with
  | [] => Raise ValueError
  | w :: l' => if bool_decide (v = Some w) then Ok 0
               else let? i := py_list_index v l' in Ok (i + 1)
  end.

(** A [SeqPageManager]: a [BasePageManager] with a switch button.  The
    attributes [switch_x] and [switch_y] do not exist ([None]) until they
    are assigned. *)
Record SeqPageManager : Type := mkSeqManager {
  base : BasePageManager;
  switch_button : Z * Z;
  switch_x : option Z;
  switch_y : option Z
}.

Definition on_base (f : BasePageManager -> outcome BasePageManager)
    (m : SeqPageManager) : outcome SeqPageManager :=
  ({| base := fst (f (base m)); switch_button := switch_button m;
      switch_x := switch_x m; switch_y := switch_y m |}, snd (f (base m))).

(** [self.width + switch_x if switch_x < 0 else switch_x] *)
Definition from_far_edge (size : option Z) (v : Z) : res Z :=
  if v <? 0 then match size with Some n => Ok (n + v) | None => Raise TypeError end
  else Ok v.

(** [SeqPageManager.ready] *)
Definition SeqPageManager_ready (G : Globals) (m : SeqPageManager)
  : outcome SeqPageManager :=
  then_ (on_base (BasePageManager_ready G) m)
        (fun m1 =>
           match from_far_edge (grid_width (grid (base m1))) (fst (switch_button m1)) with
           | Raise e => raised m1 e
           | Ok sx =>
               let m2 := {| base := base m1; switch_button := switch_button m1;
                            switch_x := Some sx; switch_y := switch_y m1 |} in
               match from_far_edge (grid_height (grid (base m2)))
                                   (snd (switch_button m2)) with
               | Raise e => raised m2 e
               | Ok sy =>
                   finished {| base := base m2; switch_button := switch_button m2;
                               switch_x := switch_x m2; switch_y := Some sy |}
               end
           end).

(** [SeqPageManager.grid_key] *)
Definition SeqPageManager_grid_key (x y s : Z) (m : SeqPageManager)
  : outcome SeqPageManager :=
  let regular := on_base (BasePageManager_grid_key x y s) m in
  if bool_decide (presses (base m) = ∅) then
    match switch_x m with
    | None => raised m AttributeError
    | Some sx =>
        if x =? sx then
          match switch_y m with
          | None => raised m AttributeError
          | Some sy =>
              if (y =? sy) && (s =? 1) then
                match py_list_index (current_page (base m)) (pages (base m)) with
                | Raise e => raised m e
                | Ok i =>
                    on_base (BasePageManager_switch_page
                               ((i + 1) mod Z.of_nat (length (pages (base m))))) m
                end
              else regular
          end
        else regular
    end
  else regular.

(** The release events [switch_page] sends to the page [cur] for the pressed
    coordinates [ps], in the order the set is iterated. *)
Definition release_events (cur : nat) (ps : gset (Z * Z)) : list (nat * (Z * Z * Z)) :=
  (fun xy => (cur, (fst xy, snd xy, 0))) <$> elements ps.

(** *** Example objects *)

(** A sequence of writes, some of them out of range or wrapping. *)
Definition example_writes : list LedOp :=
  [Op_led_level_row (-2) 9 [3; 15; 0; 7]; Op_led_level_set (-1) 0 12;
   Op_led_map 6 6 [[1; 0; 1]; [1; 1; 1]]; Op_led_level_all 4].

(** A page with the size of an 8 by 8 grid and a blank buffer of that
    size, as [Page.ready] is meant to leave it. *)
Definition ready_page : Page :=
  {| page_buffer := Some (GridBuffer_init 8 8); page_intensity := 15;
     page_width := Some 8; page_height := Some 8 |}.

(** A manager of three such pages on a ready 8 by 8 grid, page 0 current,
    with the coordinates (1,2) and (3,4) pressed. *)
Definition three_page_manager : BasePageManager :=
  {| grid := ready_grid;
     pages := [0%nat; 1%nat; 2%nat];
     presses := {[ (1, 2); (3, 4) ]};
     current_page := Some 0%nat;
     heap := <[0%nat := ready_page]> (<[1%nat := ready_page]>
               (<[2%nat := ready_page]> ∅));
     key_events := [] |}.

(** A [BasePageManager] of three pages on a ready 8 by 8 grid, as
    [__init__] leaves it: page 0 current, nothing pressed, and no page has
    a buffer. *)
Definition fresh_page_manager : BasePageManager :=
  {| grid := ready_grid;
     pages := [0%nat; 1%nat; 2%nat];
     presses := ∅;
     current_page := Some 0%nat;
     heap := <[0%nat := Page_init]> (<[1%nat := Page_init]>
               (<[2%nat := Page_init]> ∅));
     key_events := [] |}.

(** A [SeqPageManager] of the same three pages with the default switch
    button [(-1, -1)], as [__init__] leaves it. *)
Definition fresh_seq_manager : SeqPageManager :=
  {| base := fresh_page_manager;
     switch_button := (-1, -1);
     switch_x := None;
     switch_y := None |}.

(** The same manager with the attributes [switch_x] and [switch_y] assigned
    the position (7,7). *)
Definition assigned_seq_manager : SeqPageManager :=
  {| base := fresh_page_manager;
     switch_button := (-1, -1);
     switch_x := Some 7;
     switch_y := Some 7 |}.

(** A [SeqPageManager] of three pages with buffers, with the attributes
    [switch_x] and [switch_y] assigned the position (7,7) and nothing
    pressed. *)
Definition seq_manager : SeqPageManager :=
  {| base := set_presses ∅ three_page_manager;
     switch_button := (-1, -1);
     switch_x := Some 7;
     switch_y := Some 7 |}.

(** ** Tiles, messages and example objects *)

(** A map of exactly eight rows of eight. *)
Definition is_8x8 (data : list (list Z)) : bool :=
  (length data =? 8)%nat && forallb (fun row => (length row =? 8)%nat) data.

(** The level operation that stores what the binary operation stores. *)
Definition as_level_op (op : LedOp) : LedOp :=
  match op with
  | Op_led_set x y s => Op_led_level_set x y (s * 15)
  | Op_led_all s => Op_led_level_all (s * 15)
  | Op_led_map xo yo data =>
      Op_led_level_map xo yo ((fun row : list Z => (fun s => s * 15) <$> row) <$> data)
  | Op_led_row xo y data => Op_led_level_row xo y ((fun s => s * 15) <$> data)
  | Op_led_col x yo data => Op_led_level_col x yo ((fun s => s * 15) <$> data)
  | _ => op
  end.

(** The buffer of the page [p], if the page exists and is ready. *)
Definition buffer_of (p : nat) (m : BasePageManager) : option GridBuffer :=
  match heap m !! p with
  | Some pg => page_buffer pg
  | None => None
  end.

(** The cell at column [c] of row [r] of a map. *)
Definition tile_cell (tile : list (list Z)) (c r : nat) : option Z :=
  match tile !! r with
  | Some row => row !! c
  | None => None
  end.

(** The cell [(x, y)] lies in the 8 by 8 tile at [(xo, yo)]. *)
Definition in_tile (xo yo x y : nat) : bool :=
  (xo <=? x)%nat && (x <? xo + 8)%nat && (yo <=? y)%nat && (y <? yo + 8)%nat.

(** The levels of the 8 by 8 tile of [b] at [(xo, yo)], row by row. *)
Definition tile_of (b : GridBuffer) (xo yo : nat) : list (list Z) :=
  (fun r => (fun c => default 0 (level_at b (xo + c) (yo + r))) <$> seq 0 8) <$> seq 0 8.

(** *** Bookkeeping for sequences of messages *)

(** The link after [msgs] more messages have been sent. *)
Definition Grid_send_all (msgs : list Msg) (g : Grid) : Grid :=
  {| prefix := prefix g; grid_id := grid_id g; grid_width := grid_width g;
     grid_height := grid_height g; varibright := varibright g; state := state g;
     host := host g; port := port g; transport_closed := transport_closed g;
     sent := sent g ++ msgs;
     event_handler := event_handler g; callbacks := callbacks g |}.

(** The tiles [render] walks through, in its order: [x_offset] in the outer
    loop, [y_offset] in the inner one. *)
Definition render_tiles (b : GridBuffer) : list (Z * Z) :=
  list_prod ((fun i => i * 8) <$> py_range (buf_width b / 8))
            ((fun i => i * 8) <$> py_range (buf_height b / 8)).

(** The same three pages on a link that is not varibright. *)
Definition binary_link_manager : BasePageManager :=
  set_grid {| prefix := "pymonome"; grid_id := Some "monome64"; grid_width := Some 8;
              grid_height := Some 8; varibright := false; state := READY;
              host := "127.0.0.1"; port := 50000; transport_closed := false;
              sent := []; event_handler := Some 0%nat; callbacks := [] |}
           three_page_manager.

(** ** Keys held on a page *)

(** The state given in the last [grid_key] call that the page [p] received
    for the coordinate [xy], if it received any. *)
Definition last_state (p : nat) (xy : Z * Z) (events : list (nat * (Z * Z * Z)))
  : option Z :=
  foldl (fun acc '(q, (x, y, s)) =>
           if bool_decide (q = p /\ (x, y) = xy) then Some s else acc)
        None events.

(** The manager's bookkeeping agrees with what the pages were told: the
    keys for which a page last heard a press are the pressed-set when the
    page is the current one, and none otherwise. *)
Definition presses_tracked (m : BasePageManager) : Prop :=
  forall p xy, last_state p xy (key_events m) = Some 1 <->
               current_page m = Some p /\ xy ∈ presses m.

(** The calls an application and the link make on a page manager and its
    pages. *)
Inductive ManagerCall : Type :=
  | Call_grid_key (x y s : Z)
  | Call_switch_page (page_num : Z)
  | Call_page_write (p : nat) (op : LedOp)
  | Call_page_intensity (p : nat) (i : Z)
  | Call_page_render (p : nat).

Definition BasePageManager_call (c : ManagerCall) (m : BasePageManager)
  : outcome BasePageManager :=
  match c with
  | Call_grid_key x y s => BasePageManager_grid_key x y s m
  | Call_switch_page page_num => BasePageManager_switch_page page_num m
  | Call_page_write p op => Page_write p op m
  | Call_page_intensity p i => Page_led_intensity p i m
  | Call_page_render p => Page_render p m
  end.

(** A run of calls; a call that raises leaves the objects as they were at
    the raise, and the caller goes on with the next call. *)
Definition BasePageManager_calls (cs : list ManagerCall) (m : BasePageManager)
  : BasePageManager :=
  foldl (fun m c => fst (BasePageManager_call c m)) m cs.

(** The key events of the device, handled one after the other by a
    [SeqPageManager]. *)
Definition SeqPageManager_keys (keys : list (Z * Z * Z)) (m : SeqPageManager)
  : SeqPageManager :=
  foldl (fun m '(x, y, s) => fst (SeqPageManager_grid_key x y s m)) m keys.

(** ** [Grid.__sys_info]: the answers of the device *)

(** A link as [Grid()] and [connection_made] leave it: the default prefix
    stripped of its slash, no id and no size yet, [DISCONNECTED], no
    listener, and the address of its socket. *)
Definition fresh_grid : Grid :=
  {| prefix := "pymonome"; grid_id := None; grid_width := None;
     grid_height := None; varibright := true; state := DISCONNECTED;
     host := "127.0.0.1"; port := 50000; transport_closed := false;
     sent := []; event_handler := None; callbacks := [] |}.

Definition Grid_set_id (id : string) (g : Grid) : Grid :=
  {| prefix := prefix g; grid_id := Some id; grid_width := grid_width g;
     grid_height := grid_height g; varibright := varibright g; state := state g;
     host := host g; port := port g; transport_closed := transport_closed g;
     sent := sent g;
     event_handler := event_handler g; callbacks := callbacks g |}.

Definition Grid_set_size (w h : Z) (g : Grid) : Grid :=
  {| prefix := prefix g; grid_id := grid_id g; grid_width := Some w;
     grid_height := Some h; varibright := varibright g; state := state g;
     host := host g; port := port g; transport_closed := transport_closed g;
     sent := sent g;
     event_handler := event_handler g; callbacks := callbacks g |}.

Definition Grid_set_varibright (v : bool) (g : Grid) : Grid :=
  {| prefix := prefix g; grid_id := grid_id g; grid_width := grid_width g;
     grid_height := grid_height g; varibright := v; state := state g;
     host := host g; port := port g; transport_closed := transport_closed g;
     sent := sent g;
     event_handler := event_handler g; callbacks := callbacks g |}.

(** [Grid.__ready] *)
Definition Grid_ready (g : Grid) : Grid :=
  match event_handler g with
  | Some _ => Grid_call_handler on_grid_ready g
  | None => g
  end.

(** [re.match('^m\d+$', id)] for an id given by its characters, each below
    code point 256, where [\d] matches the digits 0 to 9 only: an [m], one
    digit or more, and then the end of the string or one newline that ends
    the string (where [$] matches too).  Characters are compared by code:
    48 to 57 for the digits, 109 for [m], 10 for the newline. *)
Definition is_digit (c : Ascii.ascii) : bool :=
  (48 <=? Ascii.nat_of_ascii c)%nat && (Ascii.nat_of_ascii c <=? 57)%nat.

Fixpoint digits_to_end (s : string) : bool :=
  match s with
  | EmptyString => true
  | String c rest =>
      if is_digit c then digits_to_end rest
      else (Ascii.nat_of_ascii c =? 10)%nat && String.eqb rest EmptyString
  end.

Definition matches_m_digits (id : string) : bool :=
  match id with
  | String c0 (String c1 rest) =>
      (Ascii.nat_of_ascii c0 =? 109)%nat && is_digit c1 && digits_to_end rest
  | _ => false
  end.

(** [Grid.__sys_info(addr, path, *args)], the handler of
    ['/sys/{id,size,host,port,prefix,rotation}'].  The record holds an id
    that is a string and sizes that are integers; for arguments of another
    type, which Python would store as they are, the model gives no answer
    ([None]).  The attribute [rotation], which nothing in the module reads,
    is not part of the record: of [self.rotation = args[0]] the subscript,
    which can raise, is kept. *)
Definition Grid_sys_info (path : string) (args : list OscArg) (g : Grid)
  : option (outcome Grid) :=
  let stored : option (outcome Grid) :=
    if String.eqb path "/sys/id" then
      match args with
      | [] => Some (raised g IndexError)
      | OStr id :: _ => Some (finished (Grid_set_id id g))
      | OInt _ :: _ => None
      end
    else if String.eqb path "/sys/size" then
      match args with
      | [] | [_] => Some (raised g IndexError)
      | OInt w :: OInt h :: _ => Some (finished (Grid_set_size w h g))
      | _ :: _ :: _ => None
      end
    else if String.eqb path "/sys/rotation" then
      match args with
      | [] => Some (raised g IndexError)
      | _ :: _ => Some (finished g)
      end
    else Some (finished g) in
  match stored with
  | None => None
  | Some (g1, Some e) => Some (g1, Some e)
  | Some (g1, None) =>
      match grid_id g1, grid_width g1, grid_height g1 with
      | Some id, Some _, Some _ =>
          let g2 := Grid_set_state READY g1 in
          let g3 := if matches_m_digits id then g2 else Grid_set_varibright false g2 in
          Some (finished (Grid_ready g3))
      | _, _, _ => Some (finished g1)
      end
  end.

(** The link after a sequence of such messages, each handled in turn; a
    handler that raises leaves the link as it was at the raise. *)
Fixpoint Grid_sys_infos (msgs : list (string * list OscArg)) (g : Grid) : option Grid :=
  match msgs with
  | [] => Some g
  | (path, args) :: rest =>
      match Grid_sys_info path args g with
      | Some (g1, _) => Grid_sys_infos rest g1
      | None => None
      end
  end.

(** ** [SumPageManager] *)

(** A [SumPageManager]: a [BasePageManager] with a switch button and, once
    the button has been pressed, a selected page. *)
Record SumPageManager : Type := mkSumManager {
  sum_base : BasePageManager;
  sum_switch_button : Z * Z;
  sum_switch_x : option Z;
  sum_switch_y : option Z;
  selected_page : option Z
}.

Definition on_sum_base (f : BasePageManager -> outcome BasePageManager)
    (m : SumPageManager) : outcome SumPageManager :=
  ({| sum_base := fst (f (sum_base m)); sum_switch_button := sum_switch_button m;
      sum_switch_x := sum_switch_x m; sum_switch_y := sum_switch_y m;
      selected_page := selected_page m |}, snd (f (sum_base m))).

Definition set_selected_page (sel : Z) (m : SumPageManager) : SumPageManager :=
  {| sum_base := sum_base m; sum_switch_button := sum_switch_button m;
     sum_switch_x := sum_switch_x m; sum_switch_y := sum_switch_y m;
     selected_page := Some sel |}.

(** [SumPageManager.ready] *)
Definition SumPageManager_ready (G : Globals) (m : SumPageManager)
  : outcome SumPageManager :=
  then_ (on_sum_base (BasePageManager_ready G) m)
        (fun m1 =>
           match from_far_edge (grid_width (grid (sum_base m1)))
                               (fst (sum_switch_button m1)) with
           | Raise e => raised m1 e
           | Ok sx =>
               let m2 := {| sum_base := sum_base m1;
                            sum_switch_button := sum_switch_button m1;
                            sum_switch_x := Some sx; sum_switch_y := sum_switch_y m1;
                            selected_page := selected_page m1 |} in
               match from_far_edge (grid_height (grid (sum_base m2)))
                                   (snd (sum_switch_button m2)) with
               | Raise e => raised m2 e
               | Ok sy =>
                   finished {| sum_base := sum_base m2;
                               sum_switch_button := sum_switch_button m2;
                               sum_switch_x := sum_switch_x m2; sum_switch_y := Some sy;
                               selected_page := selected_page m2 |}
               end
           end).

(** [SumPageManager.display_chooser]: [self.led_all(0)], then the row
    [[1 if i < len(self.pages) else 0 for i in range(self.width)]] at
    [self.height - 1], then the column of [[1] * self.height] at
    [self.selected_page]. *)
Definition SumPageManager_display_chooser (m : SumPageManager) : outcome SumPageManager :=
  then_ (on_sum_base (on_grid (Grid_led_all 0)) m)
    (fun m1 =>
       match grid_width (grid (sum_base m1)) with
       | None => raised m1 TypeError
       | Some w =>
           let page_row :=
             (fun i => if i <? Z.of_nat (length (pages (sum_base m1))) then 1 else 0)
               <$> py_range w in
           match grid_height (grid (sum_base m1)) with
           | None => raised m1 TypeError
           | Some h =>
               then_ (on_sum_base (on_grid (Grid_led_row 0 (h - 1) page_row)) m1)
                 (fun m2 =>
                    match selected_page m2 with
                    | None => raised m2 AttributeError
                    | Some sel =>
                        match grid_height (grid (sum_base m2)) with
                        | None => raised m2 TypeError
                        | Some h2 =>
                            on_sum_base
                              (on_grid (Grid_led_col sel 0 (replicate (Z.to_nat h2) 1)))
                              m2
                        end
                    end)
           end
       end).

(** [SumPageManager.grid_key] *)
Definition SumPageManager_grid_key (x y s : Z) (m : SumPageManager)
  : outcome SumPageManager :=
  let regular :=
    match current_page (sum_base m) with
    | None =>
        if x <? Z.of_nat (length (pages (sum_base m)))
        then SumPageManager_display_chooser (set_selected_page x m)
        else finished m
    | Some _ => on_sum_base (BasePageManager_grid_key x y s) m
    end in
  let switch :=
    if s =? 1 then
      match py_list_index (current_page (sum_base m)) (pages (sum_base m)) with
      | Raise e => raised m e
      | Ok i =>
          then_ (on_sum_base (BasePageManager_switch_page (-1)) (set_selected_page i m))
                SumPageManager_display_chooser
      end
    else
      match selected_page m with
      | None => raised m AttributeError
      | Some sel => on_sum_base (BasePageManager_switch_page sel) m
      end in
  if bool_decide (presses (sum_base m) = ∅) then
    match sum_switch_x m with
    | None => raised m AttributeError
    | Some sx =>
        if x =? sx then
          match sum_switch_y m with
          | None => raised m AttributeError
          | Some sy => if y =? sy then switch else regular
          end
        else regular
    end
  else regular.

(** The manager [m'] differs from [m] in the state of its link at most. *)
Definition same_but_link (m m' : SumPageManager) : Prop :=
  pages (sum_base m') = pages (sum_base m) /\
  heap (sum_base m') = heap (sum_base m) /\
  key_events (sum_base m') = key_events (sum_base m) /\
  sum_switch_x m' = sum_switch_x m /\
  sum_switch_y m' = sum_switch_y m /\
  presses (sum_base m') = presses (sum_base m) /\
  current_page (sum_base m') = current_page (sum_base m) /\
  selected_page m' = selected_page m.

(** The key events of the device, handled one after the other. *)
Definition SumPageManager_keys (keys : list (Z * Z * Z)) (m : SumPageManager)
  : SumPageManager :=
  foldl (fun m '(x, y, s) => fst (SumPageManager_grid_key x y s m)) m keys.

(** The manager [m] shows the chooser with the page index [sel] selected:
    no page is current, nothing is pressed, and apart from the link the
    manager is as [m0] was. *)
Definition chooser_shown (m0 m : SumPageManager) (sel : Z) : Prop :=
  pages (sum_base m) = pages (sum_base m0) /\
  heap (sum_base m) = heap (sum_base m0) /\
  key_events (sum_base m) = key_events (sum_base m0) /\
  sum_switch_x m = sum_switch_x m0 /\ sum_switch_y m = sum_switch_y m0 /\
  presses (sum_base m) = ∅ /\
  current_page (sum_base m) = None /\
  selected_page m = Some sel.

(** A [SumPageManager] of three pages with buffers on a ready 8 by 8 grid,
    with the attributes [switch_x] and [switch_y] assigned the position
    (7,7): page 0 current, nothing pressed. *)
Definition sum_manager : SumPageManager :=
  {| sum_base := set_presses ∅ three_page_manager;
     sum_switch_button := (-1, -1);
     sum_switch_x := Some 7;
     sum_switch_y := Some 7;
     selected_page := None |}.

(** ** [App] *)

Definition Grid_set_handler (h : option nat) (g : Grid) : Grid :=
  {| prefix := prefix g; grid_id := grid_id g; grid_width := grid_width g;
     grid_height := grid_height g; varibright := varibright g; state := state g;
     host := host g; port := port g; transport_closed := transport_closed g;
     sent := sent g;
     event_handler := h; callbacks := callbacks g |}.

(** The links and the applications as objects that refer to each other:
    [App.grid] holds a link or [None], a link's [event_handler] an
    application or [None].  Objects are named by their identities. *)
Record World : Type := mkWorld {
  world_grids : nat -> Grid;
  world_apps : nat -> option nat
}.

(** The assignment of one attribute of one object. *)
Definition assign {V : Type} (k : nat) (v : V) (f : nat -> V) : nat -> V :=
  fun j => if decide (j = k) then v else f j.

(** [App.attach(grid)] *)
Definition App_attach (a gr : nat) (w : World) : World :=
  {| world_grids :=
       assign gr (Grid_connect (Grid_set_handler (Some a) (world_grids w gr)))
              (world_grids w);
     world_apps := assign a (Some gr) (world_apps w) |}.

(** [App.detach]; with [self.grid] at [None] the first assignment raises. *)
Definition App_detach (a : nat) (w : World) : outcome World :=
  match world_apps w a with
  | None => raised w AttributeError
  | Some gr =>
      finished {| world_grids :=
                    assign gr (Grid_set_handler None (world_grids w gr)) (world_grids w);
                  world_apps := assign a None (world_apps w) |}
  end.

(** [App.on_grid_disconnect] *)
Definition App_on_grid_disconnect (a : nat) (w : World) : outcome World :=
  App_detach a w.

(** The link [gr] receives a key message. *)
Definition World_grid_key (gr : nat) (x y s : Z) (w : World) : World :=
  {| world_grids := assign gr (Grid_handle_grid_key x y s (world_grids w gr))
                           (world_grids w);
     world_apps := world_apps w |}.

(** A world of new objects: links as [fresh_grid], applications as
    [App()], with [self.grid] at [None]. *)
Definition fresh_world : World :=
  {| world_grids := fun _ => fresh_grid;
     world_apps := fun _ => None |}.
(** * Properties *)

(** ** Row packing *)

Lemma binary_cases (b : Z) : binary b = true -> b = 0 \/ b = 1.
Proof.
  unfold binary. intros H. apply orb_true_iff in H.
  destruct H as [H | H]; apply Z.eqb_eq in H; auto.
Qed.

Lemma binary_row8_inv (row : list Z) :
  binary_row8 row = true ->
  exists b0 b1 b2 b3 b4 b5 b6 b7,
    row = [b0; b1; b2; b3; b4; b5; b6; b7] /\
    Forall (fun b => b = 0 \/ b = 1) row.
Proof.
  unfold binary_row8. intros H. apply andb_true_iff in H as [Hlen Hbin].
  apply Nat.eqb_eq in Hlen.
  do 8 (destruct row as [| ? row]; [discriminate Hlen |]).
  destruct row; [| discriminate Hlen].
  do 8 eexists. split; [reflexivity |].
  rewrite forallb_forall in Hbin.
  apply Forall_forall. intros b Hb. apply binary_cases, Hbin.
  by apply list_elem_of_In.
Qed.

Lemma pack_row_binary (row : list Z) :
  binary_row8 row = true ->
  pack_row row = Ok (shift_sum row) /\
  0 <= shift_sum row <= 255 /\
  unpack_row (shift_sum row) = row.
Proof.
  intros H. destruct (binary_row8_inv row H) as (b0 & b1 & b2 & b3 & b4 & b5 & b6 & b7 & -> & Hb).
  repeat match goal with
         | Hb : Forall _ (_ :: _) |- _ => apply Forall_cons in Hb as [? Hb]
         end.
  repeat match goal with
         | Hx : _ = 0 \/ _ = 1 |- _ => destruct Hx as [-> | ->]
         end; vm_compute; intuition congruence.
Qed.

Lemma unpack_row_below_256 :
  forallb (fun k => binary_row8 (unpack_row (Z.of_nat k)) &&
                    match pack_row (unpack_row (Z.of_nat k)) with
                    | Ok m => m =? Z.of_nat k
                    | Raise _ => false
                    end) (seq 0 256) = true.
Proof. vm_compute. reflexivity. Qed.

Lemma pack_unpack_row (n : Z) :
  0 <= n <= 255 ->
  binary_row8 (unpack_row n) = true /\ pack_row (unpack_row n) = Ok n.
Proof.
  intros Hn. pose proof unpack_row_below_256 as H.
  rewrite forallb_forall in H.
  specialize (H (Z.to_nat n)).
  rewrite Z2Nat.id in H by lia.
  assert (Hin : In (Z.to_nat n) (seq 0 256)) by (apply in_seq; lia).
  apply H in Hin. apply andb_true_iff in Hin as [H1 H2].
  split; [exact H1 |].
  destruct (pack_row (unpack_row n)) as [m | e]; [| discriminate H2].
  apply Z.eqb_eq in H2. by subst.
Qed.

(** C9. For every eight-element binary row, [pack_row] returns the sum over
    the columns of [row[col] << col], a value in 0..255 from which
    extracting bit [i] as column [i] gives the row back; and every integer
    of 0..255 is the packing of the binary row obtained from its bits, so
    the packing is a bijection between binary rows and 0..255. *)
Theorem pack_row_bijection (row : list Z) (n : Z) :
  binary_row8 row = true ->
  0 <= n <= 255 ->
  (pack_row row = Ok (shift_sum row) /\
   0 <= shift_sum row <= 255 /\
   unpack_row (shift_sum row) = row) /\
  (binary_row8 (unpack_row n) = true /\ pack_row (unpack_row n) = Ok n).
Proof.
  intros Hrow Hn. split.
  - by apply pack_row_binary.
  - by apply pack_unpack_row.
Qed.

Lemma pack_row_bijection_witness :
  (pack_row [1; 0; 1; 1; 0; 0; 1; 0] = Ok (shift_sum [1; 0; 1; 1; 0; 0; 1; 0]) /\
   0 <= shift_sum [1; 0; 1; 1; 0; 0; 1; 0] <= 255 /\
   unpack_row (shift_sum [1; 0; 1; 1; 0; 0; 1; 0]) = [1; 0; 1; 1; 0; 0; 1; 0]) /\
  (binary_row8 (unpack_row 77) = true /\ pack_row (unpack_row 77) = Ok 77).
Proof.
  apply (pack_row_bijection [1; 0; 1; 1; 0; 0; 1; 0] 77).
  - reflexivity.
  - lia.
Defined.

(** ** Loops and stores: generic facts *)

(** An invariant kept by every iteration is kept by the loop, also when the
    loop is cut short by an exception. *)
Lemma for_each_inv {S A : Type} (P : S -> Prop) (body : A -> S -> outcome S)
    (l : list A) (s : S) :
  (forall v s', In v l -> P s' -> P (fst (body v s'))) ->
  P s -> P (fst (for_each body l s)).
Proof.
  revert s. induction l as [| v l IH]; intros s Hbody Hs; [exact Hs |].
  simpl. pose proof (Hbody v s (or_introl eq_refl) Hs) as Hv.
  destruct (body v s) as [s1 [e |]]; simpl in *; [exact Hv |].
  apply IH; [| exact Hv]. intros w s' Hw. apply Hbody. by right.
Qed.

Lemma store_level_inv (P : GridBuffer -> Prop) (y x l : Z) (b : GridBuffer) :
  P b ->
  (forall r c row, levels b !! r = Some row ->
     P {| levels := <[r := <[c := l]> row]> (levels b);
          buf_width := buf_width b; buf_height := buf_height b |}) ->
  P (fst (store_level y x l b)).
Proof.
  intros Hb Hstep. unfold store_level.
  destruct (py_index (length (levels b)) y) as [r |]; [| exact Hb].
  destruct (levels b !! r) as [row |] eqn:Hrow; [| exact Hb].
  destruct (py_index (length row) x) as [c |]; [| exact Hb].
  simpl. by apply Hstep.
Qed.

(** ** [GridBuffer]: what the LED operations can store *)

Lemma In_enumerate {A : Type} (l : list A) (i : Z) (v : A) :
  In (i, v) (enumerate l) -> In v l.
Proof.
  intros H. apply list_elem_of_In in H. unfold enumerate in H.
  apply elem_of_lookup_imap in H as (k & w & Heq & Hk).
  injection Heq as _ ->. apply list_elem_of_In. by eapply list_elem_of_lookup_2.
Qed.

Lemma In_py_take {A : Type} (n : Z) (l : list A) (v : A) :
  In v (py_take n l) -> In v l.
Proof.
  unfold py_take. intros H. apply list_elem_of_In.
  destruct (0 <=? n); apply list_elem_of_In, elem_of_take in H as (i & Hi & _);
    by eapply list_elem_of_lookup_2.
Qed.

(** All ten operations write through [store_level] only.  A property of the
    surface that every store of an admissible value keeps is therefore kept
    by every operation whose values are admissible. *)
Section StoreInvariant.
Variable V : Z -> Prop.
Variable P : GridBuffer -> Prop.
Hypothesis store_keeps :
  forall y x l b, V l -> P b -> P (fst (store_level y x l b)).

Lemma led_level_set_keeps (x y l : Z) (b : GridBuffer) :
  V l -> P b -> P (fst (GridBuffer_led_level_set x y l b)).
Proof.
  intros Hl Hb. unfold GridBuffer_led_level_set.
  destruct ((x <? buf_width b) && (y <? buf_height b)); [| exact Hb].
  by apply store_keeps.
Qed.

Lemma led_level_all_keeps (l : Z) (b : GridBuffer) :
  V l -> P b -> P (fst (GridBuffer_led_level_all l b)).
Proof.
  intros Hl Hb. unfold GridBuffer_led_level_all.
  apply for_each_inv; [| exact Hb]. intros x s _ Hs.
  apply for_each_inv; [| exact Hs]. intros y s' _ Hs'.
  by apply store_keeps.
Qed.

Lemma led_level_row_keeps (xo y : Z) (data : list Z) (b : GridBuffer) :
  Forall V data -> P b -> P (fst (GridBuffer_led_level_row xo y data b)).
Proof.
  intros Hd Hb. unfold GridBuffer_led_level_row.
  destruct (y <? buf_height b); [| exact Hb].
  apply for_each_inv; [| exact Hb]. intros [x l] s Hin Hs.
  apply store_keeps; [| exact Hs].
  apply In_enumerate, In_py_take in Hin.
  rewrite Forall_forall in Hd. by apply Hd, list_elem_of_In.
Qed.

Lemma led_level_col_keeps (x yo : Z) (data : list Z) (b : GridBuffer) :
  Forall V data -> P b -> P (fst (GridBuffer_led_level_col x yo data b)).
Proof.
  intros Hd Hb. unfold GridBuffer_led_level_col.
  destruct (x <? buf_width b); [| exact Hb].
  apply for_each_inv; [| exact Hb]. intros [y l] s Hin Hs.
  apply store_keeps; [| exact Hs].
  apply In_enumerate, In_py_take in Hin.
  rewrite Forall_forall in Hd. by apply Hd, list_elem_of_In.
Qed.

Lemma led_level_map_keeps (xo yo : Z) (data : list (list Z)) (b : GridBuffer) :
  Forall (Forall V) data -> P b -> P (fst (GridBuffer_led_level_map xo yo data b)).
Proof.
  intros Hd Hb. unfold GridBuffer_led_level_map.
  apply for_each_inv; [| exact Hb]. intros [r row] s Hin Hs.
  apply led_level_row_keeps; [| exact Hs].
  apply In_enumerate in Hin.
  rewrite Forall_forall in Hd. by apply Hd, list_elem_of_In.
Qed.

(** The binary operations store [s * 15]. *)
Lemma led_set_keeps (x y s : Z) (b : GridBuffer) :
  V (s * 15) -> P b -> P (fst (GridBuffer_led_set x y s b)).
Proof. apply led_level_set_keeps. Qed.

Lemma led_all_keeps (s : Z) (b : GridBuffer) :
  V (s * 15) -> P b -> P (fst (GridBuffer_led_all s b)).
Proof. apply led_level_all_keeps. Qed.

Lemma led_row_keeps (xo y : Z) (data : list Z) (b : GridBuffer) :
  Forall (fun s => V (s * 15)) data -> P b ->
  P (fst (GridBuffer_led_row xo y data b)).
Proof.
  intros Hd Hb. unfold GridBuffer_led_row.
  apply for_each_inv; [| exact Hb]. intros [x s] b' Hin Hb'.
  apply led_set_keeps; [| exact Hb'].
  apply In_enumerate in Hin.
  rewrite Forall_forall in Hd. by apply Hd, list_elem_of_In.
Qed.

Lemma led_col_keeps (x yo : Z) (data : list Z) (b : GridBuffer) :
  Forall (fun s => V (s * 15)) data -> P b ->
  P (fst (GridBuffer_led_col x yo data b)).
Proof.
  intros Hd Hb. unfold GridBuffer_led_col.
  apply for_each_inv; [| exact Hb]. intros [y s] b' Hin Hb'.
  apply led_set_keeps; [| exact Hb'].
  apply In_enumerate in Hin.
  rewrite Forall_forall in Hd. by apply Hd, list_elem_of_In.
Qed.

Lemma led_map_keeps (xo yo : Z) (data : list (list Z)) (b : GridBuffer) :
  Forall (Forall (fun s => V (s * 15))) data -> P b ->
  P (fst (GridBuffer_led_map xo yo data b)).
Proof.
  intros Hd Hb. unfold GridBuffer_led_map.
  apply for_each_inv; [| exact Hb]. intros [r row] b' Hin Hb'.
  apply led_row_keeps; [| exact Hb'].
  apply In_enumerate in Hin.
  rewrite Forall_forall in Hd. by apply Hd, list_elem_of_In.
Qed.
End StoreInvariant.

Lemma level_ok_spec (l : Z) : level_ok l = true <-> 0 <= l <= 15.
Proof. unfold level_ok. rewrite andb_true_iff, Z.leb_le, Z.leb_le. tauto. Qed.

Lemma binary_spec (s : Z) : binary s = true <-> s = 0 \/ s = 1.
Proof. unfold binary. rewrite orb_true_iff, Z.eqb_eq, Z.eqb_eq. tauto. Qed.

Lemma forallb_Forall {A : Type} (f : A -> bool) (Q : A -> Prop) (l : list A) :
  (forall a, f a = true <-> Q a) -> forallb f l = true <-> Forall Q l.
Proof.
  intros Hf. rewrite forallb_forall, Forall_forall.
  split; intros H a Ha; apply Hf, H; by apply list_elem_of_In.
Qed.

Lemma levels_in_range_spec (b : GridBuffer) :
  levels_in_range b = true <-> In_range b.
Proof.
  unfold levels_in_range, In_range.
  apply forallb_Forall. intros row. apply forallb_Forall, level_ok_spec.
Qed.

Lemma store_level_in_range (y x l : Z) (b : GridBuffer) :
  0 <= l <= 15 -> In_range b -> In_range (fst (store_level y x l b)).
Proof.
  intros Hl Hb. apply store_level_inv; [exact Hb |].
  intros r c row Hrow. unfold In_range in *. simpl.
  apply Forall_insert; [exact Hb |].
  apply Forall_insert; [| exact Hl].
  by apply (Forall_lookup_1 _ _ _ _ Hb Hrow).
Qed.

Lemma only_binary_writes_refl (b : GridBuffer) : only_binary_writes b b.
Proof.
  unfold only_binary_writes.
  apply Forall_Forall2_diag, Forall_forall. intros row _.
  apply Forall_Forall2_diag, Forall_forall. auto.
Qed.

Lemma only_binary_writes_trans (b1 b2 b3 : GridBuffer) :
  only_binary_writes b1 b2 -> only_binary_writes b2 b3 -> only_binary_writes b1 b3.
Proof.
  unfold only_binary_writes. apply Forall2_trans. intros r1 r2 r3.
  apply Forall2_trans. intros x y z Hxy Hyz. intuition congruence.
Qed.

Lemma store_level_binary_write (b0 : GridBuffer) (y x l : Z) (b : GridBuffer) :
  l = 0 \/ l = 15 -> only_binary_writes b0 b ->
  only_binary_writes b0 (fst (store_level y x l b)).
Proof.
  intros Hl Hb. apply store_level_inv; [exact Hb |].
  intros r c row Hrow. eapply only_binary_writes_trans; [exact Hb |].
  unfold only_binary_writes. simpl.
  rewrite <- (list_insert_id (levels b) r row Hrow) at 1.
  apply Forall2_insert.
  - apply Forall_Forall2_diag, Forall_forall. intros row' _.
    apply Forall_Forall2_diag, Forall_forall. auto.
  - destruct (decide (c < length row)%nat) as [Hc | Hc].
    + destruct (lookup_lt_is_Some_2 row c Hc) as [v Hv].
      rewrite <- (list_insert_id row c v Hv) at 1.
      apply Forall2_insert; [| auto].
      apply Forall_Forall2_diag, Forall_forall. auto.
    + rewrite list_insert_ge by lia.
      apply Forall_Forall2_diag, Forall_forall. auto.
Qed.

Lemma binary_times_15 (s : Z) : s = 0 \/ s = 1 -> s * 15 = 0 \/ s * 15 = 15.
Proof. lia. Qed.

Lemma binary_level (s : Z) : s = 0 \/ s = 1 -> 0 <= s * 15 <= 15.
Proof. lia. Qed.

Lemma Forall_binary_level (data : list Z) :
  forallb binary data = true -> Forall (fun s => 0 <= s * 15 <= 15) data.
Proof.
  intros H. apply (forallb_Forall _ _ _ binary_spec) in H.
  eapply Forall_impl; [exact H |]. intros s. apply binary_level.
Qed.

Lemma Forall_binary_write (data : list Z) :
  forallb binary data = true -> Forall (fun s => s * 15 = 0 \/ s * 15 = 15) data.
Proof.
  intros H. apply (forallb_Forall _ _ _ binary_spec) in H.
  eapply Forall_impl; [exact H |]. intros s. apply binary_times_15.
Qed.

Lemma forallb_nested {A : Type} (f : A -> bool) (Q : A -> Prop) (data : list (list A)) :
  (forall row, forallb f row = true -> Forall Q row) ->
  forallb (forallb f) data = true -> Forall (Forall Q) data.
Proof.
  intros Hrow H. rewrite forallb_forall in H. apply Forall_forall.
  intros row Hin. apply Hrow, H. by apply list_elem_of_In.
Qed.

Lemma GridBuffer_apply_in_range (op : LedOp) (b : GridBuffer) :
  op_values_ok op = true -> In_range b -> In_range (fst (GridBuffer_apply op b)).
Proof.
  pose proof store_level_in_range as Hst.
  destruct op; simpl; intros Hv Hb.
  - apply (led_set_keeps _ _ Hst); [apply binary_level, binary_spec, Hv | exact Hb].
  - apply (led_all_keeps _ _ Hst); [apply binary_level, binary_spec, Hv | exact Hb].
  - apply (led_map_keeps _ _ Hst); [| exact Hb].
    revert Hv. apply forallb_nested, Forall_binary_level.
  - apply (led_row_keeps _ _ Hst); [by apply Forall_binary_level | exact Hb].
  - apply (led_col_keeps _ _ Hst); [by apply Forall_binary_level | exact Hb].
  - apply (led_level_set_keeps _ _ Hst); [by apply level_ok_spec | exact Hb].
  - apply (led_level_all_keeps _ _ Hst); [by apply level_ok_spec | exact Hb].
  - apply (led_level_map_keeps _ _ Hst); [| exact Hb].
    revert Hv. apply forallb_nested. intros row. apply forallb_Forall, level_ok_spec.
  - apply (led_level_row_keeps _ _ Hst); [| exact Hb].
    revert Hv. apply forallb_Forall, level_ok_spec.
  - apply (led_level_col_keeps _ _ Hst); [| exact Hb].
    revert Hv. apply forallb_Forall, level_ok_spec.
Qed.

Lemma GridBuffer_apply_binary_writes (op : LedOp) (b : GridBuffer) :
  is_binary_op op = true -> op_values_ok op = true ->
  only_binary_writes b (fst (GridBuffer_apply op b)).
Proof.
  pose proof (store_level_binary_write b) as Hst.
  pose proof (only_binary_writes_refl b) as Hb.
  destruct op; simpl; intros Hbin Hv; try discriminate Hbin.
  - apply (led_set_keeps _ _ Hst); [apply binary_times_15, binary_spec, Hv | exact Hb].
  - apply (led_all_keeps _ _ Hst); [apply binary_times_15, binary_spec, Hv | exact Hb].
  - apply (led_map_keeps _ _ Hst); [| exact Hb].
    revert Hv. apply forallb_nested, Forall_binary_write.
  - apply (led_row_keeps _ _ Hst); [by apply Forall_binary_write | exact Hb].
  - apply (led_col_keeps _ _ Hst); [by apply Forall_binary_write | exact Hb].
Qed.

Lemma GridBuffer_run_in_range (ops : list LedOp) (b : GridBuffer) :
  forallb op_values_ok ops = true -> In_range b -> In_range (GridBuffer_run ops b).
Proof.
  revert b. induction ops as [| op ops IH]; intros b Hops Hb; [exact Hb |].
  simpl in Hops. apply andb_true_iff in Hops as [Hop Hops].
  simpl. apply IH; [exact Hops |]. by apply GridBuffer_apply_in_range.
Qed.

(** C2, as the code has it.  The operations store the level they are given,
    unclamped.  When every level argument lies in [[0,15]] and every binary
    argument is 0 or 1 (coordinates and offsets arbitrary, operations that
    raise included), every stored level lies in [[0,15]] after any sequence
    of operations, and a binary operation issued next changes cells to 0 or
    15 only. *)
Theorem led_ops_keep_levels_in_range (ops : list LedOp) (op : LedOp) (b : GridBuffer) :
  levels_in_range b = true ->
  forallb op_values_ok ops = true ->
  is_binary_op op = true ->
  op_values_ok op = true ->
  levels_in_range (GridBuffer_run ops b) = true /\
  levels_in_range (GridBuffer_run (ops ++ [op]) b) = true /\
  only_binary_writes (GridBuffer_run ops b)
                     (fst (GridBuffer_apply op (GridBuffer_run ops b))).
Proof.
  intros Hb Hops Hbin Hop. apply levels_in_range_spec in Hb.
  split; [| split].
  - by apply levels_in_range_spec, GridBuffer_run_in_range.
  - apply levels_in_range_spec, GridBuffer_run_in_range; [| exact Hb].
    rewrite forallb_app, Hops. simpl. by rewrite Hop.
  - by apply GridBuffer_apply_binary_writes.
Qed.

Lemma led_ops_keep_levels_in_range_witness :
  levels_in_range (GridBuffer_run example_writes (GridBuffer_init 8 8)) = true /\
  levels_in_range (GridBuffer_run (example_writes ++ [Op_led_col 7 5 [1; 0; 1; 1]])
                                  (GridBuffer_init 8 8)) = true /\
  only_binary_writes
    (GridBuffer_run example_writes (GridBuffer_init 8 8))
    (fst (GridBuffer_apply (Op_led_col 7 5 [1; 0; 1; 1])
                           (GridBuffer_run example_writes (GridBuffer_init 8 8)))).
Proof.
  apply (led_ops_keep_levels_in_range example_writes (Op_led_col 7 5 [1; 0; 1; 1])
           (GridBuffer_init 8 8)); reflexivity.
Defined.

(** C2 as stated fails: a level outside [[0,15]] is stored as given. *)
Lemma led_level_set_stores_any_level :
  levels_in_range (GridBuffer_init 8 8) = true /\
  load_level 0 0 (GridBuffer_run [Op_led_level_set 0 0 100] (GridBuffer_init 8 8))
    = Ok 100 /\
  levels_in_range (GridBuffer_run [Op_led_level_set 0 0 100] (GridBuffer_init 8 8))
    = false.
Proof. repeat split; reflexivity. Qed.

(** ** [GridBuffer]: stores, position by position *)

Lemma py_index_wrap (len : nat) (i : Z) :
  - Z.of_nat len <= i < Z.of_nat len ->
  py_index len i = Some (wrap len i) /\ (wrap len i < len)%nat.
Proof.
  intros Hi. unfold py_index, wrap.
  destruct (Z.ltb_spec i 0) as [Hneg | Hpos].
  - replace (0 <=? i) with false by (symmetry; apply Z.leb_gt; lia).
    replace (- Z.of_nat len <=? i) with true by (symmetry; apply Z.leb_le; lia).
    simpl. split; [reflexivity | lia].
  - replace (0 <=? i) with true by (symmetry; apply Z.leb_le; lia).
    replace (i <? Z.of_nat len) with true by (symmetry; apply Z.ltb_lt; lia).
    simpl. split; [reflexivity | lia].
Qed.

Lemma py_index_out (len : nat) (i : Z) :
  i < - Z.of_nat len \/ Z.of_nat len <= i -> py_index len i = None.
Proof.
  intros Hi. unfold py_index.
  destruct (Z.leb_spec 0 i), (Z.ltb_spec i (Z.of_nat len)),
    (Z.leb_spec (- Z.of_nat len) i), (Z.ltb_spec i 0); simpl; try reflexivity; lia.
Qed.

Lemma shape_init (W H : nat) : shape W H (GridBuffer_init (Z.of_nat W) (Z.of_nat H)).
Proof.
  unfold shape, GridBuffer_init, py_range. simpl.
  rewrite !Nat2Z.id, !length_fmap, !length_seq.
  repeat split. apply Forall_fmap, Forall_forall. intros i _. simpl.
  by rewrite !length_fmap, length_seq.
Qed.

Lemma level_at_init (W H x y : nat) :
  (x < W)%nat -> (y < H)%nat ->
  level_at (GridBuffer_init (Z.of_nat W) (Z.of_nat H)) x y = Some 0.
Proof.
  intros Hx Hy. unfold level_at, GridBuffer_init, py_range. simpl.
  rewrite !Nat2Z.id, list_lookup_fmap, list_lookup_fmap.
  rewrite lookup_seq_lt by lia. simpl.
  rewrite list_lookup_fmap, list_lookup_fmap, lookup_seq_lt by lia. reflexivity.
Qed.

Lemma shape_row (W H : nat) (b : GridBuffer) (y : nat) :
  shape W H b -> (y < H)%nat ->
  exists row, levels b !! y = Some row /\ length row = W.
Proof.
  intros (_ & _ & Hlen & Hrows) Hy.
  destruct (lookup_lt_is_Some_2 (levels b) y) as [row Hrow]; [lia |].
  exists row. split; [exact Hrow |].
  by apply (Forall_lookup_1 _ _ _ _ Hrows Hrow).
Qed.

Lemma shape_put (W H : nat) (x y : nat) (l : Z) (b : GridBuffer) :
  shape W H b -> shape W H (put x y l b).
Proof.
  intros Hb. unfold put.
  destruct (levels b !! y) as [row |] eqn:Hrow; [| exact Hb].
  destruct Hb as (Hw & Hh & Hlen & Hrows).
  unfold shape. simpl. rewrite length_insert. repeat split; try assumption.
  apply Forall_insert; [exact Hrows |].
  rewrite length_insert. by apply (Forall_lookup_1 _ _ _ _ Hrows Hrow).
Qed.

Lemma store_level_put (W H : nat) (y x l : Z) (b : GridBuffer) :
  shape W H b ->
  - Z.of_nat H <= y < Z.of_nat H ->
  - Z.of_nat W <= x < Z.of_nat W ->
  store_level y x l b = finished (put (wrap W x) (wrap H y) l b).
Proof.
  intros Hb Hy Hx. unfold store_level, put.
  pose proof Hb as (_ & _ & Hlen & _).
  destruct (py_index_wrap H y Hy) as [Hiy Hly].
  destruct (py_index_wrap W x Hx) as [Hix Hlx].
  rewrite Hlen, Hiy.
  destruct (shape_row W H b _ Hb Hly) as (row & -> & Hrl).
  by rewrite Hrl, Hix.
Qed.

Lemma store_level_raises (W H : nat) (y x l : Z) (b : GridBuffer) :
  shape W H b ->
  (y < - Z.of_nat H \/ Z.of_nat H <= y) \/
  (- Z.of_nat H <= y < Z.of_nat H /\ (x < - Z.of_nat W \/ Z.of_nat W <= x)) ->
  store_level y x l b = raised b IndexError.
Proof.
  intros Hb Hout. unfold store_level.
  pose proof Hb as (_ & _ & Hlen & _). rewrite Hlen.
  destruct Hout as [Hy | [Hy Hx]].
  - by rewrite py_index_out.
  - destruct (py_index_wrap H y Hy) as [-> Hly].
    destruct (shape_row W H b _ Hb Hly) as (row & -> & Hrl).
    by rewrite Hrl, py_index_out.
Qed.

Lemma level_at_put (W H : nat) (x y : nat) (l : Z) (b : GridBuffer) (x' y' : nat) :
  shape W H b -> (x < W)%nat -> (y < H)%nat ->
  level_at (put x y l b) x' y' =
    if decide (x' = x /\ y' = y) then Some l else level_at b x' y'.
Proof.
  intros Hb Hx Hy. unfold put, level_at.
  destruct (shape_row W H b y Hb Hy) as (row & Hrow & Hrl).
  rewrite Hrow. simpl.
  destruct (decide (y' = y)) as [-> | Hne].
  - rewrite list_lookup_insert_eq by (destruct Hb as (_ & _ & -> & _); lia).
    rewrite Hrow.
    destruct (decide (x' = x)) as [-> | Hnx].
    + rewrite list_lookup_insert_eq by lia.
      by rewrite decide_True.
    + rewrite list_lookup_insert_ne by done.
      rewrite decide_False; [done | tauto].
  - rewrite list_lookup_insert_ne by done.
    rewrite decide_False; [done | tauto].
Qed.

Lemma for_each_ext {S A : Type} (f g : A -> S -> outcome S) (l : list A) (s : S) :
  (forall a s', f a s' = g a s') -> for_each f l s = for_each g l s.
Proof.
  intros Hfg. revert s. induction l as [| a l IH]; intros s; [reflexivity |].
  simpl. rewrite Hfg. destruct (g a s) as [s' [e |]]; simpl; [reflexivity | apply IH].
Qed.

(** A loop of stores at valid subscripts runs to its end and amounts to a
    left fold of [put]. *)
Section StoreLoop.
Context {A : Type}.
Variables (W H : nat) (fx fy fv : A -> Z).

Local Abbreviation put_item := (put_item W H fx fy fv).

Lemma shape_foldl_put (items : list A) (b : GridBuffer) :
  shape W H b -> shape W H (foldl put_item b items).
Proof.
  revert b. induction items as [| a items IH]; intros b Hb; [exact Hb |].
  simpl. apply IH. by apply shape_put.
Qed.

Lemma for_each_store (items : list A) (b : GridBuffer) :
  shape W H b ->
  (forall a, In a items ->
     - Z.of_nat H <= fy a < Z.of_nat H /\ - Z.of_nat W <= fx a < Z.of_nat W) ->
  for_each (fun a => store_level (fy a) (fx a) (fv a)) items b =
    finished (foldl put_item b items).
Proof.
  revert b. induction items as [| a items IH]; intros b Hb Hin; [reflexivity |].
  simpl. destruct (Hin a (or_introl eq_refl)) as [Hy Hx].
  rewrite (store_level_put W H) by assumption. simpl.
  apply IH; [by apply shape_put |]. intros a' Ha'. apply Hin. by right.
Qed.

Lemma level_at_foldl_put_other (items : list A) (b : GridBuffer) (x y : nat) :
  shape W H b ->
  (forall a, In a items ->
     - Z.of_nat H <= fy a < Z.of_nat H /\ - Z.of_nat W <= fx a < Z.of_nat W) ->
  (forall a, In a items -> ~ (x = wrap W (fx a) /\ y = wrap H (fy a))) ->
  level_at (foldl put_item b items) x y = level_at b x y.
Proof.
  revert b. induction items as [| a items IH]; intros b Hb Hin Hne; [reflexivity |].
  simpl. rewrite IH.
  - destruct (Hin a (or_introl eq_refl)) as [Hy Hx].
    unfold put_item. rewrite (level_at_put W H); try assumption.
    + rewrite decide_False; [reflexivity |]. apply Hne. by left.
    + apply py_index_wrap, Hx.
    + apply py_index_wrap, Hy.
  - by apply shape_put.
  - intros a' Ha'. apply Hin. by right.
  - intros a' Ha'. apply Hne. by right.
Qed.

Lemma level_at_foldl_put_at (items : list A) (b : GridBuffer) (i : nat) (a : A) :
  shape W H b ->
  (forall a, In a items ->
     - Z.of_nat H <= fy a < Z.of_nat H /\ - Z.of_nat W <= fx a < Z.of_nat W) ->
  items !! i = Some a ->
  (forall j a', (i < j)%nat -> items !! j = Some a' ->
     ~ (wrap W (fx a) = wrap W (fx a') /\ wrap H (fy a) = wrap H (fy a'))) ->
  level_at (foldl put_item b items) (wrap W (fx a)) (wrap H (fy a)) = Some (fv a).
Proof.
  intros Hb Hin Hi Hlater.
  rewrite <- (take_drop_middle items i a Hi) in *.
  rewrite foldl_app. simpl.
  assert (Ha : In a (take i items ++ a :: drop (S i) items))
    by (apply in_or_app; right; by left).
  destruct (Hin a Ha) as [Hy Hx].
  rewrite level_at_foldl_put_other.
  - unfold put_item at 1. rewrite (level_at_put W H).
    + by rewrite decide_True.
    + by apply shape_foldl_put.
    + apply py_index_wrap, Hx.
    + apply py_index_wrap, Hy.
  - apply shape_put. by apply shape_foldl_put.
  - intros a' Ha'. apply Hin, in_or_app. right. by right.
  - intros a' Ha'. apply list_elem_of_In, list_elem_of_lookup in Ha' as [j Hj].
    apply (Hlater (S i + j)%nat a'); [lia |].
    rewrite lookup_app_r by (rewrite length_take; apply lookup_lt_Some in Hi; lia).
    rewrite length_take.
    apply lookup_lt_Some in Hi.
    replace (S i + j - i `min` length items)%nat with (S j) by lia.
    simpl. exact Hj.
Qed.
End StoreLoop.

Lemma enumerate_lookup {A : Type} (l : list A) (i : nat) :
  enumerate l !! i = (fun v => (Z.of_nat i, v)) <$> l !! i.
Proof. unfold enumerate. by rewrite list_lookup_imap. Qed.

Lemma In_enumerate_inv {A : Type} (l : list A) (a : Z * A) :
  In a (enumerate l) ->
  exists i, l !! i = Some (snd a) /\ fst a = Z.of_nat i.
Proof.
  intros H. apply list_elem_of_In, list_elem_of_lookup in H as [i Hi].
  rewrite enumerate_lookup in Hi. exists i.
  destruct (l !! i) as [v |]; [| discriminate Hi].
  injection Hi as <-. by split.
Qed.

Lemma py_take_lookup {A : Type} (n : Z) (l : list A) (i : nat) (v : A) :
  0 <= n -> py_take n l !! i = Some v <-> l !! i = Some v /\ Z.of_nat i < n.
Proof.
  intros Hn. unfold py_take.
  replace (0 <=? n) with true by (symmetry; apply Z.leb_le; lia).
  rewrite lookup_take_Some. split; intros [? ?]; split; try assumption; lia.
Qed.

(** ** [GridBuffer]: negative coordinates *)

Lemma led_level_set_wraps (W H : nat) (b : GridBuffer) (x y l : Z) :
  shape W H b ->
  - Z.of_nat W <= x < Z.of_nat W ->
  - Z.of_nat H <= y < Z.of_nat H ->
  GridBuffer_led_level_set x y l b = finished (put (wrap W x) (wrap H y) l b).
Proof.
  intros Hb Hx Hy. unfold GridBuffer_led_level_set.
  pose proof Hb as (Hw & Hh & _). rewrite Hw, Hh.
  replace (x <? Z.of_nat W) with true by (symmetry; apply Z.ltb_lt; lia).
  replace (y <? Z.of_nat H) with true by (symmetry; apply Z.ltb_lt; lia).
  simpl. by apply (store_level_put W H).
Qed.

Lemma led_level_row_wraps (W H : nat) (b : GridBuffer) (xo y : Z) (data : list Z) :
  shape W H b ->
  - Z.of_nat W <= xo <= Z.of_nat W ->
  - Z.of_nat H <= y < Z.of_nat H ->
  GridBuffer_led_level_row xo y data b =
    finished (foldl (put_item W H (fun a => fst a + xo) (fun _ => y) snd) b
                    (enumerate (py_take (Z.of_nat W - xo) data))).
Proof.
  intros Hb Hxo Hy. unfold GridBuffer_led_level_row.
  pose proof Hb as (Hw & Hh & _). rewrite Hw, Hh.
  replace (y <? Z.of_nat H) with true by (symmetry; apply Z.ltb_lt; lia).
  rewrite (for_each_ext _ (fun a => store_level ((fun _ => y) a)
                                      ((fun a => fst a + xo) a) (snd a)))
    by (by intros [x l] s').
  apply for_each_store; [exact Hb |].
  intros a Ha. apply In_enumerate_inv in Ha as (i & Hi & Hfst).
  apply py_take_lookup in Hi as [_ Hi]; [| lia].
  split; [exact Hy | lia].
Qed.

Lemma led_level_col_wraps (W H : nat) (b : GridBuffer) (x yo : Z) (data : list Z) :
  shape W H b ->
  - Z.of_nat W <= x < Z.of_nat W ->
  - Z.of_nat H <= yo <= Z.of_nat H ->
  GridBuffer_led_level_col x yo data b =
    finished (foldl (put_item W H (fun _ => x) (fun a => fst a + yo) snd) b
                    (enumerate (py_take (Z.of_nat H - yo) data))).
Proof.
  intros Hb Hx Hyo. unfold GridBuffer_led_level_col.
  pose proof Hb as (Hw & Hh & _). rewrite Hw, Hh.
  replace (x <? Z.of_nat W) with true by (symmetry; apply Z.ltb_lt; lia).
  rewrite (for_each_ext _ (fun a => store_level ((fun a => fst a + yo) a)
                                      ((fun _ => x) a) (snd a)))
    by (by intros [y l] s').
  apply for_each_store; [exact Hb |].
  intros a Ha. apply In_enumerate_inv in Ha as (i & Hi & Hfst).
  apply py_take_lookup in Hi as [_ Hi]; [| lia].
  split; [lia | exact Hx].
Qed.

Lemma wrap_window_inj (len : nat) (o : Z) (i j : nat) :
  - Z.of_nat len <= o ->
  o + Z.of_nat i < Z.of_nat len -> o + Z.of_nat j < Z.of_nat len ->
  (i < len)%nat -> (j < len)%nat ->
  wrap len (o + Z.of_nat i) = wrap len (o + Z.of_nat j) -> i = j.
Proof.
  unfold wrap. intros Ho Hi Hj Hil Hjl Heq.
  destruct (Z.ltb_spec (o + Z.of_nat i) 0), (Z.ltb_spec (o + Z.of_nat j) 0); lia.
Qed.

Lemma wrap_val (len : nat) (i : Z) :
  - Z.of_nat len <= i ->
  Z.of_nat (wrap len i) = if i <? 0 then Z.of_nat len + i else i.
Proof. unfold wrap. intros Hi. destruct (Z.ltb_spec i 0); lia. Qed.

Lemma led_level_row_cells (W H : nat) (b : GridBuffer) (xo y : Z) (data : list Z) :
  shape W H b ->
  - Z.of_nat W <= xo <= Z.of_nat W ->
  - Z.of_nat H <= y < Z.of_nat H ->
  (xo < 0 -> Z.of_nat (length data) <= Z.of_nat W) ->
  exists b', GridBuffer_led_level_row xo y data b = finished b' /\
    shape W H b' /\
    (forall (i : nat) v, data !! i = Some v -> xo + Z.of_nat i < Z.of_nat W ->
       level_at b' (wrap W (xo + Z.of_nat i)) (wrap H y) = Some v) /\
    (forall x' y', y' <> wrap H y -> level_at b' x' y' = level_at b x' y').
Proof.
  intros Hb Hxo Hy Hlen. eexists. split; [by apply (led_level_row_wraps W H) |].
  assert (Hvalid : forall a, In a (enumerate (py_take (Z.of_nat W - xo) data)) ->
            - Z.of_nat H <= y < Z.of_nat H /\ - Z.of_nat W <= fst a + xo < Z.of_nat W).
  { intros a Ha. apply In_enumerate_inv in Ha as (i & Hi & Hfst).
    apply py_take_lookup in Hi as [_ Hi]; [| lia]. split; [exact Hy | lia]. }
  split; [by apply shape_foldl_put |]. split.
  - intros i v Hi Hlt.
    assert (Hitem : enumerate (py_take (Z.of_nat W - xo) data) !! i = Some (Z.of_nat i, v)).
    { rewrite enumerate_lookup.
      replace (py_take (Z.of_nat W - xo) data !! i) with (Some v); [reflexivity |].
      symmetry. apply py_take_lookup; [lia |]. split; [exact Hi | lia]. }
    pose proof (level_at_foldl_put_at W H (fun a => fst a + xo) (fun _ => y) snd
                  _ b i (Z.of_nat i, v) Hb Hvalid Hitem) as Hat.
    simpl in Hat. rewrite (Z.add_comm xo). apply Hat.
    intros j [j' w] Hij Hj [Hwrap _]. simpl in Hwrap.
    rewrite enumerate_lookup in Hj.
    destruct (py_take (Z.of_nat W - xo) data !! j) as [w' |] eqn:Hw'; [| discriminate Hj].
    injection Hj as <- <-.
    apply py_take_lookup in Hw' as [Hdj Hjlt]; [| lia].
    apply lookup_lt_Some in Hi, Hdj.
    rewrite !(Z.add_comm _ xo) in Hwrap.
    apply wrap_window_inj in Hwrap; lia.
  - intros x' y' Hne. apply (level_at_foldl_put_other W H); try assumption.
    intros a _ [_ Hy']. by apply Hne.
Qed.

Lemma led_level_col_cells (W H : nat) (b : GridBuffer) (x yo : Z) (data : list Z) :
  shape W H b ->
  - Z.of_nat W <= x < Z.of_nat W ->
  - Z.of_nat H <= yo <= Z.of_nat H ->
  (yo < 0 -> Z.of_nat (length data) <= Z.of_nat H) ->
  exists b', GridBuffer_led_level_col x yo data b = finished b' /\
    shape W H b' /\
    (forall (i : nat) v, data !! i = Some v -> yo + Z.of_nat i < Z.of_nat H ->
       level_at b' (wrap W x) (wrap H (yo + Z.of_nat i)) = Some v) /\
    (forall x' y', x' <> wrap W x -> level_at b' x' y' = level_at b x' y').
Proof.
  intros Hb Hx Hyo Hlen. eexists. split; [by apply (led_level_col_wraps W H) |].
  assert (Hvalid : forall a, In a (enumerate (py_take (Z.of_nat H - yo) data)) ->
            - Z.of_nat H <= fst a + yo < Z.of_nat H /\ - Z.of_nat W <= x < Z.of_nat W).
  { intros a Ha. apply In_enumerate_inv in Ha as (i & Hi & Hfst).
    apply py_take_lookup in Hi as [_ Hi]; [| lia]. split; [lia | exact Hx]. }
  split; [by apply shape_foldl_put |]. split.
  - intros i v Hi Hlt.
    assert (Hitem : enumerate (py_take (Z.of_nat H - yo) data) !! i = Some (Z.of_nat i, v)).
    { rewrite enumerate_lookup.
      replace (py_take (Z.of_nat H - yo) data !! i) with (Some v); [reflexivity |].
      symmetry. apply py_take_lookup; [lia |]. split; [exact Hi | lia]. }
    pose proof (level_at_foldl_put_at W H (fun _ => x) (fun a => fst a + yo) snd
                  _ b i (Z.of_nat i, v) Hb Hvalid Hitem) as Hat.
    simpl in Hat. rewrite (Z.add_comm yo). apply Hat.
    intros j [j' w] Hij Hj [_ Hwrap]. simpl in Hwrap.
    rewrite enumerate_lookup in Hj.
    destruct (py_take (Z.of_nat H - yo) data !! j) as [w' |] eqn:Hw'; [| discriminate Hj].
    injection Hj as <- <-.
    apply py_take_lookup in Hw' as [Hdj Hjlt]; [| lia].
    apply lookup_lt_Some in Hi, Hdj.
    rewrite !(Z.add_comm _ yo) in Hwrap.
    apply wrap_window_inj in Hwrap; lia.
  - intros x' y' Hne. apply (level_at_foldl_put_other W H); try assumption.
    intros a _ [Hx' _]. by apply Hne.
Qed.

(** C10. [led_level_set] checks its coordinates against the upper bound
    only.  On a [W] by [H] surface every [x] of [-W <= x < W] and [y] of
    [-H <= y < H] passes the check and is stored, without an exception, in
    the in-bounds cell found by counting a negative coordinate from the
    opposite edge ([W + x], [H + y]); no other cell changes.  In the same
    way [led_level_row] writes the row counted from the bottom edge for a
    negative [y] (and columns counted from the right edge for a negative
    offset), and [led_level_col] the column counted from the right edge for
    a negative [x]. *)
Theorem negative_coordinates_wrap (W H : nat) (b : GridBuffer) (x y l xo yo : Z)
    (data : list Z) :
  shape W H b ->
  - Z.of_nat W <= x < Z.of_nat W ->
  - Z.of_nat H <= y < Z.of_nat H ->
  - Z.of_nat W <= xo <= Z.of_nat W ->
  - Z.of_nat H <= yo <= Z.of_nat H ->
  (xo < 0 -> Z.of_nat (length data) <= Z.of_nat W) ->
  (yo < 0 -> Z.of_nat (length data) <= Z.of_nat H) ->
  (Z.of_nat (wrap W x) = (if x <? 0 then Z.of_nat W + x else x) /\
   Z.of_nat (wrap H y) = (if y <? 0 then Z.of_nat H + y else y) /\
   (wrap W x < W)%nat /\ (wrap H y < H)%nat) /\
  (exists b', GridBuffer_led_level_set x y l b = finished b' /\
     level_at b' (wrap W x) (wrap H y) = Some l /\
     (forall x' y', ~ (x' = wrap W x /\ y' = wrap H y) ->
        level_at b' x' y' = level_at b x' y')) /\
  (exists b', GridBuffer_led_level_row xo y data b = finished b' /\
     (forall (i : nat) v, data !! i = Some v -> xo + Z.of_nat i < Z.of_nat W ->
        level_at b' (wrap W (xo + Z.of_nat i)) (wrap H y) = Some v) /\
     (forall x' y', y' <> wrap H y -> level_at b' x' y' = level_at b x' y')) /\
  (exists b', GridBuffer_led_level_col x yo data b = finished b' /\
     (forall (i : nat) v, data !! i = Some v -> yo + Z.of_nat i < Z.of_nat H ->
        level_at b' (wrap W x) (wrap H (yo + Z.of_nat i)) = Some v) /\
     (forall x' y', x' <> wrap W x -> level_at b' x' y' = level_at b x' y')).
Proof.
  intros Hb Hx Hy Hxo Hyo Hlx Hly.
  destruct (py_index_wrap W x Hx) as [_ Hwx].
  destruct (py_index_wrap H y Hy) as [_ Hwy].
  split; [| split; [| split]].
  - repeat split; try assumption; apply wrap_val; lia.
  - eexists. split; [by apply (led_level_set_wraps W H) |]. split.
    + rewrite (level_at_put W H) by assumption. by rewrite decide_True.
    + intros x' y' Hne. rewrite (level_at_put W H) by assumption.
      by rewrite decide_False.
  - destruct (led_level_row_cells W H b xo y data Hb Hxo Hy Hlx)
      as (b' & Hrun & _ & Hin & Hout). eauto.
  - destruct (led_level_col_cells W H b x yo data Hb Hx Hyo Hly)
      as (b' & Hrun & _ & Hin & Hout). eauto.
Qed.

Lemma negative_coordinates_wrap_witness :
  exists b', GridBuffer_led_level_set (-1) (-3) 9 (GridBuffer_init 8 8) = finished b' /\
             level_at b' 7 5 = Some 9.
Proof.
  destruct (negative_coordinates_wrap 8 8 (GridBuffer_init 8 8) (-1) (-3) 9 (-2) 3 [1; 2; 3])
    as (_ & (b' & Hrun & Hcell & _) & _).
  - apply (shape_init 8 8).
  - lia.
  - lia.
  - lia.
  - lia.
  - simpl. lia.
  - simpl. lia.
  - exists b'. split; [exact Hrun | exact Hcell].
Defined.

(** ** Nested loops *)

Lemma for_each_app {S A : Type} (f : A -> S -> outcome S) (l1 l2 : list A) (s : S) :
  for_each f (l1 ++ l2) s = then_ (for_each f l1 s) (for_each f l2).
Proof.
  revert s. induction l1 as [| a l1 IH]; intros s; [reflexivity |].
  simpl. destruct (f a s) as [s' [e |]]; simpl; [reflexivity | apply IH].
Qed.

Lemma for_each_map {S A B : Type} (f : B -> S -> outcome S) (g : A -> B)
    (l : list A) (s : S) :
  for_each f (map g l) s = for_each (fun a => f (g a)) l s.
Proof.
  revert s. induction l as [| a l IH]; intros s; [reflexivity |].
  simpl. destruct (f (g a) s) as [s' [e |]]; simpl; [reflexivity | apply IH].
Qed.

Lemma for_each_nested {S A B : Type} (body : A -> B -> S -> outcome S)
    (outer : list A) (inner : list B) (s : S) :
  for_each (fun a => for_each (body a) inner) outer s =
  for_each (fun p => body (fst p) (snd p)) (list_prod outer inner) s.
Proof.
  revert s. induction outer as [| a outer IH]; intros s; [reflexivity |].
  simpl. rewrite for_each_app, for_each_map. simpl.
  destruct (for_each (body a) inner s) as [s' [e |]]; simpl; [reflexivity | apply IH].
Qed.

Lemma for_each_ext_in {S A : Type} (P : S -> Prop) (f g : A -> S -> outcome S)
    (l : list A) (s : S) :
  (forall a s', In a l -> P s' -> f a s' = g a s' /\ P (fst (g a s'))) ->
  P s -> for_each f l s = for_each g l s.
Proof.
  revert s. induction l as [| a l IH]; intros s Hfg Hs; [reflexivity |].
  simpl. destruct (Hfg a s (or_introl eq_refl) Hs) as [-> Hs'].
  destruct (g a s) as [s' [e |]]; simpl in *; [reflexivity |].
  apply IH; [| exact Hs']. intros a' s'' Ha'. apply Hfg. by right.
Qed.

Lemma In_py_range (n i : Z) : In i (py_range n) <-> 0 <= i < n.
Proof.
  unfold py_range. rewrite <- list_elem_of_In, list_elem_of_fmap. split.
  - intros (k & -> & Hk). apply elem_of_seq in Hk. lia.
  - intros Hi. exists (Z.to_nat i). split; [lia |]. apply elem_of_seq. lia.
Qed.

Lemma wrap_nonneg (len : nat) (i : Z) : 0 <= i -> wrap len i = Z.to_nat i.
Proof. intros Hi. unfold wrap. by destruct (Z.ltb_spec i 0); [lia |]. Qed.

Lemma load_level_at (W H : nat) (b : GridBuffer) (y x : Z) :
  shape W H b ->
  - Z.of_nat H <= y < Z.of_nat H -> - Z.of_nat W <= x < Z.of_nat W ->
  exists v, load_level y x b = Ok v /\ level_at b (wrap W x) (wrap H y) = Some v.
Proof.
  intros Hb Hy Hx. unfold load_level, py_getitem, level_at.
  pose proof Hb as (_ & _ & Hlen & _). rewrite Hlen.
  destruct (py_index_wrap H y Hy) as [-> Hly].
  destruct (py_index_wrap W x Hx) as [Hix Hlx].
  destruct (shape_row W H b _ Hb Hly) as (row & -> & Hrl). simpl.
  rewrite Hrl, Hix.
  destruct (lookup_lt_is_Some_2 row (wrap W x)) as [v Hv]; [lia |].
  rewrite Hv. eauto.
Qed.

Lemma level_at_Some (W H : nat) (b : GridBuffer) (x y : nat) (v : Z) :
  shape W H b -> level_at b x y = Some v -> (x < W)%nat /\ (y < H)%nat.
Proof.
  intros (_ & _ & Hlen & Hrows) Hv. unfold level_at in Hv.
  destruct (levels b !! y) as [row |] eqn:Hrow; [| discriminate Hv].
  pose proof (Forall_lookup_1 _ _ _ _ Hrows Hrow) as Hrl. simpl in Hrl.
  apply lookup_lt_Some in Hrow, Hv. lia.
Qed.

(** When all the stores aimed at a cell carry the same value, the cell holds
    that value after the loop. *)
Lemma level_at_foldl_put_val {A : Type} (W H : nat) (fx fy fv : A -> Z)
    (items : list A) (b : GridBuffer) (x y : nat) (v : Z) :
  shape W H b ->
  (forall a, In a items ->
     - Z.of_nat H <= fy a < Z.of_nat H /\ - Z.of_nat W <= fx a < Z.of_nat W) ->
  (forall a, In a items -> x = wrap W (fx a) -> y = wrap H (fy a) -> fv a = v) ->
  (exists a, In a items /\ x = wrap W (fx a) /\ y = wrap H (fy a)) \/
    level_at b x y = Some v ->
  level_at (foldl (put_item W H fx fy fv) b items) x y = Some v.
Proof.
  revert b. induction items as [| a items IH]; intros b Hb Hvalid Hsame Hsrc.
  - destruct Hsrc as [(a & [] & _) | Hsrc]. exact Hsrc.
  - simpl. destruct (Hvalid a (or_introl eq_refl)) as [Hy Hx].
    destruct (py_index_wrap W _ Hx) as [_ Hwx].
    destruct (py_index_wrap H _ Hy) as [_ Hwy].
    apply IH.
    + by apply shape_put.
    + intros a' Ha'. apply Hvalid. by right.
    + intros a' Ha'. apply Hsame. by right.
    + unfold put_item at 1. rewrite (level_at_put W H) by assumption.
      destruct (decide (x = wrap W (fx a) /\ y = wrap H (fy a))) as [[Hex Hey] | Hne].
      * right. f_equal. apply Hsame; [by left | exact Hex | exact Hey].
      * destruct Hsrc as [(a' & [<- | Ha'] & Hex & Hey) | Hsrc].
        -- exfalso. apply Hne. by split.
        -- left. exists a'. by repeat split.
        -- by right.
Qed.

(** ** [GridBuffer]: the combining operators *)

(** C3 fails on the code.  [__and__], [__xor__] and [__or__] begin with
    [result = LedBuffer(self.width, self.height)], and the module binds no
    name [LedBuffer]: the class is called [GridBuffer].  Whatever the two
    surfaces, of equal dimensions or not, each operator raises [NameError]
    before it reads a single level; the loops that follow, which would
    combine the stored levels cell by cell, are never reached. *)
Theorem combine_raises_NameError (self other : GridBuffer) :
  GridBuffer_and monome_globals self other = Raise NameError /\
  GridBuffer_xor monome_globals self other = Raise NameError /\
  GridBuffer_or monome_globals self other = Raise NameError.
Proof. repeat split. Qed.

(** ** Reads outside a surface *)

Lemma py_getitem_cases {A : Type} (l : list A) (i : Z) :
  (exists v, py_getitem l i = Ok v) \/ py_getitem l i = Raise IndexError.
Proof.
  unfold py_getitem. destruct (py_index (length l) i) as [k |]; [| by right].
  destruct (l !! k) as [v |]; [left; by exists v | by right].
Qed.

Lemma load_level_cases (b : GridBuffer) (y x : Z) :
  (exists v, load_level y x b = Ok v) \/ load_level y x b = Raise IndexError.
Proof.
  unfold load_level.
  destruct (py_getitem_cases (levels b) y) as [[row ->] | ->]; [| by right].
  simpl. apply py_getitem_cases.
Qed.

Lemma load_level_out (W H : nat) (b : GridBuffer) (y x : Z) :
  shape W H b -> 0 <= y -> 0 <= x -> Z.of_nat H <= y \/ Z.of_nat W <= x ->
  load_level y x b = Raise IndexError.
Proof.
  intros Hb Hy Hx Hout. unfold load_level, py_getitem.
  pose proof Hb as (_ & _ & Hlen & _). rewrite Hlen.
  destruct (Z.lt_ge_cases y (Z.of_nat H)) as [Hin | Hge].
  - destruct (py_index_wrap H y) as [-> Hly]; [lia |].
    destruct (shape_row W H b _ Hb Hly) as (row & -> & Hrl). simpl.
    rewrite Hrl, py_index_out; [reflexivity | lia].
  - rewrite py_index_out; [reflexivity | lia].
Qed.

(** ** [Grid]: the disconnect notification *)

(** C1 fails on the code.  Receiving ['/sys/disconnect'] runs the registered
    lambda, which changes nothing: a ready link stays [READY], its
    transport stays open and the listener hears nothing.  The method the
    lambda was meant to call would set the state and close the transport,
    but would then call the listener's [on_grid_ready], not
    [on_grid_disconnect]. *)
Theorem sys_disconnect_not_handled :
  (forall args g, Grid_handle_sys_disconnect args g = g) /\
  state (Grid_handle_sys_disconnect [] ready_grid) = READY /\
  transport_closed (Grid_handle_sys_disconnect [] ready_grid) = false /\
  callbacks (Grid_handle_sys_disconnect [] ready_grid) = [] /\
  ~ disconnect_observed ready_grid (Grid_handle_sys_disconnect [] ready_grid) /\
  callbacks (Grid_sys_disconnect ready_grid) = [on_grid_ready] /\
  ~ disconnect_observed ready_grid (Grid_sys_disconnect ready_grid).
Proof.
  repeat split; try reflexivity.
  - intros (Hst & _). discriminate Hst.
  - intros (_ & _ & Hcb). specialize (Hcb 0%nat eq_refl). discriminate Hcb.
Qed.

(** ** [Section]: where the forwarded operations land *)




Lemma py_take_length_le {A : Type} (n : Z) (l : list A) :
  0 <= n -> Z.of_nat (length (py_take n l)) <= n.
Proof.
  intros Hn. unfold py_take.
  replace (0 <=? n) with true by (symmetry; apply Z.leb_le; lia).
  rewrite length_take. lia.
Qed.






(** ** [Splitter]: routing of key events *)

Lemma Splitter_grid_key_from_none (n : nat) (sections : list GridSection) (x y s : Z) :
  (forall part, In part sections -> section_contains part x y = false) ->
  Splitter_grid_key_from n sections x y s = [].
Proof.
  revert n. induction sections as [| part rest IH]; intros n Hnone; [reflexivity |].
  simpl. rewrite (Hnone part (or_introl eq_refl)). simpl.
  apply IH. intros part' Hin. apply Hnone. by right.
Qed.

Lemma Splitter_grid_key_from_one (n i : nat) (sections : list GridSection)
    (part : GridSection) (x y s : Z) :
  sections !! i = Some part ->
  section_contains part x y = true ->
  (forall j other, j <> i -> sections !! j = Some other ->
     section_contains other x y = false) ->
  Splitter_grid_key_from n sections x y s =
    [((n + i)%nat, (x - part_offset_x part, y - part_offset_y part, s))].
Proof.
  revert n i. induction sections as [| first rest IH]; intros n i Hi Hin Hothers.
  - discriminate Hi.
  - destruct i as [| i]; simpl in *.
    + injection Hi as ->. rewrite Hin. simpl.
      rewrite Splitter_grid_key_from_none.
      * by rewrite Nat.add_0_r.
      * intros other Hother.
        apply list_elem_of_In, list_elem_of_lookup in Hother as [j Hj].
        by apply (Hothers (S j) other).
    + rewrite (Hothers 0%nat first) by done. simpl.
      rewrite (IH (S n) i Hi Hin).
      * by rewrite Nat.add_succ_r.
      * intros j other Hj Hother. apply (Hothers (S j) other); [lia | exact Hother].
Qed.

Lemma section_contains_offset (part : GridSection) (dx dy : Z) :
  0 <= dx < part_width part -> 0 <= dy < part_height part ->
  section_contains part (part_offset_x part + dx) (part_offset_y part + dy) = true.
Proof.
  intros Hdx Hdy. unfold section_contains.
  repeat (apply andb_true_iff; split);
    first [apply Z.leb_le | apply Z.ltb_lt]; lia.
Qed.

(** C8. In a splitter whose sections do not overlap, a key at
    [(ox + dx, oy + dy)], with [(ox, oy)] the offset of a section of size
    [(w, h)], [0 <= dx < w] and [0 <= dy < h], is passed to that section
    alone, which is the first one containing the coordinate, as the local
    key [(dx, dy)]; a key at a coordinate that no section contains is passed
    to no section. *)
Theorem splitter_routes_key (sections : list GridSection) (i : nat)
    (part : GridSection) (dx dy s x' y' : Z) :
  non_overlapping sections ->
  sections !! i = Some part ->
  0 <= dx < part_width part ->
  0 <= dy < part_height part ->
  (forall other, In other sections -> section_contains other x' y' = false) ->
  Splitter_grid_key sections (part_offset_x part + dx) (part_offset_y part + dy) s
    = [(i, (dx, dy, s))] /\
  (forall j other, (j < i)%nat -> sections !! j = Some other ->
     section_contains other (part_offset_x part + dx) (part_offset_y part + dy) = false) /\
  Splitter_grid_key sections x' y' s = [].
Proof.
  intros Hdisj Hi Hdx Hdy Hnone.
  pose proof (section_contains_offset part dx dy Hdx Hdy) as Hin.
  assert (Hothers : forall j other, j <> i -> sections !! j = Some other ->
            section_contains other (part_offset_x part + dx) (part_offset_y part + dy)
            = false).
  { intros j other Hj Hother.
    destruct (section_contains other _ _) eqn:Hc; [| reflexivity].
    exfalso. by apply (Hdisj j i other part (part_offset_x part + dx)
                         (part_offset_y part + dy) Hj Hother Hi). }
  split; [| split].
  - unfold Splitter_grid_key.
    rewrite (Splitter_grid_key_from_one 0 i sections part _ _ s Hi Hin Hothers).
    simpl. repeat f_equal; lia.
  - intros j other Hj. apply Hothers. lia.
  - by apply Splitter_grid_key_from_none.
Qed.

Lemma splitter_routes_key_witness :
  Splitter_grid_key [mkSection 4 8 0 0; mkSection 4 8 4 0] (4 + 1) (0 + 2) 1
    = [(1%nat, (1, 2, 1))] /\
  (forall j other, (j < 1)%nat ->
     [mkSection 4 8 0 0; mkSection 4 8 4 0] !! j = Some other ->
     section_contains other (4 + 1) (0 + 2) = false) /\
  Splitter_grid_key [mkSection 4 8 0 0; mkSection 4 8 4 0] 9 9 1 = [].
Proof.
  apply (splitter_routes_key [mkSection 4 8 0 0; mkSection 4 8 4 0] 1
           (mkSection 4 8 4 0) 1 2 1 9 9).
  - intros i j a b x y Hij Ha Hb [Hca Hcb].
    destruct i as [| [| i]], j as [| [| j]]; simpl in Ha, Hb;
      try discriminate; try (by apply Hij);
      injection Ha as <-; injection Hb as <-;
      unfold section_contains in Hca, Hcb; simpl in Hca, Hcb;
      repeat match goal with
             | H : _ && _ = true |- _ => apply andb_true_iff in H as [? ?]
             | H : (_ <=? _) = true |- _ => apply Z.leb_le in H
             | H : (_ <? _) = true |- _ => apply Z.ltb_lt in H
             end; lia.
  - reflexivity.
  - simpl. lia.
  - simpl. lia.
  - intros other [<- | [<- | []]]; reflexivity.
Defined.

(** ** [Grid]: packing and sending *)

Lemma int32_spec (n : Z) : int32 n = true <-> - 2147483648 <= n < 2147483648.
Proof.
  unfold int32. change (2 ^ 31) with 2147483648.
  by rewrite andb_true_iff, Z.leb_le, Z.ltb_lt.
Qed.

Lemma packs_ints (l : list Z) : forallb packs (OInt <$> l) = forallb int32 l.
Proof. induction l as [| n l IH]; [reflexivity |]. cbn. by rewrite <- IH. Qed.

Lemma bytes_pack (l : list Z) :
  Forall (fun v => 0 <= v <= 255) l -> forallb int32 l = true.
Proof.
  intros Hl. apply forallb_forall. intros v Hv. apply int32_spec.
  rewrite Forall_forall in Hl. apply list_elem_of_In in Hv. specialize (Hl v Hv). lia.
Qed.

Lemma binary_int32 (s : Z) : binary s = true -> int32 s = true.
Proof. intros Hs. apply binary_cases in Hs as [-> | ->]; reflexivity. Qed.

Lemma Grid_send_packed (path : string) (args : list OscArg) (g : Grid) :
  forallb packs args = true ->
  Grid_send path args g = finished (Grid_sendto path args g).
Proof. intros Hargs. unfold Grid_send. by rewrite Hargs. Qed.

Lemma Grid_led_all_off (g : Grid) :
  Grid_led_all 0 g = finished (Grid_sendto (led_path g "/grid/led/all") [OInt 0] g).
Proof. reflexivity. Qed.

(** ** [BasePageManager]: switching pages *)

Lemma then_fst_frame {S T : Type} (proj : S -> T) (o : outcome S) (k : S -> outcome S) :
  (forall s, proj (fst (k s)) = proj s) ->
  proj (fst (then_ o k)) = proj (fst o).
Proof. intros Hk. destruct o as [s [e |]]; simpl; [reflexivity | apply Hk]. Qed.

(** Methods of the inherited [Grid] touch the [Grid] attributes only. *)
Lemma Page_render_frame (p : nat) (m : BasePageManager) :
  pages (fst (Page_render p m)) = pages m /\
  presses (fst (Page_render p m)) = presses m /\
  current_page (fst (Page_render p m)) = current_page m /\
  heap (fst (Page_render p m)) = heap m /\
  key_events (fst (Page_render p m)) = key_events m.
Proof.
  unfold Page_render.
  destruct (heap m !! p) as [pg |]; [| by repeat split].
  destruct (page_buffer pg) as [b |]; [| by repeat split].
  unfold on_grid.
  destruct (GridBuffer_render Grid_led_level_map b (grid m)) as [g [e |]];
    simpl; by repeat split.
Qed.

Lemma deliver_keys (cur : nat) (l : list (Z * Z)) (m : BasePageManager) :
  current_page m = Some cur ->
  for_each (fun xy => deliver_key (fst xy) (snd xy) 0) l m =
    finished {| grid := grid m; pages := pages m; presses := presses m;
                current_page := current_page m; heap := heap m;
                key_events := key_events m
                              ++ ((fun xy => (cur, (fst xy, snd xy, 0))) <$> l) |}.
Proof.
  revert m. induction l as [| xy l IH]; intros m Hcur.
  - simpl. rewrite app_nil_r. by destruct m.
  - simpl. unfold deliver_key at 1. rewrite Hcur. simpl.
    rewrite IH by exact Hcur. simpl. by rewrite <- app_assoc, Hcur.
Qed.

Lemma release_events_facts (cur : nat) (ps : gset (Z * Z)) :
  length (release_events cur ps) = size ps /\
  NoDup (release_events cur ps) /\
  (forall x y, (x, y) ∈ ps <-> (cur, (x, y, 0)) ∈ release_events cur ps) /\
  Forall (fun ev => fst ev = cur /\ snd (snd ev) = 0) (release_events cur ps).
Proof.
  unfold release_events. repeat split.
  - by rewrite length_fmap.
  - apply NoDup_fmap_2_strong; [| apply NoDup_elements].
    intros [x1 y1] [x2 y2] _ _ Heq. simpl in Heq. congruence.
  - intros Hin. apply list_elem_of_fmap. exists (x, y). split; [reflexivity |].
    by apply elem_of_elements.
  - intros Hin. apply list_elem_of_fmap in Hin as ([x' y'] & Heq & Hin).
    simpl in Heq. injection Heq as -> ->. by apply elem_of_elements in Hin.
  - apply Forall_fmap, Forall_forall. intros xy _. by split.
Qed.

Lemma switch_page_leaving (page_num : Z) (cur : nat) (m : BasePageManager) :
  current_page m = Some cur ->
  page_num = -1 \/
    (exists target, py_getitem (pages m) page_num = Ok target /\ target <> cur) ->
  key_events (fst (BasePageManager_switch_page page_num m))
    = key_events m ++ release_events cur (presses m) /\
  presses (fst (BasePageManager_switch_page page_num m)) = ∅ /\
  current_page (fst (BasePageManager_switch_page page_num m))
    = (if page_num =? -1 then None
       else match py_getitem (pages m) page_num with
            | Ok target => Some target
            | Raise _ => None
            end).
Proof.
  intros Hcur Hleave. unfold BasePageManager_switch_page.
  assert (Hcond : (if page_num =? -1 then Ok true
                   else let? target := py_getitem (pages m) page_num in
                        Ok (negb (bool_decide (current_page m = Some target))))
                  = Ok true).
  { destruct (Z.eqb_spec page_num (-1)) as [| Hne]; [reflexivity |].
    destruct Hleave as [| (target & -> & Hdiff)]; [contradiction |]. simpl.
    rewrite Hcur, bool_decide_eq_false_2; [reflexivity | congruence]. }
  rewrite Hcond. rewrite (deliver_keys cur) by exact Hcur. simpl.
  destruct (Z.eqb_spec page_num (-1)) as [-> | Hne].
  - simpl. by repeat split.
  - destruct Hleave as [| (target & Htarget & Hdiff)]; [contradiction |].
    unfold set_presses, set_current_page. simpl. rewrite Htarget.
    match goal with |- context [Page_render ?p ?s] =>
      destruct (Page_render_frame p s) as (_ & Hp & Hc & _ & Hk) end.
    rewrite Hp, Hc, Hk. by repeat split.
Qed.

Lemma switch_page_staying (page_num : Z) (cur : nat) (m : BasePageManager) :
  current_page m = Some cur ->
  page_num <> -1 ->
  py_getitem (pages m) page_num = Ok cur ->
  key_events (fst (BasePageManager_switch_page page_num m)) = key_events m /\
  presses (fst (BasePageManager_switch_page page_num m)) = presses m /\
  current_page (fst (BasePageManager_switch_page page_num m)) = Some cur.
Proof.
  intros Hcur Hne Htarget. unfold BasePageManager_switch_page.
  destruct (Z.eqb_spec page_num (-1)) as [| _]; [contradiction |].
  rewrite Htarget. simpl. rewrite Hcur, bool_decide_eq_true_2 by reflexivity.
  simpl. rewrite Htarget.
  match goal with |- context [Page_render ?p ?s] =>
    destruct (Page_render_frame p s) as (_ & Hp & Hc & _ & Hk) end.
  rewrite Hp, Hc, Hk. by repeat split.
Qed.

(** C5. With a current page [cur] and [N] coordinates in the pressed-set,
    [switch_page] to another page, or to none ([-1]), makes exactly [N]
    [grid_key] calls, all of them on [cur] with state 0, one for each
    pressed coordinate, none on the incoming page, and leaves the
    pressed-set empty; [switch_page] to the page that is already current
    makes no [grid_key] call and leaves the pressed-set as it was. *)
Theorem switch_page_press_accounting (m : BasePageManager) (cur : nat)
    (n_other n_same : Z) :
  current_page m = Some cur ->
  n_other = -1 \/
    (exists target, py_getitem (pages m) n_other = Ok target /\ target <> cur) ->
  n_same <> -1 ->
  py_getitem (pages m) n_same = Ok cur ->
  (key_events (fst (BasePageManager_switch_page n_other m))
     = key_events m ++ release_events cur (presses m) /\
   length (release_events cur (presses m)) = size (presses m) /\
   NoDup (release_events cur (presses m)) /\
   (forall x y, (x, y) ∈ presses m <-> (cur, (x, y, 0)) ∈ release_events cur (presses m)) /\
   Forall (fun ev => fst ev = cur /\ snd (snd ev) = 0) (release_events cur (presses m)) /\
   (forall target, py_getitem (pages m) n_other = Ok target -> target <> cur ->
      Forall (fun ev => fst ev <> target) (release_events cur (presses m))) /\
   presses (fst (BasePageManager_switch_page n_other m)) = ∅) /\
  (key_events (fst (BasePageManager_switch_page n_same m)) = key_events m /\
   presses (fst (BasePageManager_switch_page n_same m)) = presses m).
Proof.
  intros Hcur Hother Hne Hsame.
  destruct (switch_page_leaving n_other cur m Hcur Hother) as (Hk & Hp & _).
  destruct (switch_page_staying n_same cur m Hcur Hne Hsame) as (Hk' & Hp' & _).
  destruct (release_events_facts cur (presses m)) as (Hlen & Hnd & Hin & Hall).
  repeat split; try assumption; try (by apply Hin).
  intros target _ Hdiff. eapply Forall_impl; [exact Hall |].
  intros ev [Hev _]. congruence.
Qed.

Lemma switch_page_press_accounting_witness :
  key_events (fst (BasePageManager_switch_page 1 three_page_manager))
    = release_events 0 (presses three_page_manager) /\
  length (release_events 0 (presses three_page_manager)) = 2%nat /\
  presses (fst (BasePageManager_switch_page 1 three_page_manager)) = ∅ /\
  key_events (fst (BasePageManager_switch_page 0 three_page_manager)) = [] /\
  presses (fst (BasePageManager_switch_page 0 three_page_manager))
    = presses three_page_manager.
Proof.
  destruct (switch_page_press_accounting three_page_manager 0 1 0)
    as ((Hk & Hlen & _ & _ & _ & _ & Hp) & Hk' & Hp').
  - reflexivity.
  - right. exists 1%nat. split; [reflexivity | lia].
  - lia.
  - reflexivity.
  - repeat split; assumption.
Defined.

(** ** [SeqPageManager]: the switch button *)

Lemma py_list_index_spec (v : nat) (l : list nat) (i : Z) :
  py_list_index (Some v) l = Ok i ->
  0 <= i < Z.of_nat (length l) /\ l !! Z.to_nat i = Some v.
Proof.
  revert i. induction l as [| w l IH]; intros i Hi; [discriminate Hi |].
  simpl in Hi. destruct (bool_decide (Some v = Some w)) eqn:Hvw.
  - injection Hi as <-. apply bool_decide_eq_true_1 in Hvw. injection Hvw as ->.
    simpl. split; [lia | reflexivity].
  - destruct (py_list_index (Some v) l) as [j |]; [| discriminate Hi].
    simpl in Hi. injection Hi as <-. destruct (IH j eq_refl) as [Hj Hl].
    simpl length. split; [lia |].
    replace (Z.to_nat (j + 1)) with (S (Z.to_nat j)) by lia. exact Hl.
Qed.

Lemma py_getitem_nonneg {A : Type} (l : list A) (i : Z) :
  0 <= i < Z.of_nat (length l) ->
  exists v, py_getitem l i = Ok v /\ l !! Z.to_nat i = Some v.
Proof.
  intros Hi. unfold py_getitem.
  destruct (py_index_wrap (length l) i) as [-> Hlt]; [lia |].
  rewrite wrap_nonneg in * by lia.
  destruct (lookup_lt_is_Some_2 l (Z.to_nat i) Hlt) as [v Hv].
  rewrite Hv. by exists v.
Qed.

Lemma switch_page_target (page_num : Z) (target : nat) (m : BasePageManager) :
  presses m = ∅ ->
  page_num <> -1 ->
  py_getitem (pages m) page_num = Ok target ->
  current_page (fst (BasePageManager_switch_page page_num m)) = Some target /\
  presses (fst (BasePageManager_switch_page page_num m)) = ∅ /\
  key_events (fst (BasePageManager_switch_page page_num m)) = key_events m.
Proof.
  intros Hempty Hne Htarget. unfold BasePageManager_switch_page.
  destruct (Z.eqb_spec page_num (-1)) as [| _]; [contradiction |].
  rewrite Htarget. simpl. rewrite Hempty, elements_empty.
  destruct (negb (bool_decide (current_page m = Some target))); simpl;
    rewrite Htarget;
    match goal with |- context [Page_render ?p ?s] =>
      destruct (Page_render_frame p s) as (_ & Hp & Hc & _ & Hk) end;
    rewrite Hp, Hc, Hk; simpl; by repeat split.
Qed.

Lemma seq_press_switch_button (m : SeqPageManager) (cur : nat) (i X Y : Z) :
  presses (base m) = ∅ ->
  current_page (base m) = Some cur ->
  py_list_index (Some cur) (pages (base m)) = Ok i ->
  switch_x m = Some X -> switch_y m = Some Y ->
  exists target,
    pages (base m) !! Z.to_nat ((i + 1) mod Z.of_nat (length (pages (base m))))
      = Some target /\
    current_page (base (fst (SeqPageManager_grid_key X Y 1 m))) = Some target /\
    presses (base (fst (SeqPageManager_grid_key X Y 1 m))) = ∅ /\
    key_events (base (fst (SeqPageManager_grid_key X Y 1 m))) = key_events (base m).
Proof.
  intros Hempty Hcur Hidx HX HY.
  destruct (py_list_index_spec cur _ i Hidx) as [Hi _].
  set (P := Z.of_nat (length (pages (base m)))) in *.
  assert (Hnext : 0 <= (i + 1) mod P < P) by (apply Z.mod_pos_bound; lia).
  destruct (py_getitem_nonneg (pages (base m)) ((i + 1) mod P) Hnext)
    as (target & Hget & Hlook).
  exists target. split; [exact Hlook |].
  unfold SeqPageManager_grid_key.
  rewrite bool_decide_eq_true_2 by exact Hempty.
  rewrite HX, HY, !Z.eqb_refl, Hcur, Hidx. simpl. fold P.
  apply switch_page_target; [exact Hempty | lia | exact Hget].
Qed.

Lemma discard_from_empty (xy : Z * Z) : (∅ : gset (Z * Z)) ∖ {[ xy ]} = ∅.
Proof. apply subseteq_empty_difference_L, empty_subseteq. Qed.

Lemma seq_release_switch_button (m : SeqPageManager) (cur : nat) (X Y : Z) :
  presses (base m) = ∅ ->
  current_page (base m) = Some cur ->
  switch_x m = Some X -> switch_y m = Some Y ->
  SeqPageManager_grid_key X Y 0 m =
    finished {| base := log_key cur X Y 0 (set_presses (∅ ∖ {[ (X, Y) ]}) (base m));
                switch_button := switch_button m;
                switch_x := switch_x m; switch_y := switch_y m |}.
Proof.
  intros Hempty Hcur HX HY. unfold SeqPageManager_grid_key.
  rewrite bool_decide_eq_true_2 by exact Hempty.
  rewrite HX, HY, !Z.eqb_refl. simpl.
  unfold on_base, BasePageManager_grid_key, deliver_key. simpl.
  by rewrite Hcur, Hempty, HX, HY.
Qed.

(** C7, as the code has it.  [grid_key] compares the key with the
    attributes [switch_x] and [switch_y]; let them hold [(X, Y)].  With
    nothing in the pressed-set and the current page at index [i] of [P]
    pages, a press at [(X, Y)] makes the page at index [(i + 1) mod P]
    current and no page sees a key event.  A release at [(X, Y)] does not
    change the current page, but it is not dropped: it is handled as an
    ordinary key, so the current page receives it as a release event. *)
Theorem seq_switch_button_advances (m : SeqPageManager) (cur : nat) (i X Y : Z) :
  switch_x m = Some X -> switch_y m = Some Y ->
  presses (base m) = ∅ ->
  current_page (base m) = Some cur ->
  py_list_index (Some cur) (pages (base m)) = Ok i ->
  (exists target,
     pages (base m) !! Z.to_nat ((i + 1) mod Z.of_nat (length (pages (base m))))
       = Some target /\
     current_page (base (fst (SeqPageManager_grid_key X Y 1 m))) = Some target /\
     presses (base (fst (SeqPageManager_grid_key X Y 1 m))) = ∅ /\
     key_events (base (fst (SeqPageManager_grid_key X Y 1 m))) = key_events (base m)) /\
  (snd (SeqPageManager_grid_key X Y 0 m) = None /\
   current_page (base (fst (SeqPageManager_grid_key X Y 0 m))) = Some cur /\
   presses (base (fst (SeqPageManager_grid_key X Y 0 m))) = ∅ /\
   key_events (base (fst (SeqPageManager_grid_key X Y 0 m)))
     = key_events (base m) ++ [(cur, (X, Y, 0))]).
Proof.
  intros HX HY Hempty Hcur Hidx. split.
  - by apply (seq_press_switch_button m cur i).
  - rewrite (seq_release_switch_button m cur _ _ Hempty Hcur HX HY). simpl.
    repeat split; try assumption. apply discard_from_empty.
Qed.

Lemma seq_switch_button_advances_witness :
  current_page (base (fst (SeqPageManager_grid_key 7 7 1 assigned_seq_manager)))
    = Some 1%nat /\
  key_events (base (fst (SeqPageManager_grid_key 7 7 1 assigned_seq_manager))) = [] /\
  current_page (base (fst (SeqPageManager_grid_key 7 7 0 assigned_seq_manager)))
    = Some 0%nat /\
  key_events (base (fst (SeqPageManager_grid_key 7 7 0 assigned_seq_manager)))
    = [(0%nat, (7, 7, 0))].
Proof.
  destruct (seq_switch_button_advances assigned_seq_manager 0 0 7 7)
    as ((target & Htarget & Hcur & _ & Hkeys) & _ & Hcur' & _ & Hkeys').
  - reflexivity.
  - reflexivity.
  - reflexivity.
  - reflexivity.
  - reflexivity.
  - simpl in Htarget. injection Htarget as <-.
    repeat split; assumption.
Defined.

(** C7 as stated fails: the release of the switch button is not ignored; the
    current page is called with it. *)
Lemma seq_release_not_ignored :
  key_events (base seq_manager) = [] /\
  key_events (base (fst (SeqPageManager_grid_key 7 7 0 seq_manager)))
    = [(0%nat, (7, 7, 0))] /\
  fst (SeqPageManager_grid_key 7 7 0 seq_manager) <> seq_manager.
Proof.
  repeat split. intros Heq.
  apply (f_equal (fun m => key_events (base m))) in Heq. discriminate Heq.
Qed.

(** The scenario of the specification: three pages, switch button at (7,7)
    on an 8 by 8 grid; three presses (each followed by its release) take the
    current page from 0 to 1, to 2 and back to 0.  Where the pages have
    buffers every press returns; on pages as [__init__] leaves them the
    current page moves on all the same, and each press then raises
    [AttributeError] from the render of the page without a buffer. *)
Example seq_three_presses :
  let press m := fst (SeqPageManager_grid_key 7 7 0
                        (fst (SeqPageManager_grid_key 7 7 1 m))) in
  (current_page (base seq_manager) = Some 0%nat /\
   current_page (base (press seq_manager)) = Some 1%nat /\
   current_page (base (press (press seq_manager))) = Some 2%nat /\
   current_page (base (press (press (press seq_manager)))) = Some 0%nat /\
   snd (SeqPageManager_grid_key 7 7 1 seq_manager) = None /\
   snd (SeqPageManager_grid_key 7 7 1 (press seq_manager)) = None /\
   snd (SeqPageManager_grid_key 7 7 1 (press (press seq_manager))) = None) /\
  (current_page (base assigned_seq_manager) = Some 0%nat /\
   current_page (base (press assigned_seq_manager)) = Some 1%nat /\
   current_page (base (press (press assigned_seq_manager))) = Some 2%nat /\
   current_page (base (press (press (press assigned_seq_manager)))) = Some 0%nat /\
   snd (SeqPageManager_grid_key 7 7 1 assigned_seq_manager) = Some AttributeError).
Proof. vm_compute. repeat split; reflexivity. Qed.

(** ** Regions: whole rows, tiles and surfaces written cell by cell *)

Lemma shape_ext (W H : nat) (b1 b2 : GridBuffer) :
  shape W H b1 -> shape W H b2 ->
  (forall x y, level_at b1 x y = level_at b2 x y) -> b1 = b2.
Proof.
  intros (Hw1 & Hh1 & Hl1 & Hr1) (Hw2 & Hh2 & Hl2 & Hr2) Hcells.
  destruct b1 as [l1 w1 h1], b2 as [l2 w2 h2]. simpl in *.
  assert (l1 = l2) as ->; [| congruence].
  apply list_eq_same_length with H; try assumption.
  intros y row1 row2 Hy Hrow1 Hrow2.
  pose proof (Forall_lookup_1 _ _ _ _ Hr1 Hrow1) as Hlen1.
  pose proof (Forall_lookup_1 _ _ _ _ Hr2 Hrow2) as Hlen2.
  simpl in Hlen1, Hlen2.
  apply list_eq_same_length with W; try assumption.
  intros x v1 v2 Hx Hv1 Hv2.
  specialize (Hcells x y). unfold level_at in Hcells. simpl in Hcells.
  rewrite Hrow1, Hrow2 in Hcells. congruence.
Qed.

Lemma led_level_row_region (W H : nat) (s : GridBuffer) (xo y : nat) (data : list Z) :
  shape W H s ->
  (xo + length data <= W)%nat -> (y < H)%nat ->
  exists s', GridBuffer_led_level_row (Z.of_nat xo) (Z.of_nat y) data s = finished s' /\
    shape W H s' /\
    forall x' y',
      level_at s' x' y' =
        if decide (y' = y /\ (xo <= x' < xo + length data)%nat)
        then data !! (x' - xo)%nat else level_at s x' y'.
Proof.
  intros Hs Hfit Hy. eexists.
  split; [apply (led_level_row_wraps W H); [exact Hs | lia | lia] |].
  set (items := enumerate (py_take (Z.of_nat W - Z.of_nat xo) data)).
  assert (Htake : py_take (Z.of_nat W - Z.of_nat xo) data = data).
  { unfold py_take.
    replace (0 <=? Z.of_nat W - Z.of_nat xo) with true by (symmetry; apply Z.leb_le; lia).
    apply take_ge. lia. }
  assert (Hvalid : forall a, In a items ->
            - Z.of_nat H <= Z.of_nat y < Z.of_nat H /\
            - Z.of_nat W <= fst a + Z.of_nat xo < Z.of_nat W).
  { intros a Ha. apply In_enumerate_inv in Ha as (i & Hi & Hfst).
    rewrite Htake in Hi. apply lookup_lt_Some in Hi. lia. }
  split; [by apply shape_foldl_put |].
  intros x' y'.
  destruct (decide (y' = y /\ (xo <= x' < xo + length data)%nat)) as [[-> Hx'] | Hout].
  - destruct (lookup_lt_is_Some_2 data (x' - xo)) as [v Hv]; [lia |].
    rewrite Hv. apply (level_at_foldl_put_val W H); try assumption.
    + intros a Ha Hax _. apply In_enumerate_inv in Ha as (i & Hi & Hfst).
      rewrite Htake in Hi. pose proof (lookup_lt_Some _ _ _ Hi) as Hlt.
      rewrite wrap_nonneg in Hax by lia.
      replace i with (x' - xo)%nat in Hi by lia. congruence.
    + left. exists (Z.of_nat (x' - xo), v). split; [| split].
      * apply list_elem_of_In, list_elem_of_lookup. exists (x' - xo)%nat.
        unfold items. rewrite enumerate_lookup, Htake, Hv. reflexivity.
      * simpl. rewrite wrap_nonneg by lia. lia.
      * rewrite wrap_nonneg by lia. lia.
  - apply (level_at_foldl_put_other W H); try assumption.
    intros a Ha [Hax Hay]. apply Hout.
    apply In_enumerate_inv in Ha as (i & Hi & Hfst).
    rewrite Htake in Hi. apply lookup_lt_Some in Hi.
    rewrite wrap_nonneg in Hax, Hay by lia. lia.
Qed.

(** A loop whose iterations each write the target content into the part of
    the surface they cover, leaving the rest alone, writes the target into
    the union of the parts and leaves the rest alone. *)
Lemma for_each_region {A : Type} (W H : nat) (body : A -> GridBuffer -> outcome GridBuffer)
    (target : nat -> nat -> option Z) (covers : A -> nat -> nat -> bool)
    (items : list A) (s : GridBuffer) :
  (forall a s0, In a items -> shape W H s0 ->
     exists s1, body a s0 = finished s1 /\ shape W H s1 /\
       forall x y, level_at s1 x y =
                   if covers a x y then target x y else level_at s0 x y) ->
  shape W H s ->
  exists s', for_each body items s = finished s' /\ shape W H s' /\
    forall x y, level_at s' x y =
                if existsb (fun a => covers a x y) items then target x y
                else level_at s x y.
Proof.
  revert s. induction items as [| a items IH]; intros s Hbody Hs.
  - exists s. split; [reflexivity |]. split; [exact Hs | reflexivity].
  - destruct (Hbody a s (or_introl eq_refl) Hs) as (s1 & Hrun & Hs1 & Hcells).
    destruct (IH s1) as (s' & Hrun' & Hs' & Hcells'); [| exact Hs1 |].
    { intros a' s0 Ha'. apply Hbody. by right. }
    exists s'. simpl. rewrite Hrun. simpl. split; [exact Hrun' |].
    split; [exact Hs' |]. intros x y. rewrite Hcells', Hcells.
    destruct (existsb (fun a0 => covers a0 x y) items), (covers a x y); reflexivity.
Qed.

Lemma is_8x8_spec (tile : list (list Z)) :
  is_8x8 tile = true <->
  length tile = 8%nat /\ forall r row, tile !! r = Some row -> length row = 8%nat.
Proof.
  unfold is_8x8. rewrite andb_true_iff, Nat.eqb_eq, forallb_forall. split.
  - intros [Hlen Hrows]. split; [exact Hlen |]. intros r row Hrow.
    apply Nat.eqb_eq, Hrows, list_elem_of_In. by eapply list_elem_of_lookup_2.
  - intros [Hlen Hrows]. split; [exact Hlen |]. intros row Hin.
    apply list_elem_of_In, list_elem_of_lookup in Hin as [r Hr].
    apply Nat.eqb_eq. by eapply Hrows.
Qed.

Lemma led_level_map_tile (W H : nat) (s : GridBuffer) (xo yo : nat)
    (tile : list (list Z)) :
  shape W H s -> is_8x8 tile = true ->
  (xo + 8 <= W)%nat -> (yo + 8 <= H)%nat ->
  exists s',
    GridBuffer_led_level_map (Z.of_nat xo) (Z.of_nat yo) tile s = finished s' /\
    shape W H s' /\
    forall x y, level_at s' x y =
                if in_tile xo yo x y then tile_cell tile (x - xo) (y - yo)
                else level_at s x y.
Proof.
  intros Hs Htile Hx Hy. apply is_8x8_spec in Htile as [Hlen Hrows].
  unfold GridBuffer_led_level_map.
  destruct (for_each_region W H
              (fun '(r, row) => GridBuffer_led_level_row (Z.of_nat xo) (Z.of_nat yo + r) row)
              (fun x y => tile_cell tile (x - xo) (y - yo))
              (fun a x y => (y =? yo + Z.to_nat (fst a))%nat && (xo <=? x)%nat
                            && (x <? xo + 8)%nat)
              (enumerate tile) s) as (s' & Hrun & Hs' & Hcells); [| exact Hs |].
  - intros [r row] s0 Ha Hs0.
    apply In_enumerate_inv in Ha as (k & Hk & Hr). simpl in Hk, Hr. subst r.
    pose proof (Hrows k row Hk) as Hrl. pose proof (lookup_lt_Some _ _ _ Hk) as Hklt.
    destruct (led_level_row_region W H s0 xo (yo + k) row Hs0) as (s1 & Hrun & Hs1 & Hcells);
      [lia | lia |].
    exists s1. rewrite <- Nat2Z.inj_add. split; [exact Hrun |]. split; [exact Hs1 |].
    intros x y. rewrite Hcells. simpl. rewrite Nat2Z.id, Hrl.
    destruct (decide (y = (yo + k)%nat /\ (xo <= x < xo + 8)%nat)) as [[-> Hin] | Hout].
    + rewrite Nat.eqb_refl. simpl.
      replace (xo <=? x)%nat with true by (symmetry; apply Nat.leb_le; lia).
      replace (x <? xo + 8)%nat with true by (symmetry; apply Nat.ltb_lt; lia).
      simpl. unfold tile_cell.
      replace (yo + k - yo)%nat with k by lia. by rewrite Hk.
    + destruct (Nat.eqb_spec y (yo + k)), (Nat.leb_spec xo x), (Nat.ltb_spec x (xo + 8));
        simpl; try reflexivity. exfalso. apply Hout. lia.
  - exists s'. split; [exact Hrun |]. split; [exact Hs' |].
    intros x y. rewrite Hcells.
    replace (existsb _ (enumerate tile)) with (in_tile xo yo x y); [reflexivity |].
    apply eq_true_iff_eq. rewrite existsb_exists. unfold in_tile.
    rewrite !andb_true_iff, !Nat.leb_le, !Nat.ltb_lt. split.
    + intros [[[Hx0 Hx1] Hy0] Hy1].
      destruct (lookup_lt_is_Some_2 tile (y - yo)) as [row Hrow]; [lia |].
      exists (Z.of_nat (y - yo), row). split.
      * apply list_elem_of_In, list_elem_of_lookup. exists (y - yo)%nat.
        by rewrite enumerate_lookup, Hrow.
      * simpl. rewrite !andb_true_iff, Nat.eqb_eq, Nat.leb_le, Nat.ltb_lt. lia.
    + intros ([r row] & Ha & Hc). simpl in Hc.
      apply In_enumerate_inv in Ha as (k & Hk & Hr). simpl in Hk, Hr. subst r.
      apply lookup_lt_Some in Hk.
      rewrite !andb_true_iff, Nat.eqb_eq, Nat.leb_le, Nat.ltb_lt in Hc. lia.
Qed.

Lemma list_comp_fmap_ok {A B C : Type} (f : B -> res C) (h : A -> B) (g : A -> C)
    (l : list A) :
  (forall a, In a l -> f (h a) = Ok (g a)) ->
  list_comp f (h <$> l) = Ok (g <$> l).
Proof.
  induction l as [| a l IH]; intros Hf; [reflexivity |].
  rewrite !fmap_cons. cbn [list_comp].
  rewrite (Hf a (or_introl eq_refl)). cbn [res_bind].
  rewrite IH; [reflexivity |]. intros a' Ha'. apply Hf. by right.
Qed.

Lemma get_level_map_tile (W H : nat) (b : GridBuffer) (xo yo : nat) :
  shape W H b -> (xo + 8 <= W)%nat -> (yo + 8 <= H)%nat ->
  GridBuffer_get_level_map (Z.of_nat xo) (Z.of_nat yo) b = Ok (tile_of b xo yo).
Proof.
  intros Hb Hx Hy. unfold GridBuffer_get_level_map, py_range2, tile_of.
  replace (Z.to_nat (Z.of_nat yo + 8 - Z.of_nat yo)) with 8%nat by lia.
  replace (Z.to_nat (Z.of_nat xo + 8 - Z.of_nat xo)) with 8%nat by lia.
  apply list_comp_fmap_ok. intros r Hr. apply in_seq in Hr.
  apply list_comp_fmap_ok. intros c Hc. apply in_seq in Hc.
  destruct (load_level_at W H b (Z.of_nat yo + Z.of_nat r) (Z.of_nat xo + Z.of_nat c) Hb)
    as (v & -> & Hv); [lia | lia |].
  rewrite !wrap_nonneg in Hv by lia.
  replace (Z.to_nat (Z.of_nat xo + Z.of_nat c)) with (xo + c)%nat in Hv by lia.
  replace (Z.to_nat (Z.of_nat yo + Z.of_nat r)) with (yo + r)%nat in Hv by lia.
  by rewrite Hv.
Qed.

Lemma lookup_fmap_seq {A : Type} (f : nat -> A) (n i : nat) :
  (i < n)%nat -> (f <$> seq 0 n) !! i = Some (f i).
Proof. intros Hi. by rewrite list_lookup_fmap, lookup_seq_lt. Qed.

Lemma tile_of_8x8 (b : GridBuffer) (xo yo : nat) : is_8x8 (tile_of b xo yo) = true.
Proof.
  apply is_8x8_spec. unfold tile_of. split; [by rewrite length_fmap |].
  intros r row Hrow. rewrite list_lookup_fmap in Hrow.
  destruct (seq 0 8 !! r); [| discriminate Hrow].
  injection Hrow as <-. reflexivity.
Qed.

(** ** Packed rows and maps, unpacked again *)

Lemma concat_groups (data : list Z) (n : nat) :
  length data = (8 * n)%nat ->
  concat ((fun i => take 8 (drop (8 * i) data)) <$> seq 0 n) = data.
Proof.
  revert data. induction n as [| n IH]; intros data Hlen.
  - destruct data; [reflexivity | discriminate Hlen].
  - rewrite <- cons_seq, fmap_cons, <- fmap_S_seq, <- list_fmap_compose.
    cbn [concat]. rewrite Nat.mul_0_r, drop_0.
    rewrite <- (take_drop 8 data) at 2. f_equal.
    rewrite <- (IH (drop 8 data)) at 1 by (rewrite length_drop; lia).
    f_equal. apply list_fmap_ext. intros _ i _. simpl.
    rewrite drop_drop. f_equal. f_equal. lia.
Qed.

Lemma py_slice_group (data : list Z) (i : nat) :
  py_slice (Z.of_nat i * 8) ((Z.of_nat i + 1) * 8) data = take 8 (drop (8 * i) data).
Proof.
  unfold py_slice. f_equal; [lia |]. f_equal. lia.
Qed.

Lemma binary_row8_group (data : list Z) (n i : nat) :
  forallb binary data = true -> length data = (8 * n)%nat -> (i < n)%nat ->
  binary_row8 (take 8 (drop (8 * i) data)) = true.
Proof.
  intros Hbin Hlen Hi. unfold binary_row8. apply andb_true_iff. split.
  - apply Nat.eqb_eq. rewrite length_take, length_drop. lia.
  - rewrite forallb_forall in *. intros v Hv. apply Hbin.
    apply list_elem_of_In. apply list_elem_of_In in Hv.
    apply elem_of_take in Hv as (j & Hj & _).
    rewrite lookup_drop in Hj. by eapply list_elem_of_lookup_2.
Qed.

Lemma pack_groups_roundtrip (data : list Z) :
  forallb binary data = true -> (length data mod 8 =? 0)%nat = true ->
  exists bytes, pack_groups data = Ok bytes /\ concat (unpack_row <$> bytes) = data.
Proof.
  intros Hbin Hmod. apply Nat.eqb_eq in Hmod.
  apply Nat.Div0.div_exact in Hmod. set (n := (length data / 8)%nat) in *.
  exists ((fun i => shift_sum (take 8 (drop (8 * i) data))) <$> seq 0 n). split.
  - unfold pack_groups, py_range.
    replace (Z.to_nat (Z.of_nat (length data) / 8)) with n
      by (rewrite Hmod at 1; rewrite Nat2Z.inj_mul, Z.mul_comm, Z.div_mul; lia).
    apply list_comp_fmap_ok.
    intros i Hi. apply in_seq in Hi. rewrite py_slice_group.
    apply pack_row_binary, (binary_row8_group data n); [exact Hbin | exact Hmod | lia].
  - rewrite <- list_fmap_compose. rewrite <- (concat_groups data n Hmod) at 1.
    f_equal. apply list_fmap_ext. intros k i Hi. simpl.
    apply lookup_seq in Hi as [-> Hi].
    apply pack_row_binary, (binary_row8_group data n); [exact Hbin | exact Hmod | lia].
Qed.

Lemma pack_map_roundtrip (data : list (list Z)) :
  is_8x8 data = true -> forallb (forallb binary) data = true ->
  exists bytes,
    list_comp (fun i => let? row := py_getitem data i in pack_row row) (py_range 8)
      = Ok bytes /\
    unpack_row <$> bytes = data /\
    Forall (fun v => 0 <= v <= 255) bytes.
Proof.
  intros Hdata Hbin. apply is_8x8_spec in Hdata as [Hlen Hrows].
  assert (Hrow : forall i, (i < 8)%nat ->
            exists row, data !! i = Some row /\ binary_row8 row = true).
  { intros i Hi. destruct (lookup_lt_is_Some_2 data i) as [row Hrow]; [lia |].
    exists row. split; [exact Hrow |]. unfold binary_row8.
    rewrite (Hrows i row Hrow). simpl.
    rewrite forallb_forall in Hbin. apply Hbin, list_elem_of_In.
    by eapply list_elem_of_lookup_2. }
  exists ((fun i => shift_sum (default [] (data !! i))) <$> seq 0 8).
  split; [| split].
  - unfold py_range. change (Z.to_nat 8) with 8%nat.
    apply list_comp_fmap_ok. intros i Hi. apply in_seq in Hi.
    destruct (Hrow i) as (row & Hlook & Hb); [lia |].
    unfold py_getitem.
    destruct (py_index_wrap (length data) (Z.of_nat i)) as [-> _]; [lia |].
    rewrite wrap_nonneg, Nat2Z.id, Hlook by lia. simpl.
    by apply pack_row_binary.
  - apply list_eq_same_length with 8%nat; [exact Hlen | by rewrite !length_fmap |].
    intros i row1 row2 Hi Hrow1 Hrow2.
    rewrite <- list_fmap_compose, lookup_fmap_seq in Hrow1 by lia.
    injection Hrow1 as <-. rewrite Hrow2. simpl.
    destruct (Hrow i Hi) as (row & Hlook & Hb).
    assert (row = row2) as -> by congruence.
    by apply pack_row_binary.
  - apply Forall_fmap, Forall_forall. intros i Hi. apply elem_of_seq in Hi.
    cbv beta. unfold compose.
    destruct (Hrow i) as (row & -> & Hb); [lia |]. simpl.
    by apply pack_row_binary.
Qed.

(** ** Data mapped before it is enumerated or sliced *)

Lemma enumerate_fmap {A B : Type} (f : A -> B) (l : list A) :
  enumerate (f <$> l) = (fun p => (fst p, f (snd p))) <$> enumerate l.
Proof.
  unfold enumerate. apply list_eq. intros i.
  rewrite list_lookup_imap, !list_lookup_fmap, list_lookup_imap.
  by destruct (l !! i).
Qed.

(** ** Operations keep the shape of a surface *)

Lemma store_level_shape (W H : nat) (y x l : Z) (b : GridBuffer) :
  True -> shape W H b -> shape W H (fst (store_level y x l b)).
Proof.
  intros _ Hb. apply store_level_inv; [exact Hb |].
  intros r c row Hrow. destruct Hb as (Hw & Hh & Hlen & Hrows).
  unfold shape. simpl. rewrite length_insert.
  split; [exact Hw |]. split; [exact Hh |]. split; [exact Hlen |].
  apply Forall_insert; [exact Hrows |].
  rewrite length_insert. by apply (Forall_lookup_1 _ _ _ _ Hrows Hrow).
Qed.

Lemma Forall_True {A : Type} (l : list A) : Forall (fun _ => True) l.
Proof. by apply Forall_forall. Qed.

(** ** Binary operations as level operations *)

Lemma for_each_skip {S A : Type} (P : S -> Prop) (body : A -> S -> outcome S)
    (l : list A) (s : S) :
  (forall a, In a l -> P s -> body a s = finished s) ->
  P s -> for_each body l s = finished s.
Proof.
  induction l as [| a l IH]; intros Hskip Hs; [reflexivity |].
  simpl. rewrite (Hskip a (or_introl eq_refl) Hs). simpl.
  apply IH; [| exact Hs]. intros a' Ha'. apply Hskip. by right.
Qed.

Lemma store_level_dims (y x l : Z) (b : GridBuffer) :
  buf_width (fst (store_level y x l b)) = buf_width b /\
  buf_height (fst (store_level y x l b)) = buf_height b.
Proof.
  apply (store_level_inv (fun b' => buf_width b' = buf_width b /\
                                    buf_height b' = buf_height b)); by split.
Qed.

(** A loop of guarded steps over all the data equals the loop of unguarded
    steps over the first [k] data, when the guard holds exactly for the
    indices below [k]. *)
Lemma guarded_loop (P : GridBuffer -> Prop) (k : Z) (bits : list Z)
    (step gstep : Z -> Z -> GridBuffer -> outcome GridBuffer) (b : GridBuffer) :
  0 <= k ->
  (forall i s b0, P b0 -> 0 <= i < k -> gstep i s b0 = step i (s * 15) b0) ->
  (forall i s b0, P b0 -> k <= i -> gstep i s b0 = finished b0) ->
  (forall i l b0, P b0 -> P (fst (step i l b0))) ->
  P b ->
  for_each (fun p => gstep (fst p) (snd p)) (enumerate bits) b
  = for_each (fun p => step (fst p) (snd p))
             (enumerate (py_take k ((fun s => s * 15) <$> bits))) b.
Proof.
  intros Hk Hin Hout HP Hb.
  assert (Htake : py_take k ((fun s => s * 15) <$> bits)
                  = (fun s => s * 15) <$> take (Z.to_nat k) bits).
  { unfold py_take. replace (0 <=? k) with true by (symmetry; apply Z.leb_le; lia).
    by rewrite fmap_take. }
  rewrite Htake, enumerate_fmap.
  change (?g <$> enumerate ?l) with (map g (enumerate l)). rewrite for_each_map.
  rewrite <- (take_drop (Z.to_nat k) bits) at 1.
  unfold enumerate at 1. rewrite imap_app, for_each_app.
  fold (enumerate (take (Z.to_nat k) bits)).
  rewrite (for_each_ext_in P _
             (fun a => step (fst a) (snd a * 15))
             (enumerate (take (Z.to_nat k) bits)) b).
  - assert (Hb1 : P (fst (for_each (fun a => step (fst a) (snd a * 15))
                               (enumerate (take (Z.to_nat k) bits)) b))).
    { apply for_each_inv; [| exact Hb]. intros a s' _. apply HP. }
    destruct (for_each _ (enumerate (take (Z.to_nat k) bits)) b) as [b1 [e |]];
      [reflexivity |]. cbn [then_ fst] in *.
    apply (for_each_skip P); [| exact Hb1]. intros [i s] Ha Hb0. cbn [fst snd].
    apply Hout; [exact Hb0 |].
    apply list_elem_of_In, elem_of_lookup_imap in Ha as (j & v & Heq & Hlook).
    injection Heq as -> _. rewrite length_take.
    rewrite lookup_drop in Hlook. apply lookup_lt_Some in Hlook. lia.
  - intros [i s] b0 Ha Hb0. cbn [fst snd].
    apply In_enumerate_inv in Ha as (j & Hj & Hi). cbn [fst snd] in Hj, Hi. subst i.
    apply lookup_take_Some in Hj as [_ Hj].
    split; [apply Hin; [exact Hb0 | lia] | by apply HP].
  - exact Hb.
Qed.

Lemma store_level_x_out (W H : nat) (y x l : Z) (b : GridBuffer) :
  shape W H b -> Z.of_nat W <= x -> snd (store_level y x l b) = Some IndexError.
Proof.
  intros Hb Hx. unfold store_level.
  destruct (py_index (length (levels b)) y) as [r |]; [| reflexivity].
  destruct (levels b !! r) as [row |] eqn:Hrow; [| reflexivity].
  destruct Hb as (_ & _ & _ & Hrows).
  pose proof (Forall_lookup_1 _ _ _ _ Hrows Hrow) as Hlen. simpl in Hlen.
  rewrite Hlen, py_index_out; [reflexivity | lia].
Qed.

Lemma store_level_y_out (W H : nat) (y x l : Z) (b : GridBuffer) :
  shape W H b -> Z.of_nat H <= y -> snd (store_level y x l b) = Some IndexError.
Proof.
  intros (_ & _ & Hlen & _) Hy. unfold store_level.
  rewrite Hlen, py_index_out; [reflexivity | lia].
Qed.

Lemma led_row_as_level (W H : nat) (xo y : Z) (bits : list Z) (b : GridBuffer) :
  shape W H b ->
  snd (GridBuffer_led_level_row xo y ((fun s => s * 15) <$> bits) b) = None ->
  GridBuffer_led_row xo y bits b
  = GridBuffer_led_level_row xo y ((fun s => s * 15) <$> bits) b.
Proof.
  intros Hb Hret. pose proof Hb as (Hw & Hh & _).
  unfold GridBuffer_led_row, GridBuffer_led_level_row in *.
  rewrite (for_each_ext _ (fun p => GridBuffer_led_set (xo + fst p) y (snd p)))
    by (by intros [x s] s').
  rewrite (for_each_ext (fun '(x, l) => store_level y (x + xo) l)
             (fun p => store_level y (fst p + xo) (snd p))) in *
    by (by intros [x l] s').
  set (P := fun b0 : GridBuffer => buf_width b0 = buf_width b /\
                                   buf_height b0 = buf_height b).
  assert (HP : forall i l b0, P b0 -> P (fst (store_level y (i + xo) l b0))).
  { intros i l b0 [H1 H2]. unfold P.
    destruct (store_level_dims y (i + xo) l b0) as [E1 E2]. by rewrite E1, E2. }
  destruct (y <? buf_height b) eqn:Hy.
  - destruct (Z.le_gt_cases 0 (buf_width b - xo)) as [Hk | Hk].
    + apply (guarded_loop P (buf_width b - xo) bits
               (fun i l => store_level y (i + xo) l)
               (fun i s => GridBuffer_led_set (xo + i) y s)); try done.
      * intros i s b0 [H1 H2] Hi.
        unfold GridBuffer_led_set, GridBuffer_led_level_set. rewrite H1, H2, Hy.
        replace (xo + i <? buf_width b) with true by (symmetry; apply Z.ltb_lt; lia).
        simpl. by rewrite (Z.add_comm xo i).
      * intros i s b0 [H1 H2] Hi.
        unfold GridBuffer_led_set, GridBuffer_led_level_set. rewrite H1.
        by replace (xo + i <? buf_width b) with false by (symmetry; apply Z.ltb_ge; lia).
    + destruct (enumerate (py_take (buf_width b - xo) ((fun s => s * 15) <$> bits)))
        as [| [i l] rest] eqn:Hitems.
      * simpl. apply (for_each_skip P); [| done].
        intros [i s] Ha [H1 H2]. cbn [fst snd].
        apply In_enumerate_inv in Ha as (j & _ & Hi). cbn [fst] in Hi.
        unfold GridBuffer_led_set, GridBuffer_led_level_set.
        by replace (xo + i <? buf_width b) with false by (symmetry; apply Z.ltb_ge; lia).
      * exfalso. cbn [for_each fst snd] in Hret.
        assert (Hi : 0 <= i).
        { assert (Ha : In (i, l) (enumerate (py_take (buf_width b - xo)
                                              ((fun s => s * 15) <$> bits))))
            by (rewrite Hitems; by left).
          apply In_enumerate_inv in Ha as (j & _ & Hj). cbn [fst] in Hj. lia. }
        pose proof (store_level_x_out W H y (i + xo) l b Hb) as Hraise.
        destruct (store_level y (i + xo) l b) as [b1 [e |]]; cbn [then_ snd] in *.
        -- discriminate Hret.
        -- discriminate Hraise. lia.
  - simpl. apply (for_each_skip P); [| done].
    intros [i s] _ [H1 H2]. cbn [fst snd].
    unfold GridBuffer_led_set, GridBuffer_led_level_set. rewrite Hy.
    by rewrite andb_false_r.
Qed.

Lemma led_col_as_level (W H : nat) (x yo : Z) (bits : list Z) (b : GridBuffer) :
  shape W H b ->
  snd (GridBuffer_led_level_col x yo ((fun s => s * 15) <$> bits) b) = None ->
  GridBuffer_led_col x yo bits b
  = GridBuffer_led_level_col x yo ((fun s => s * 15) <$> bits) b.
Proof.
  intros Hb Hret. pose proof Hb as (Hw & Hh & _).
  unfold GridBuffer_led_col, GridBuffer_led_level_col in *.
  rewrite (for_each_ext _ (fun p => GridBuffer_led_set x (yo + fst p) (snd p)))
    by (by intros [y s] s').
  rewrite (for_each_ext (fun '(y, l) => store_level (y + yo) x l)
             (fun p => store_level (fst p + yo) x (snd p))) in *
    by (by intros [y l] s').
  set (P := fun b0 : GridBuffer => buf_width b0 = buf_width b /\
                                   buf_height b0 = buf_height b).
  assert (HP : forall i l b0, P b0 -> P (fst (store_level (i + yo) x l b0))).
  { intros i l b0 [H1 H2]. unfold P.
    destruct (store_level_dims (i + yo) x l b0) as [E1 E2]. by rewrite E1, E2. }
  destruct (x <? buf_width b) eqn:Hx.
  - destruct (Z.le_gt_cases 0 (buf_height b - yo)) as [Hk | Hk].
    + apply (guarded_loop P (buf_height b - yo) bits
               (fun i l => store_level (i + yo) x l)
               (fun i s => GridBuffer_led_set x (yo + i) s)); try done.
      * intros i s b0 [H1 H2] Hi.
        unfold GridBuffer_led_set, GridBuffer_led_level_set. rewrite H1, H2, Hx.
        replace (yo + i <? buf_height b) with true by (symmetry; apply Z.ltb_lt; lia).
        simpl. by rewrite (Z.add_comm yo i).
      * intros i s b0 [H1 H2] Hi.
        unfold GridBuffer_led_set, GridBuffer_led_level_set. rewrite H2.
        replace (yo + i <? buf_height b) with false by (symmetry; apply Z.ltb_ge; lia).
        by rewrite andb_false_r.
    + destruct (enumerate (py_take (buf_height b - yo) ((fun s => s * 15) <$> bits)))
        as [| [i l] rest] eqn:Hitems.
      * simpl. apply (for_each_skip P); [| done].
        intros [i s] Ha [H1 H2]. cbn [fst snd].
        apply In_enumerate_inv in Ha as (j & _ & Hi). cbn [fst] in Hi.
        unfold GridBuffer_led_set, GridBuffer_led_level_set.
        replace (yo + i <? buf_height b) with false by (symmetry; apply Z.ltb_ge; lia).
        by rewrite andb_false_r.
      * exfalso. cbn [for_each fst snd] in Hret.
        assert (Hi : 0 <= i).
        { assert (Ha : In (i, l) (enumerate (py_take (buf_height b - yo)
                                              ((fun s => s * 15) <$> bits))))
            by (rewrite Hitems; by left).
          apply In_enumerate_inv in Ha as (j & _ & Hj). cbn [fst] in Hj. lia. }
        pose proof (store_level_y_out W H (i + yo) x l b Hb) as Hraise.
        destruct (store_level (i + yo) x l b) as [b1 [e |]]; cbn [then_ snd] in *.
        -- discriminate Hret.
        -- discriminate Hraise. lia.
  - simpl. apply (for_each_skip P); [| done].
    intros [i s] _ [H1 H2]. cbn [fst snd].
    unfold GridBuffer_led_set, GridBuffer_led_level_set. by rewrite Hx.
Qed.

Lemma for_each_agree {S A A' : Type} (P : S -> Prop) (g : A -> A')
    (body : A -> S -> outcome S) (body' : A' -> S -> outcome S) (l : list A) (s : S) :
  (forall a s0, In a l -> P s0 -> snd (body' (g a) s0) = None ->
     body a s0 = body' (g a) s0) ->
  (forall a' s0, P s0 -> P (fst (body' a' s0))) ->
  P s ->
  snd (for_each body' (g <$> l) s) = None ->
  for_each body l s = for_each body' (g <$> l) s.
Proof.
  revert s. induction l as [| a l IH]; intros s Hagree HP Hs Hret; [reflexivity |].
  rewrite fmap_cons in *. cbn [for_each] in *.
  pose proof (Hagree a s (or_introl eq_refl) Hs) as Ha.
  pose proof (HP (g a) s Hs) as Hs1.
  destruct (body' (g a) s) as [s1 [e |]]; cbn [then_ fst snd] in *;
    [discriminate Hret |].
  rewrite Ha by reflexivity. cbn [then_].
  apply IH; try assumption. intros a' s0 Ha'. apply Hagree. by right.
Qed.

Lemma led_level_row_shape (W H : nat) (xo y : Z) (data : list Z) (b : GridBuffer) :
  shape W H b -> shape W H (fst (GridBuffer_led_level_row xo y data b)).
Proof.
  apply (led_level_row_keeps _ _ (store_level_shape W H)), Forall_True.
Qed.

Lemma led_map_as_level (W H : nat) (xo yo : Z) (data : list (list Z)) (b : GridBuffer) :
  shape W H b ->
  snd (GridBuffer_led_level_map xo yo
         ((fun row : list Z => (fun s => s * 15) <$> row) <$> data) b) = None ->
  GridBuffer_led_map xo yo data b
  = GridBuffer_led_level_map xo yo
      ((fun row : list Z => (fun s => s * 15) <$> row) <$> data) b.
Proof.
  intros Hb Hret. unfold GridBuffer_led_map, GridBuffer_led_level_map in *.
  rewrite enumerate_fmap in *.
  apply (for_each_agree (shape W H)); try assumption.
  - intros [r row] s0 _ Hs0 Hrow. cbn [fst snd] in *.
    by apply (led_row_as_level W H).
  - intros [r row] s0 Hs0. by apply led_level_row_shape.
Qed.

(** On a well-formed surface a binary operation does what the level
    operation with the levels [s * 15] does, when that one returns. *)
Lemma binary_as_level (W H : nat) (op : LedOp) (b : GridBuffer) :
  shape W H b ->
  snd (GridBuffer_apply (as_level_op op) b) = None ->
  GridBuffer_apply op b = GridBuffer_apply (as_level_op op) b.
Proof.
  intros Hb Hret. destruct op; cbn [as_level_op GridBuffer_apply] in *;
    try reflexivity.
  - by apply (led_map_as_level W H).
  - by apply (led_row_as_level W H).
  - by apply (led_col_as_level W H).
Qed.

(** ** Levels on a link that is not varibright *)

Lemma downgrade_binary (l : Z) : binary (downgrade l) = true.
Proof.
  unfold downgrade. change 1 with (Z.ones 1). rewrite Z.land_ones by lia.
  apply binary_spec.
  pose proof (Z.mod_pos_bound (Z.shiftr l 3) (2 ^ 1)). lia.
Qed.

Lemma forallb_downgrade (data : list Z) : forallb binary (downgrade <$> data) = true.
Proof.
  apply forallb_forall. intros s Hs.
  apply list_elem_of_In, list_elem_of_fmap in Hs as (l & -> & _).
  apply downgrade_binary.
Qed.

Lemma is_8x8_fmap (f : Z -> Z) (data : list (list Z)) :
  is_8x8 data = true -> is_8x8 ((fun row : list Z => f <$> row) <$> data) = true.
Proof.
  rewrite !is_8x8_spec. intros [Hlen Hrows]. split; [by rewrite length_fmap |].
  intros r row Hrow. rewrite list_lookup_fmap in Hrow.
  destruct (data !! r) as [row0 |] eqn:Hrow0; [| discriminate Hrow].
  injection Hrow as <-. rewrite length_fmap. by apply (Hrows r).
Qed.

(** ** Rendering a buffer *)

Lemma Grid_send_all_nil (g : Grid) : Grid_send_all [] g = g.
Proof. destruct g. unfold Grid_send_all. simpl. by rewrite app_nil_r. Qed.

Lemma Grid_send_all_app (l1 l2 : list Msg) (g : Grid) :
  Grid_send_all l2 (Grid_send_all l1 g) = Grid_send_all (l1 ++ l2) g.
Proof. unfold Grid_send_all. simpl. by rewrite app_assoc. Qed.

Lemma for_each_sends {A : Type} (R : Msg -> A -> Prop)
    (body : A -> Grid -> outcome Grid) (l : list A) (g : Grid) :
  (forall a s, In a l -> varibright s = varibright g -> prefix s = prefix g ->
     exists msg, body a s = finished (Grid_send_all [msg] s) /\ R msg a) ->
  exists msgs, for_each body l g = finished (Grid_send_all msgs g) /\ Forall2 R msgs l.
Proof.
  revert g. induction l as [| a l IH]; intros g Hbody.
  - exists []. simpl. by rewrite Grid_send_all_nil.
  - destruct (Hbody a g (or_introl eq_refl) eq_refl eq_refl) as (msg & Hrun & Hmsg).
    destruct (IH (Grid_send_all [msg] g)) as (msgs & Hrun' & Hmsgs).
    { intros a' s Ha' Hvb Hpfx. apply Hbody; [by right | exact Hvb | exact Hpfx]. }
    exists (msg :: msgs). split; [| by constructor].
    simpl. rewrite Hrun. cbn [then_ finished]. rewrite Hrun'.
    by rewrite Grid_send_all_app.
Qed.

(** ** [Page]: the shadow buffer *)

Lemma Page_write_without_buffer (p : nat) (op : LedOp) (m : BasePageManager) :
  buffer_of p m = None -> Page_write p op m = raised m AttributeError.
Proof.
  unfold buffer_of, Page_write. intros Hb.
  destruct (heap m !! p) as [pg |]; [| reflexivity]. by rewrite Hb.
Qed.

(** C6 fails on the code.  A page's shadow buffer is created by
    [Page.ready] alone, as [LedBuffer(self.width, self.height)], and the
    module binds no name [LedBuffer]: [Page.ready] raises [NameError] on
    every page and the buffer stays [None]; [BasePageManager.ready], which
    would call it, raises [AttributeError] before it reaches a page.  So on
    the pages of a manager as [__init__] made them, each of the ten LED
    operations raises [AttributeError] at [self.__buffer.op(...)], on the
    current page and on the others: nothing is stored and nothing is
    sent. *)
Theorem page_led_ops_find_no_buffer (op : LedOp) :
  (forall pg, Page_ready monome_globals pg = Raise NameError) /\
  BasePageManager_ready monome_globals fresh_page_manager
    = raised fresh_page_manager AttributeError /\
  Page_is_active 0 fresh_page_manager = true /\
  Page_write 0 op fresh_page_manager = raised fresh_page_manager AttributeError /\
  Page_is_active 1 fresh_page_manager = false /\
  Page_write 1 op fresh_page_manager = raised fresh_page_manager AttributeError.
Proof.
  split; [reflexivity |]. split; [reflexivity |]. split; [reflexivity |].
  split; [by apply Page_write_without_buffer |]. split; [reflexivity |].
  by apply Page_write_without_buffer.
Qed.

(** * Further properties of the module *)

(** ** [GridBuffer]: fills, tiles and edges *)

Lemma list_comp_raises {A B : Type} (f : A -> res B) (l : list A) (e : PyErr) :
  (forall a, In a l -> f a = Raise e \/ exists v, f a = Ok v) ->
  (exists a, In a l /\ f a = Raise e) ->
  list_comp f l = Raise e.
Proof.
  induction l as [| a l IH]; intros Hall (a0 & Hin & Hraise).
  - destruct Hin.
  - cbn [list_comp].
    destruct (Hall a (or_introl eq_refl)) as [-> | [v Hv]]; [reflexivity |].
    rewrite Hv. cbn [res_bind]. rewrite IH; [reflexivity | |].
    + intros a' Ha'. apply Hall. by right.
    + destruct Hin as [<- | Hin]; [congruence |]. by exists a0.
Qed.

Lemma level_at_out (W H : nat) (b : GridBuffer) (x y : nat) :
  shape W H b -> ~ ((x < W)%nat /\ (y < H)%nat) -> level_at b x y = None.
Proof.
  intros Hb Hout. destruct (level_at b x y) as [v |] eqn:Hv; [| reflexivity].
  exfalso. apply Hout. by apply (level_at_Some W H b x y v).
Qed.

Lemma led_level_all_cells (W H : nat) (b : GridBuffer) (l : Z) :
  shape W H b ->
  exists b', GridBuffer_led_level_all l b = finished b' /\ shape W H b' /\
    forall x y, (x < W)%nat -> (y < H)%nat -> level_at b' x y = Some l.
Proof.
  intros Hb. unfold GridBuffer_led_level_all.
  pose proof Hb as (Hw & Hh & _). rewrite Hw, Hh.
  set (items := list_prod (py_range (Z.of_nat W)) (py_range (Z.of_nat H))).
  assert (Hitems : forall a, In a items ->
            - Z.of_nat H <= snd a < Z.of_nat H /\ - Z.of_nat W <= fst a < Z.of_nat W).
  { intros [c r] Ha. apply in_prod_iff in Ha as [Hc Hr].
    apply In_py_range in Hr, Hc. simpl. lia. }
  rewrite for_each_nested. fold items.
  rewrite (for_each_store W H fst snd (fun _ => l) items b Hb Hitems).
  eexists. split; [reflexivity |]. split; [by apply shape_foldl_put |].
  intros x y Hx Hy. apply (level_at_foldl_put_val W H); try assumption.
  - reflexivity.
  - left. exists (Z.of_nat x, Z.of_nat y). simpl.
    rewrite !wrap_nonneg, !Nat2Z.id by lia. repeat split.
    apply in_prod; apply In_py_range; lia.
Qed.

(** X1. On a well-formed [W] by [H] buffer [led_level_all(l)] returns and
    leaves every cell at [l], whatever the buffer held before: the result
    is the same for every buffer of that size.  In particular [led_all(0)]
    gives back the buffer as [GridBuffer(W, H)] builds it. *)
Theorem led_level_all_fills (W H : nat) (b : GridBuffer) (l : Z) :
  shape W H b ->
  exists b', GridBuffer_led_level_all l b = finished b' /\ shape W H b' /\
    (forall x y, (x < W)%nat -> (y < H)%nat -> level_at b' x y = Some l) /\
    (forall b2, shape W H b2 -> GridBuffer_led_level_all l b2 = finished b') /\
    GridBuffer_led_all 0 b = finished (GridBuffer_init (Z.of_nat W) (Z.of_nat H)).
Proof.
  intros Hb.
  assert (Hsame : forall b1 b2 v, shape W H b1 -> shape W H b2 ->
            (forall x y, (x < W)%nat -> (y < H)%nat -> level_at b1 x y = Some v) ->
            (forall x y, (x < W)%nat -> (y < H)%nat -> level_at b2 x y = Some v) ->
            b1 = b2).
  { intros b1 b2 v H1 H2 Hc1 Hc2. apply (shape_ext W H); try assumption.
    intros x y. destruct (decide ((x < W)%nat /\ (y < H)%nat)) as [[Hx Hy] | Hout].
    - by rewrite Hc1, Hc2.
    - by rewrite (level_at_out W H b1), (level_at_out W H b2). }
  destruct (led_level_all_cells W H b l Hb) as (b' & Hrun & Hb' & Hcells).
  exists b'. split; [exact Hrun |]. split; [exact Hb' |]. split; [exact Hcells |].
  split.
  - intros b2 Hb2.
    destruct (led_level_all_cells W H b2 l Hb2) as (b2' & Hrun2 & Hb2' & Hcells2).
    rewrite Hrun2. f_equal. by apply (Hsame b2' b' l).
  - unfold GridBuffer_led_all. change (0 * 15) with 0.
    destruct (led_level_all_cells W H b 0 Hb) as (b0 & Hrun0 & Hb0 & Hcells0).
    rewrite Hrun0. f_equal. apply (Hsame b0 _ 0); try assumption.
    + apply shape_init.
    + intros x y. apply level_at_init.
Qed.

Lemma led_level_all_fills_witness :
  exists b', GridBuffer_led_level_all 9 (GridBuffer_run example_writes (GridBuffer_init 8 8))
             = finished b' /\
             level_at b' 3 4 = Some 9 /\
             GridBuffer_led_level_all 9 (GridBuffer_init 8 8) = finished b'.
Proof.
  destruct (led_level_all_fills 8 8
              (GridBuffer_run example_writes (GridBuffer_init 8 8)) 9)
    as (b' & Hrun & _ & Hcells & Hsame & _).
  - vm_compute. repeat split; repeat constructor.
  - exists b'. split; [exact Hrun |]. split.
    + apply Hcells; lia.
    + apply Hsame, (shape_init 8 8).
Defined.

Lemma tile_cells_8x8 (tile : list (list Z)) :
  is_8x8 tile = true ->
  (fun r => (fun c => default 0 (tile_cell tile c r)) <$> seq 0 8) <$> seq 0 8 = tile.
Proof.
  intros Htile. apply is_8x8_spec in Htile as [Hlen Hrows].
  apply list_eq_same_length with 8%nat; [exact Hlen | by rewrite length_fmap |].
  intros r row1 row2 Hr Hrow1 Hrow2.
  rewrite lookup_fmap_seq in Hrow1 by lia. injection Hrow1 as <-.
  pose proof (Hrows r row2 Hrow2) as Hrl.
  apply list_eq_same_length with 8%nat; [exact Hrl | reflexivity |].
  intros c v1 v2 Hc Hv1 Hv2.
  do 8 (destruct c as [| c];
        [injection Hv1 as <-; unfold tile_cell; by rewrite Hrow2, Hv2 |]).
  lia.
Qed.

(** X2. Writing an 8 by 8 map of levels at a tile that lies inside the
    buffer and reading the tile back with [get_level_map] gives the map
    again; the cells outside the tile keep their levels. *)
Theorem level_map_roundtrip (W H xo yo : nat) (b : GridBuffer) (tile : list (list Z)) :
  shape W H b -> is_8x8 tile = true ->
  (xo + 8 <= W)%nat -> (yo + 8 <= H)%nat ->
  exists b',
    GridBuffer_led_level_map (Z.of_nat xo) (Z.of_nat yo) tile b = finished b' /\
    GridBuffer_get_level_map (Z.of_nat xo) (Z.of_nat yo) b' = Ok tile /\
    forall x y, in_tile xo yo x y = false -> level_at b' x y = level_at b x y.
Proof.
  intros Hb Htile Hx Hy.
  destruct (led_level_map_tile W H b xo yo tile Hb Htile Hx Hy)
    as (b' & Hrun & Hb' & Hcells).
  exists b'. split; [exact Hrun |]. split.
  - rewrite (get_level_map_tile W H b' xo yo Hb' Hx Hy). f_equal.
    rewrite <- (tile_cells_8x8 tile Htile) at 1. unfold tile_of.
    apply list_fmap_ext. intros r ? Hr. apply lookup_seq in Hr as [-> Hr].
    apply list_fmap_ext. intros c ? Hc. apply lookup_seq in Hc as [-> Hc].
    cbn [Nat.add]. rewrite Hcells.
    replace (in_tile xo yo (xo + c) (yo + r)) with true.
    + by replace (xo + c - xo)%nat with c by lia;
        replace (yo + r - yo)%nat with r by lia.
    + symmetry. unfold in_tile.
      rewrite !andb_true_iff, !Nat.leb_le, !Nat.ltb_lt. lia.
  - intros x y Hout. by rewrite Hcells, Hout.
Qed.

Lemma level_map_roundtrip_witness :
  exists b',
    GridBuffer_led_level_map 8 0 (tile_of (GridBuffer_init 16 8) 0 0)
      (GridBuffer_init 16 8) = finished b' /\
    GridBuffer_get_level_map 8 0 b' = Ok (tile_of (GridBuffer_init 16 8) 0 0).
Proof.
  destruct (level_map_roundtrip 16 8 8 0 (GridBuffer_init 16 8)
              (tile_of (GridBuffer_init 16 8) 0 0))
    as (b' & Hrun & Hback & _).
  - apply (shape_init 16 8).
  - reflexivity.
  - lia.
  - lia.
  - exists b'. split; [exact Hrun | exact Hback].
Defined.

(** X3. On a well-formed [W] by [H] buffer, [get_level_map] at non-negative
    offsets returns the levels of the 8 by 8 tile when the whole tile lies
    inside the buffer, and raises [IndexError] as soon as the tile sticks
    out to the right or at the bottom: a partial tile is never returned. *)
Theorem get_level_map_bounds (W H xo yo : nat) (b : GridBuffer) :
  shape W H b ->
  GridBuffer_get_level_map (Z.of_nat xo) (Z.of_nat yo) b =
    if decide ((xo + 8 <= W)%nat /\ (yo + 8 <= H)%nat)
    then Ok (tile_of b xo yo) else Raise IndexError.
Proof.
  intros Hb. destruct (decide _) as [[Hx Hy] | Hout].
  - by apply (get_level_map_tile W H).
  - unfold GridBuffer_get_level_map, py_range2.
    replace (Z.to_nat (Z.of_nat yo + 8 - Z.of_nat yo)) with 8%nat by lia.
    replace (Z.to_nat (Z.of_nat xo + 8 - Z.of_nat xo)) with 8%nat by lia.
    assert (Hrow : forall r, (r < 8)%nat ->
              let row := list_comp (fun col => load_level (Z.of_nat yo + Z.of_nat r) col b)
                           ((fun i => Z.of_nat xo + Z.of_nat i) <$> seq 0 8) in
              (row = Raise IndexError \/ exists v, row = Ok v) /\
              (((W < xo + 8)%nat \/ (H <= yo + r)%nat) -> row = Raise IndexError)).
    { intros r Hr row. split.
      - destruct row as [v | e] eqn:Hrow; [right; by exists v | left].
        subst row. f_equal.
        assert (Hany : forall l, list_comp
                  (fun col => load_level (Z.of_nat yo + Z.of_nat r) col b) l = Raise e ->
                  e = IndexError).
        { clear Hrow. induction l as [| col l IH]; [discriminate |].
          cbn [list_comp].
          destruct (load_level_cases b (Z.of_nat yo + Z.of_nat r) col)
            as [[v ->] | ->]; cbn [res_bind].
          - destruct (list_comp _ l) as [vs | e']; [discriminate |].
            cbn [res_bind]. intros [= <-]. by apply IH.
          - congruence. }
        by apply (Hany _ Hrow).
      - intros Hbad. apply list_comp_raises.
        + intros col _.
          destruct (load_level_cases b (Z.of_nat yo + Z.of_nat r) col) as [Hok | Herr];
            [by right | by left].
        + exists (Z.of_nat xo + Z.of_nat 7). split.
          * apply list_elem_of_In, list_elem_of_fmap. exists 7%nat.
            split; [reflexivity |]. apply elem_of_seq. lia.
          * apply (load_level_out W H); [exact Hb | lia | lia | lia]. }
    apply list_comp_raises.
    + intros y Hy. apply list_elem_of_In, list_elem_of_fmap in Hy as (r & -> & Hr).
      apply elem_of_seq in Hr. apply (Hrow r). lia.
    + exists (Z.of_nat yo + Z.of_nat 7). split.
      * apply list_elem_of_In, list_elem_of_fmap. exists 7%nat.
        split; [reflexivity |]. apply elem_of_seq. lia.
      * apply (Hrow 7%nat); lia.
Qed.

Lemma get_level_map_bounds_witness :
  GridBuffer_get_level_map 8 0 (GridBuffer_init 16 8)
    = Ok (tile_of (GridBuffer_init 16 8) 8 0) /\
  GridBuffer_get_level_map 9 0 (GridBuffer_init 16 8) = Raise IndexError.
Proof.
  split.
  - apply (get_level_map_bounds 16 8 8 0 (GridBuffer_init 16 8)), (shape_init 16 8).
  - apply (get_level_map_bounds 16 8 9 0 (GridBuffer_init 16 8)), (shape_init 16 8).
Defined.

Lemma downgrade_threshold (l : Z) :
  0 <= l <= 15 -> downgrade l = if 7 <? l then 1 else 0.
Proof.
  intros Hl. rewrite <- (Z2Nat.id l) by lia.
  assert (Hn : (Z.to_nat l < 16)%nat) by lia.
  revert Hn. generalize (Z.to_nat l). intros n Hn.
  do 16 (destruct n as [| n]; [reflexivity |]). lia.
Qed.

Lemma load_level_in_range (b : GridBuffer) (y x v : Z) :
  In_range b -> load_level y x b = Ok v -> 0 <= v <= 15.
Proof.
  intros Hb. unfold load_level, py_getitem.
  destruct (py_index (length (levels b)) y) as [r |]; [| discriminate].
  destruct (levels b !! r) as [row |] eqn:Hrow; [| discriminate]. cbn [res_bind].
  destruct (py_index (length row) x) as [c |]; [| discriminate].
  destruct (row !! c) as [w |] eqn:Hw; [| discriminate].
  intros [= <-].
  pose proof (Forall_lookup_1 _ _ _ _ Hb Hrow) as Hr. simpl in Hr.
  by apply (Forall_lookup_1 _ _ _ _ Hr Hw).
Qed.

Lemma list_comp_post {A B C : Type} (f : A -> res B) (g g' : B -> C) (l : list A) :
  (forall a v, In a l -> f a = Ok v -> g v = g' v) ->
  list_comp (fun a => let? v := f a in Ok (g v)) l
  = let? vs := list_comp f l in Ok (g' <$> vs).
Proof.
  induction l as [| a l IH]; intros Hg; [reflexivity |].
  cbn [list_comp]. destruct (f a) as [v | e] eqn:Hfa; cbn [res_bind]; [| reflexivity].
  rewrite IH by (intros a' v' Ha'; apply Hg; by right).
  destruct (list_comp f l) as [vs | e]; cbn [res_bind]; [| reflexivity].
  by rewrite fmap_cons, (Hg a v (or_introl eq_refl) Hfa).
Qed.

Lemma list_comp_ext {A B : Type} (f g : A -> res B) (l : list A) :
  (forall a, In a l -> f a = g a) -> list_comp f l = list_comp g l.
Proof.
  induction l as [| a l IH]; intros Hfg; [reflexivity |].
  cbn [list_comp]. rewrite (Hfg a (or_introl eq_refl)).
  by rewrite IH by (intros a' Ha'; apply Hfg; by right).
Qed.

(** X4. For a buffer whose levels lie in [[0,15]], [get_binary_map] is
    [get_level_map] with every level sent through [l >> 3 & 1], the
    reduction a link that is not varibright applies: the two ways the module
    has of making a level binary agree on the documented range, whatever the
    offsets (both raise on the same tiles). *)
Theorem get_binary_map_downgrades (b : GridBuffer) (xo yo : Z) :
  levels_in_range b = true ->
  GridBuffer_get_binary_map xo yo b =
    res_bind (GridBuffer_get_level_map xo yo b)
             (fun m => Ok ((fun row : list Z => downgrade <$> row) <$> m)).
Proof.
  intros Hb. apply levels_in_range_spec in Hb.
  unfold GridBuffer_get_binary_map, GridBuffer_get_level_map.
  rewrite <- (list_comp_post _ (fun row : list Z => downgrade <$> row)) by reflexivity.
  apply list_comp_ext. intros y _.
  apply (list_comp_post (fun col => load_level y col b)
           (fun l => if 7 <? l then 1 else 0) downgrade).
  intros col v _ Hv. symmetry. apply downgrade_threshold.
  by apply (load_level_in_range b y col).
Qed.

Lemma get_binary_map_downgrades_witness :
  GridBuffer_get_binary_map 0 0 (GridBuffer_run example_writes (GridBuffer_init 8 8)) =
    res_bind (GridBuffer_get_level_map 0 0
                (GridBuffer_run example_writes (GridBuffer_init 8 8)))
             (fun m => Ok ((fun row : list Z => downgrade <$> row) <$> m)).
Proof.
  apply (get_binary_map_downgrades
           (GridBuffer_run example_writes (GridBuffer_init 8 8)) 0 0).
  reflexivity.
Defined.

Lemma enumerate_cons {A : Type} (v : A) (l : list A) :
  exists rest, enumerate (v :: l) = (0, v) :: rest.
Proof. unfold enumerate. eexists. reflexivity. Qed.

(** X5. A row that starts past the right edge of a well-formed buffer
    ([x_offset > width]).  The binary [led_row] drops it silently.
    [led_level_row] slices its data with the negative bound
    [width - x_offset], which keeps all but the last [x_offset - width]
    values: when the data is longer than that (and [y] passes the check
    [y < height]) the first store raises [IndexError], otherwise nothing
    happens.  The buffer is unchanged in every case. *)
Theorem led_level_row_past_right_edge (W H : nat) (b : GridBuffer) (xo y : Z)
    (data : list Z) :
  shape W H b -> Z.of_nat W < xo ->
  GridBuffer_led_row xo y data b = finished b /\
  GridBuffer_led_level_row xo y data b =
    if (y <? Z.of_nat H) && (xo - Z.of_nat W <? Z.of_nat (length data))
    then raised b IndexError else finished b.
Proof.
  intros Hb Hxo. pose proof Hb as (Hw & Hh & _). split.
  - unfold GridBuffer_led_row. apply (for_each_skip (fun s => s = b)); [| reflexivity].
    intros [x s] Ha _. apply In_enumerate_inv in Ha as (i & _ & Hi). simpl in Hi.
    unfold GridBuffer_led_set, GridBuffer_led_level_set. rewrite Hw.
    replace (xo + x <? Z.of_nat W) with false by (symmetry; apply Z.ltb_ge; lia).
    reflexivity.
  - unfold GridBuffer_led_level_row. rewrite Hh, Hw.
    destruct (Z.ltb_spec y (Z.of_nat H)) as [Hy | Hy]; [| reflexivity].
    cbn [andb]. unfold py_take.
    replace (0 <=? Z.of_nat W - xo) with false by (symmetry; apply Z.leb_gt; lia).
    destruct (Z.ltb_spec (xo - Z.of_nat W) (Z.of_nat (length data))) as [Hlen | Hlen].
    + destruct (take (Z.to_nat (Z.of_nat (length data) + (Z.of_nat W - xo))) data)
        as [| v kept] eqn:Hkept.
      * apply (f_equal length) in Hkept. rewrite length_take in Hkept.
        simpl in Hkept. lia.
      * destruct (enumerate_cons v kept) as [rest ->]. cbn [for_each].
        rewrite (store_level_raises W H); [reflexivity | exact Hb |].
        destruct (Z.lt_ge_cases y (- Z.of_nat H)); [left; lia | right; lia].
    + replace (Z.to_nat (Z.of_nat (length data) + (Z.of_nat W - xo))) with 0%nat by lia.
      reflexivity.
Qed.

Lemma led_level_row_past_right_edge_witness :
  GridBuffer_led_row 10 0 [1; 1; 1; 1; 1] (GridBuffer_init 8 8)
    = finished (GridBuffer_init 8 8) /\
  GridBuffer_led_level_row 10 0 [15; 15; 15; 15; 15] (GridBuffer_init 8 8)
    = raised (GridBuffer_init 8 8) IndexError /\
  GridBuffer_led_level_row 10 0 [15; 15] (GridBuffer_init 8 8)
    = finished (GridBuffer_init 8 8).
Proof.
  split; [| split].
  - apply (led_level_row_past_right_edge 8 8 (GridBuffer_init 8 8) 10 0 [1; 1; 1; 1; 1]).
    + apply (shape_init 8 8).
    + lia.
  - apply (led_level_row_past_right_edge 8 8 (GridBuffer_init 8 8) 10 0
             [15; 15; 15; 15; 15]).
    + apply (shape_init 8 8).
    + lia.
  - apply (led_level_row_past_right_edge 8 8 (GridBuffer_init 8 8) 10 0 [15; 15]).
    + apply (shape_init 8 8).
    + lia.
Defined.

(** ** The encoders of the link *)

Lemma pack_row_cons8 (a0 a1 a2 a3 a4 a5 a6 a7 : Z) (rest : list Z) :
  pack_row (a0 :: a1 :: a2 :: a3 :: a4 :: a5 :: a6 :: a7 :: rest)
  = pack_row [a0; a1; a2; a3; a4; a5; a6; a7] /\
  exists v, pack_row [a0; a1; a2; a3; a4; a5; a6; a7] = Ok v.
Proof.
  set (row := a0 :: a1 :: a2 :: a3 :: a4 :: a5 :: a6 :: a7 :: rest).
  assert (Hidx : forall k, 0 <= k < 8 -> py_index (length row) k = Some (Z.to_nat k)).
  { intros k Hk. destruct (py_index_wrap (length row) k) as [-> _].
    - unfold row. simpl length. lia.
    - by rewrite wrap_nonneg by lia. }
  split; [| eexists; reflexivity].
  unfold pack_row, py_getitem. rewrite !Hidx by lia. reflexivity.
Qed.

Lemma pack_row_short (row : list Z) :
  (length row < 8)%nat -> pack_row row = Raise IndexError.
Proof.
  intros Hlen. unfold pack_row, py_getitem.
  rewrite (py_index_out (length row) 7) by lia. reflexivity.
Qed.

Lemma pack_row_long (row : list Z) :
  (8 <= length row)%nat ->
  exists v, pack_row row = Ok v /\ forall rest, pack_row (take 8 row ++ rest) = Ok v.
Proof.
  intros Hlen.
  do 8 (destruct row as [| ? row]; [simpl in Hlen; lia |]).
  match goal with
  | |- context [pack_row (?a0 :: ?a1 :: ?a2 :: ?a3 :: ?a4 :: ?a5 :: ?a6 :: ?a7 :: row)] =>
      destruct (pack_row_cons8 a0 a1 a2 a3 a4 a5 a6 a7 row) as [Hrow [v Hv]];
      exists v; split; [by rewrite Hrow |];
      intros rest; cbn [take app];
      destruct (pack_row_cons8 a0 a1 a2 a3 a4 a5 a6 a7 (take 0 row ++ rest)) as [-> _];
      exact Hv
  end.
Qed.

(** X6. [pack_row] reads the items 0 to 7 of its argument and nothing else:
    a row of fewer than eight items raises [IndexError], and for a longer
    row the result is that of its first eight items, whatever follows
    them. *)
Theorem pack_row_reads_first_eight (row : list Z) :
  if decide (length row < 8)%nat
  then pack_row row = Raise IndexError
  else exists v, pack_row row = Ok v /\
         forall rest, pack_row (take 8 row ++ rest) = Ok v.
Proof.
  destruct (decide (length row < 8)%nat) as [Hshort | Hlong].
  - by apply pack_row_short.
  - apply pack_row_long. lia.
Qed.

Lemma list_comp_total {A B : Type} (f : A -> res B) (l : list A) :
  (forall a, In a l -> exists v, f a = Ok v) ->
  exists vs, list_comp f l = Ok vs /\ length vs = length l.
Proof.
  induction l as [| a l IH]; intros Hf; [by exists [] |].
  destruct (Hf a (or_introl eq_refl)) as [v Hv].
  destruct IH as (vs & Hvs & Hlen); [intros a' Ha'; apply Hf; by right |].
  exists (v :: vs). cbn [list_comp]. rewrite Hv, Hvs. simpl. by rewrite Hlen.
Qed.

Lemma group_of_whole_part (data : list Z) (i : nat) :
  (i < length data / 8)%nat ->
  take 8 (drop (8 * i) (take (8 * (length data / 8)) data)) = take 8 (drop (8 * i) data).
Proof.
  intros Hi. rewrite !take_drop_commute, take_take. do 2 f_equal. lia.
Qed.

Lemma pack_groups_whole_part (data : list Z) :
  pack_groups data = pack_groups (take (8 * (length data / 8)) data).
Proof.
  pose proof (Nat.Div0.mul_div_le (length data) 8) as Hle.
  unfold pack_groups. rewrite length_take_le by lia.
  replace (Z.of_nat (8 * (length data / 8)) / 8) with (Z.of_nat (length data) / 8).
  - apply list_comp_ext. intros i Hi. apply In_py_range in Hi.
    rewrite <- (Z2Nat.id i) by lia. rewrite !py_slice_group. f_equal.
    symmetry. apply group_of_whole_part.
    apply Nat2Z.inj_lt. rewrite Nat2Z.inj_div. simpl. lia.
  - rewrite Nat2Z.inj_mul, Nat2Z.inj_div. simpl.
    by rewrite Z.mul_comm, Z.div_mul by lia.
Qed.

Lemma pack_groups_total (data : list Z) :
  exists bytes, pack_groups data = Ok bytes /\ length bytes = (length data / 8)%nat.
Proof.
  unfold pack_groups.
  destruct (list_comp_total (fun i => pack_row (py_slice (i * 8) ((i + 1) * 8) data))
              (py_range (Z.of_nat (length data) / 8))) as (bytes & Hrun & Hlen).
  - intros i Hi. apply In_py_range in Hi.
    rewrite <- (Z2Nat.id i) by lia. rewrite py_slice_group.
    destruct (pack_row_long (take 8 (drop (8 * Z.to_nat i) data))) as (v & Hv & _);
      [| by exists v].
    rewrite length_take, length_drop.
    assert (Z.of_nat (8 * (Z.to_nat i + 1)) <= Z.of_nat (length data)); [| lia].
    rewrite Nat2Z.inj_mul, Nat2Z.inj_add, Z2Nat.id by lia.
    pose proof (Z.mul_div_le (Z.of_nat (length data)) 8). lia.
  - exists bytes. split; [exact Hrun |]. rewrite Hlen. unfold py_range.
    rewrite length_fmap, length_seq, <- (Nat2Z.id (length data / 8)).
    by rewrite Nat2Z.inj_div.
Qed.

Lemma pack_groups_bytes (data : list Z) (n : nat) :
  forallb binary data = true -> length data = (8 * n)%nat ->
  pack_groups data = Ok ((fun i => shift_sum (take 8 (drop (8 * i) data))) <$> seq 0 n).
Proof.
  intros Hbin Hlen. unfold pack_groups, py_range.
  replace (Z.to_nat (Z.of_nat (length data) / 8)) with n
    by (rewrite Hlen, Nat2Z.inj_mul, Z.mul_comm, Z.div_mul; lia).
  apply list_comp_fmap_ok.
  intros i Hi. apply in_seq in Hi. rewrite py_slice_group.
  apply pack_row_binary, (binary_row8_group data n); [exact Hbin | exact Hlen | lia].
Qed.

(** X7. [Grid.led_row] and [Grid.led_col] pack one integer for each
    whole group of eight values, [len(data) // 8] in all, and pass them to
    [send] after the two coordinates: the packing never raises, and the
    [len(data) % 8] values left over leave no trace.  For binary data every
    packed integer is a byte, and extracting bit [i] of each as the value
    [i] of its group gives back the data up to the last whole group; the
    message is then sent if both coordinates are in the 32-bit range, and
    otherwise [send] raises [struct.error] and nothing is sent. *)
Theorem led_row_sends_whole_groups (g : Grid) (a c : Z) (data : list Z) :
  exists bytes,
    pack_groups data = Ok bytes /\
    Grid_led_row a c data g
      = Grid_send (led_path g "/grid/led/row")
                  (OInt a :: OInt c :: (OInt <$> bytes)) g /\
    Grid_led_col a c data g
      = Grid_send (led_path g "/grid/led/col")
                  (OInt a :: OInt c :: (OInt <$> bytes)) g /\
    length bytes = (length data / 8)%nat /\
    (forallb binary data = true ->
       Forall (fun v => 0 <= v <= 255) bytes /\
       concat (unpack_row <$> bytes) = take (8 * (length data / 8)) data /\
       Grid_led_row a c data g
         = (if int32 a && int32 c
            then finished (Grid_sendto (led_path g "/grid/led/row")
                                       (OInt a :: OInt c :: (OInt <$> bytes)) g)
            else raised g StructError) /\
       Grid_led_col a c data g
         = (if int32 a && int32 c
            then finished (Grid_sendto (led_path g "/grid/led/col")
                                       (OInt a :: OInt c :: (OInt <$> bytes)) g)
            else raised g StructError)).
Proof.
  destruct (pack_groups_total data) as (bytes & Hpack & Hlen).
  exists bytes. split; [exact Hpack |].
  unfold Grid_led_row, Grid_led_col. rewrite Hpack.
  split; [reflexivity |]. split; [reflexivity |]. split; [exact Hlen |].
  intros Hbin.
  pose proof (Nat.Div0.mul_div_le (length data) 8) as Hle.
  rewrite pack_groups_whole_part in Hpack.
  set (whole := take (8 * (length data / 8)) data) in *.
  assert (Hwlen : length whole = (8 * (length data / 8))%nat).
  { unfold whole. rewrite length_take_le; lia. }
  assert (Hwbin : forallb binary whole = true).
  { rewrite forallb_forall in *. intros v Hv. apply Hbin.
    apply list_elem_of_In. apply list_elem_of_In in Hv.
    apply elem_of_take in Hv as (j & Hj & _). by eapply list_elem_of_lookup_2. }
  assert (Hrange : Forall (fun v => 0 <= v <= 255) bytes).
  { pose proof (pack_groups_bytes whole _ Hwbin Hwlen) as Hexp.
    assert (Hb : bytes = (fun i => shift_sum (take 8 (drop (8 * i) whole)))
                           <$> seq 0 (length data / 8)) by congruence.
    rewrite Hb. clear Hb Hexp Hpack Hlen.
    apply Forall_fmap, Forall_forall. intros i Hi. apply elem_of_seq in Hi.
    cbv beta. unfold compose.
    apply pack_row_binary, (binary_row8_group whole (length data / 8));
      [exact Hwbin | exact Hwlen | lia]. }
  assert (Hsend : forall path,
            Grid_send path (OInt a :: OInt c :: (OInt <$> bytes)) g
            = (if int32 a && int32 c
               then finished (Grid_sendto path (OInt a :: OInt c :: (OInt <$> bytes)) g)
               else raised g StructError)).
  { intros path. unfold Grid_send. cbn [forallb packs].
    rewrite packs_ints, (bytes_pack bytes Hrange).
    by destruct (int32 a), (int32 c). }
  split; [exact Hrange |]. split; [| split; apply Hsend].
  destruct (pack_groups_roundtrip whole Hwbin) as (bytes' & Hpack' & Hback).
  - apply Nat.eqb_eq. rewrite Hwlen. by rewrite Nat.mul_comm, Nat.Div0.mod_mul.
  - by assert (bytes' = bytes) as -> by congruence.
Qed.

Lemma led_row_sends_whole_groups_witness :
  exists bytes,
    Grid_led_row 0 3 [1; 0; 1; 1; 0; 0; 0; 0; 1; 1; 1] ready_grid
      = finished (Grid_sendto "/pymonome/grid/led/row"
                              (OInt 0 :: OInt 3 :: (OInt <$> bytes)) ready_grid) /\
    concat (unpack_row <$> bytes) = [1; 0; 1; 1; 0; 0; 0; 0].
Proof.
  destruct (led_row_sends_whole_groups ready_grid 0 3 [1; 0; 1; 1; 0; 0; 0; 0; 1; 1; 1])
    as (bytes & _ & _ & _ & _ & Hbin).
  destruct (Hbin eq_refl) as (_ & Hback & Hrow & _).
  exists bytes. split; [exact Hrow | exact Hback].
Defined.

Lemma py_getitem_lookup {A : Type} (l : list A) (k : nat) (v : A) :
  l !! k = Some v -> py_getitem l (Z.of_nat k) = Ok v.
Proof.
  intros Hk. pose proof (lookup_lt_Some _ _ _ Hk) as Hlt.
  destruct (py_getitem_nonneg l (Z.of_nat k)) as (w & -> & Hw); [lia |].
  rewrite Nat2Z.id in Hw. congruence.
Qed.

Lemma pack_rows_block (data : list (list Z)) :
  (8 <= length data)%nat ->
  Forall (fun row => (8 <= length row)%nat) (take 8 data) ->
  list_comp (fun i => let? row := py_getitem (take 8 <$> take 8 data) i in pack_row row)
            (py_range 8)
  = list_comp (fun i => let? row := py_getitem data i in pack_row row) (py_range 8) /\
  exists bytes,
    list_comp (fun i => let? row := py_getitem data i in pack_row row) (py_range 8)
      = Ok bytes /\ length bytes = 8%nat.
Proof.
  intros Hlen Hrows.
  assert (Hrow : forall i, In i (py_range 8) ->
            exists row, py_getitem data i = Ok row /\
                        py_getitem (take 8 <$> take 8 data) i = Ok (take 8 row) /\
                        (8 <= length row)%nat).
  { intros i Hi. apply In_py_range in Hi. rewrite <- (Z2Nat.id i) by lia.
    destruct (lookup_lt_is_Some_2 data (Z.to_nat i)) as [row Hrow]; [lia |].
    assert (Htake : take 8 data !! Z.to_nat i = Some row)
      by (rewrite lookup_take_lt by lia; exact Hrow).
    exists row. split; [by apply py_getitem_lookup |]. split.
    - apply py_getitem_lookup. by rewrite list_lookup_fmap, Htake.
    - by apply (Forall_lookup_1 _ _ _ _ Hrows Htake). }
  split.
  - apply list_comp_ext. intros i Hi.
    destruct (Hrow i Hi) as (row & -> & -> & Hrl). cbn [res_bind].
    destruct (pack_row_long row Hrl) as (v & -> & Hv).
    specialize (Hv []). by rewrite app_nil_r in Hv.
  - destruct (list_comp_total (fun i => let? row := py_getitem data i in pack_row row)
                (py_range 8)) as (bytes & Hrun & Hbytes).
    + intros i Hi. destruct (Hrow i Hi) as (row & -> & _ & Hrl). cbn [res_bind].
      destruct (pack_row_long row Hrl) as (v & -> & _). by exists v.
    + exists bytes. split; [exact Hrun |]. by rewrite Hbytes.
Qed.

(** X8. [Grid.led_map] reads the rows 0 to 7 of its data and the items 0 to
    7 of each.  With at least eight rows, the first eight of at least eight
    items each, it passes eight packed integers to [send] after the two
    offsets, the same as for the top-left 8 by 8 block alone; for binary
    data these are the bytes from which bit [i] of byte [r] gives back item
    [i] of row [r], and the message is sent if both offsets are in the
    32-bit range, while otherwise [send] raises [struct.error].  With fewer
    rows, or a short row among the first eight, [led_map] raises
    [IndexError] and sends nothing. *)
Theorem led_map_needs_8_rows_of_8 (g : Grid) (xo yo : Z) (data : list (list Z)) :
  if decide ((8 <= length data)%nat /\
             Forall (fun row => (8 <= length row)%nat) (take 8 data))
  then exists bytes,
         Grid_led_map xo yo data g
           = Grid_send (led_path g "/grid/led/map")
                       (OInt xo :: OInt yo :: (OInt <$> bytes)) g /\
         length bytes = 8%nat /\
         Grid_led_map xo yo (take 8 <$> take 8 data) g = Grid_led_map xo yo data g /\
         (forallb (forallb binary) data = true ->
            unpack_row <$> bytes = take 8 <$> take 8 data /\
            Grid_led_map xo yo data g
              = (if int32 xo && int32 yo
                 then finished (Grid_sendto (led_path g "/grid/led/map")
                                            (OInt xo :: OInt yo :: (OInt <$> bytes)) g)
                 else raised g StructError))
  else Grid_led_map xo yo data g = raised g IndexError.
Proof.
  destruct (decide _) as [[Hlen Hrows] | Hbad].
  - destruct (pack_rows_block data Hlen Hrows) as (Hblock & bytes & Hrun & Hbytes).
    exists bytes. unfold Grid_led_map. rewrite Hblock, Hrun.
    split; [reflexivity |]. split; [exact Hbytes |]. split; [reflexivity |].
    intros Hbin.
    destruct (pack_map_roundtrip (take 8 <$> take 8 data))
      as (bytes' & Hrun' & Hback & Hrange).
    + apply is_8x8_spec. split.
      * rewrite length_fmap, length_take_le; [reflexivity | exact Hlen].
      * intros r row Hr. rewrite list_lookup_fmap in Hr.
        destruct (take 8 data !! r) as [row0 |] eqn:Hrow0; [| discriminate Hr].
        injection Hr as <-.
        pose proof (Forall_lookup_1 _ _ _ _ Hrows Hrow0) as Hrl. simpl in Hrl.
        by rewrite length_take_le.
    + rewrite forallb_forall in *. intros row Hrow.
      apply list_elem_of_In, list_elem_of_fmap in Hrow as (row0 & -> & Hrow0).
      apply elem_of_take in Hrow0 as (j & Hj & _).
      assert (Hall : forallb binary row0 = true)
        by (apply Hbin, list_elem_of_In; by eapply list_elem_of_lookup_2).
      rewrite forallb_forall in *. intros v Hv. apply Hall.
      apply list_elem_of_In. apply list_elem_of_In in Hv.
      apply elem_of_take in Hv as (k & Hk & _). by eapply list_elem_of_lookup_2.
    + rewrite Hblock, Hrun in Hrun'.
      assert (bytes' = bytes) as -> by congruence.
      split; [exact Hback |].
      unfold Grid_send. cbn [forallb packs].
      rewrite packs_ints, (bytes_pack bytes Hrange).
      by destruct (int32 xo), (int32 yo).
  - unfold Grid_led_map. rewrite (list_comp_raises _ _ IndexError); [reflexivity | |].
    + intros i _. destruct (py_getitem_cases data i) as [[row ->] | ->]; [| by left].
      cbn [res_bind]. destruct (decide (length row < 8)%nat) as [Hshort | Hlong].
      * left. by apply pack_row_short.
      * right. destruct (pack_row_long row) as (v & -> & _); [lia | by exists v].
    + destruct (decide (8 <= length data)%nat) as [Hlen | Hlen].
      * assert (Hex : Exists (fun row => ~ (8 <= length row)%nat) (take 8 data)).
        { apply (not_Forall_Exists (fun row => (8 <= length row)%nat)).
          intros Hall. apply Hbad. by split. }
        apply Exists_exists in Hex as (row & Hin & Hshort).
        apply elem_of_take in Hin as (j & Hj & Hj8).
        exists (Z.of_nat j). split; [apply In_py_range; lia |].
        rewrite (py_getitem_lookup data j row Hj). cbn [res_bind].
        apply pack_row_short. lia.
      * exists 7. split; [apply In_py_range; lia |].
        unfold py_getitem. rewrite py_index_out by lia. reflexivity.
Qed.

Lemma led_map_needs_8_rows_of_8_witness :
  (exists bytes,
     Grid_led_map 0 0 (fill8 1) ready_grid
       = finished (Grid_sendto "/pymonome/grid/led/map"
                               (OInt 0 :: OInt 0 :: (OInt <$> bytes)) ready_grid) /\
     unpack_row <$> bytes = fill8 1) /\
  Grid_led_map 0 0 [[1; 1; 1]] ready_grid = raised ready_grid IndexError.
Proof.
  split.
  - pose proof (led_map_needs_8_rows_of_8 ready_grid 0 0 (fill8 1)) as Hmap.
    destruct (decide _) as [_ | Hbad] in Hmap.
    + destruct Hmap as (bytes & _ & _ & _ & Hbin).
      destruct (Hbin eq_refl) as [Hback Hrun].
      exists bytes. split; [exact Hrun | exact Hback].
    + exfalso. apply Hbad. split; [simpl; lia |]. repeat constructor; simpl; lia.
  - pose proof (led_map_needs_8_rows_of_8 ready_grid 0 0 [[1; 1; 1]]) as Hmap.
    destruct (decide _) as [[Hlen _] | _] in Hmap; [simpl in Hlen; lia | exact Hmap].
Defined.

(** ** [Splitter] and [Section]: keys and LEDs *)

Lemma Splitter_grid_key_from_calls (n : nat) (sections : list GridSection)
    (x y s : Z) (i : nat) (lx ly s' : Z) :
  In (i, (lx, ly, s')) (Splitter_grid_key_from n sections x y s) <->
  exists k part, i = (n + k)%nat /\ sections !! k = Some part /\
    section_contains part x y = true /\
    lx = x - part_offset_x part /\ ly = y - part_offset_y part /\ s' = s.
Proof.
  revert n. induction sections as [| first rest IH]; intros n.
  - simpl. split; [intros [] | intros (k & part & _ & Hk & _); discriminate Hk].
  - cbn [Splitter_grid_key_from]. rewrite in_app_iff, IH. split.
    + intros [Hhere | (k & part & -> & Hk & Hrest)].
      * destruct (section_contains first x y) eqn:Hin; [| destruct Hhere].
        destruct Hhere as [[= <- <- <- <-] | []].
        exists 0%nat, first. rewrite Nat.add_0_r. by repeat split.
      * exists (S k), part. split; [lia |]. by split.
    + intros (k & part & -> & Hk & Hin & -> & -> & ->).
      destruct k as [| k]; simpl in Hk.
      * left. injection Hk as ->. rewrite Hin, Nat.add_0_r. by left.
      * right. exists k, part. split; [lia |]. by repeat split.
Qed.

Lemma Splitter_grid_key_from_order (n : nat) (sections : list GridSection) (x y s : Z) :
  (fst <$> Splitter_grid_key_from n sections x y s) `sublist_of` seq n (length sections).
Proof.
  revert n. induction sections as [| first rest IH]; intros n; [reflexivity |].
  cbn [Splitter_grid_key_from length seq].
  destruct (section_contains first x y); cbn [app fmap list_fmap].
  - apply sublist_skip, IH.
  - apply sublist_cons, IH.
Qed.

(** X9. [Splitter.grid_key] with sections that may overlap: the key goes to
    every section whose rectangle contains the coordinate, to each once and
    in the order of [self.sections] (the loop does not stop at the first
    one), with the state unchanged and in coordinates relative to the
    section's offset, which lie within the section's size. *)
Theorem splitter_calls_every_containing_section (sections : list GridSection)
    (x y s : Z) :
  (forall i lx ly s',
     In (i, (lx, ly, s')) (Splitter_grid_key sections x y s) <->
     exists part, sections !! i = Some part /\ section_contains part x y = true /\
       lx = x - part_offset_x part /\ ly = y - part_offset_y part /\ s' = s) /\
  (forall i lx ly s' part,
     In (i, (lx, ly, s')) (Splitter_grid_key sections x y s) ->
     sections !! i = Some part ->
     0 <= lx < part_width part /\ 0 <= ly < part_height part) /\
  (fst <$> Splitter_grid_key sections x y s) `sublist_of` seq 0 (length sections).
Proof.
  assert (Hcalls : forall i lx ly s',
     In (i, (lx, ly, s')) (Splitter_grid_key sections x y s) <->
     exists part, sections !! i = Some part /\ section_contains part x y = true /\
       lx = x - part_offset_x part /\ ly = y - part_offset_y part /\ s' = s).
  { intros i lx ly s'. unfold Splitter_grid_key.
    rewrite Splitter_grid_key_from_calls. split.
    - intros (k & part & -> & Hrest). by exists part.
    - intros (part & Hrest). by exists i, part. }
  split; [exact Hcalls |]. split; [| apply Splitter_grid_key_from_order].
  intros i lx ly s' part Hin Hpart.
  apply Hcalls in Hin as (part' & Hpart' & Hcont & -> & -> & _).
  assert (part' = part) as -> by congruence.
  unfold section_contains in Hcont.
  rewrite !andb_true_iff, !Z.leb_le, !Z.ltb_lt in Hcont. lia.
Qed.

(** X10. Keys and LEDs of a section use the same coordinates.  For a
    section in [self.sections] and a local coordinate [(dx, dy)] inside its
    size, [led_set] and [led_level_set] at [(dx, dy)] are forwarded at the
    physical cell [(X, Y)], and a key pressed at [(X, Y)] reaches this
    section as the local key [(dx, dy)]. *)
Theorem section_led_under_its_key (sections : list GridSection) (i : nat)
    (part : GridSection) (dx dy s v : Z) :
  sections !! i = Some part ->
  0 <= dx < part_width part -> 0 <= dy < part_height part ->
  exists X Y,
    Section_led_set part dx dy v = Some (Op_led_set X Y v) /\
    Section_led_level_set part dx dy v = Some (Op_led_level_set X Y v) /\
    In (i, (dx, dy, s)) (Splitter_grid_key sections X Y s).
Proof.
  intros Hpart Hdx Hdy.
  exists (part_offset_x part + dx), (part_offset_y part + dy).
  unfold Section_led_set, Section_led_level_set.
  replace (dx <? part_width part) with true by (symmetry; apply Z.ltb_lt; lia).
  replace (dy <? part_height part) with true by (symmetry; apply Z.ltb_lt; lia).
  cbn [andb]. rewrite (Z.add_comm dx), (Z.add_comm dy).
  split; [reflexivity |]. split; [reflexivity |].
  unfold Splitter_grid_key. apply Splitter_grid_key_from_calls.
  exists i, part. split; [reflexivity |]. split; [exact Hpart |].
  split; [by apply section_contains_offset |]. repeat split; lia.
Qed.

Lemma section_led_under_its_key_witness :
  exists X Y,
    Section_led_set (mkSection 4 8 4 0) 1 2 1 = Some (Op_led_set X Y 1) /\
    Section_led_level_set (mkSection 4 8 4 0) 1 2 1 = Some (Op_led_level_set X Y 1) /\
    In (1%nat, (1, 2, 1))
       (Splitter_grid_key [mkSection 4 8 0 0; mkSection 4 8 4 0] X Y 1).
Proof.
  apply (section_led_under_its_key [mkSection 4 8 0 0; mkSection 4 8 4 0] 1
           (mkSection 4 8 4 0) 1 2 1 1).
  - reflexivity.
  - simpl. lia.
  - simpl. lia.
Defined.

Lemma splitter_calls_every_containing_section_witness :
  In (0%nat, (2, 1, 1)) (Splitter_grid_key [mkSection 4 4 0 0; mkSection 4 4 2 0] 2 1 1) /\
  In (1%nat, (0, 1, 1)) (Splitter_grid_key [mkSection 4 4 0 0; mkSection 4 4 2 0] 2 1 1).
Proof.
  destruct (splitter_calls_every_containing_section
              [mkSection 4 4 0 0; mkSection 4 4 2 0] 2 1 1) as (Hcalls & _ & _).
  split; apply Hcalls; eexists; (split; [reflexivity |]); by repeat split.
Defined.

(** ** Page managers: the pressed-set and the keys the pages hold *)

Lemma last_state_snoc (p q : nat) (xy : Z * Z) (x y s : Z)
    (events : list (nat * (Z * Z * Z))) :
  last_state p xy (events ++ [(q, (x, y, s))])
  = if bool_decide (q = p /\ (x, y) = xy) then Some s else last_state p xy events.
Proof. unfold last_state. by rewrite foldl_app. Qed.

Lemma last_state_releases (p cur : nat) (xy : Z * Z) (l : list (Z * Z))
    (events : list (nat * (Z * Z * Z))) :
  last_state p xy (events ++ ((fun xy' => (cur, (fst xy', snd xy', 0))) <$> l))
  = if bool_decide (p = cur /\ xy ∈ l) then Some 0 else last_state p xy events.
Proof.
  revert events. induction l as [| [x y] l IH]; intros events.
  - rewrite app_nil_r, bool_decide_eq_false_2; [reflexivity |].
    intros [_ Hin]. by apply elem_of_nil in Hin.
  - rewrite fmap_cons, cons_middle, app_assoc, IH, last_state_snoc. cbn [fst snd].
    destruct (decide (p = cur /\ xy ∈ l)) as [Hin | Hout].
    + rewrite !bool_decide_eq_true_2; [reflexivity | | exact Hin].
      destruct Hin as [-> Hin]. split; [reflexivity | by right].
    + rewrite (bool_decide_eq_false_2 _ Hout).
      destruct (decide (cur = p /\ (x, y) = xy)) as [[-> <-] | Hne].
      * rewrite !bool_decide_eq_true_2; [reflexivity | | by split].
        split; [reflexivity | by left].
      * rewrite (bool_decide_eq_false_2 _ Hne), bool_decide_eq_false_2; [reflexivity |].
        intros [-> Hin]. apply elem_of_cons in Hin as [-> | Hin].
        -- by apply Hne.
        -- by apply Hout.
Qed.

Lemma presses_tracked_frame (m m' : BasePageManager) :
  key_events m' = key_events m -> presses m' = presses m ->
  current_page m' = current_page m ->
  presses_tracked m -> presses_tracked m'.
Proof.
  intros Hk Hp Hc Hm p xy. rewrite Hk, Hp, Hc. apply Hm.
Qed.

Lemma presses_tracked_released (m m' : BasePageManager) (cur : nat) :
  current_page m = Some cur ->
  key_events m' = key_events m
                  ++ ((fun xy => (cur, (fst xy, snd xy, 0))) <$> elements (presses m)) ->
  presses m' = ∅ ->
  presses_tracked m -> presses_tracked m'.
Proof.
  intros Hcur Hk Hp Hm p xy. rewrite Hk, Hp, last_state_releases. split.
  - destruct (decide (p = cur /\ xy ∈ elements (presses m))) as [Hin | Hout].
    + by rewrite bool_decide_eq_true_2.
    + rewrite (bool_decide_eq_false_2 _ Hout). intros Hheld.
      apply Hm in Hheld as [Hp' Hin]. exfalso. apply Hout.
      split; [congruence | by apply elem_of_elements].
  - intros [_ Hin]. by apply elem_of_empty in Hin.
Qed.

Lemma presses_tracked_idle (m m' : BasePageManager) :
  current_page m = None ->
  key_events m' = key_events m -> presses m' = ∅ ->
  presses_tracked m -> presses_tracked m'.
Proof.
  intros Hcur Hk Hp Hm p xy. rewrite Hk, Hp. split.
  - intros Hheld. apply Hm in Hheld as [Hp' _]. congruence.
  - intros [_ Hin]. by apply elem_of_empty in Hin.
Qed.

Lemma elem_of_press_update (P : gset (Z * Z)) (x y s : Z) (xy : Z * Z) :
  xy ∈ (if s =? 1 then {[ (x, y) ]} ∪ P else P ∖ {[ (x, y) ]}) <->
  (if decide ((x, y) = xy) then s = 1 else xy ∈ P).
Proof.
  destruct (Z.eqb_spec s 1) as [-> | Hs];
    [rewrite elem_of_union | rewrite elem_of_difference];
    rewrite elem_of_singleton; destruct (decide ((x, y) = xy)) as [<- | Hne].
  - split; [reflexivity | by left].
  - split; [intros [Heq | Hin]; [congruence | exact Hin] | by right].
  - split; [intros [_ Hn]; by destruct Hn | contradiction].
  - split; [by intros [Hin _] | intros Hin; split; [exact Hin | congruence]].
Qed.

Lemma grid_key_tracked (x y s : Z) (m : BasePageManager) :
  presses_tracked m -> presses_tracked (fst (BasePageManager_grid_key x y s m)).
Proof.
  intros Hm. unfold BasePageManager_grid_key, deliver_key.
  cbn [set_presses current_page].
  destruct (current_page m) as [cur |] eqn:Hcur; cbn [fst finished raised].
  - intros p xy. cbn [log_key key_events presses current_page set_presses].
    rewrite last_state_snoc, elem_of_press_update.
    destruct (decide ((x, y) = xy)) as [<- | Hxy].
    + destruct (decide (cur = p)) as [-> | Hp].
      * rewrite bool_decide_eq_true_2 by done.
        split; [intros [= ->]; by split | intros [_ ->]; reflexivity].
      * rewrite bool_decide_eq_false_2 by (intros [? _]; contradiction).
        rewrite (Hm p (x, y)), Hcur.
        split; intros [Hp' _]; congruence.
    + rewrite bool_decide_eq_false_2 by (intros [_ ?]; contradiction).
      by rewrite (Hm p xy), Hcur.
  - intros p xy. cbn [key_events presses current_page set_presses].
    rewrite (Hm p xy), Hcur. split; intros [Hp _]; discriminate Hp.
Qed.

Lemma switch_page_tracked (page_num : Z) (m : BasePageManager) :
  presses_tracked m -> presses_tracked (fst (BasePageManager_switch_page page_num m)).
Proof.
  intros Hm. unfold BasePageManager_switch_page.
  assert (Htail : forall m2,
            let r := fst (if page_num =? -1
                          then on_grid (Grid_led_all 0) (set_current_page None m2)
                          else match py_getitem (pages m2) page_num with
                               | Raise e => raised m2 e
                               | Ok target =>
                                   Page_render target (set_current_page (Some target) m2)
                               end) in
            key_events r = key_events m2 /\ presses r = presses m2 /\
            (current_page r = current_page m2 \/ page_num = -1 \/
             exists target, py_getitem (pages m2) page_num = Ok target /\
                            current_page r = Some target)).
  { intros m2. destruct (Z.eqb_spec page_num (-1)) as [-> | Hne].
    - cbn. split; [reflexivity |]. split; [reflexivity |]. right. by left.
    - destruct (py_getitem (pages m2) page_num) as [target | e] eqn:Htarget.
      + destruct (Page_render_frame target (set_current_page (Some target) m2))
          as (_ & Hp & Hc & _ & Hk).
        cbv zeta. rewrite Hp, Hc, Hk. split; [reflexivity |]. split; [reflexivity |].
        right. right. by exists target.
      + cbn. split; [reflexivity |]. split; [reflexivity |]. by left. }
  destruct (if page_num =? -1 then Ok true
            else let? target := py_getitem (pages m) page_num in
                 Ok (negb (bool_decide (current_page m = Some target))))
    as [leaving | e] eqn:Hcond; [| exact Hm].
  destruct leaving.
  - destruct (current_page m) as [cur |] eqn:Hcur.
    + rewrite (deliver_keys cur) by exact Hcur. cbn [then_ finished].
      match goal with |- presses_tracked (fst ?r) =>
        match r with context [set_presses ∅ ?m1] =>
          destruct (Htail (set_presses ∅ m1)) as (Hk & Hp & _)
        end
      end.
      apply (presses_tracked_released m _ cur Hcur); [exact Hk | exact Hp | exact Hm].
    + destruct (elements (presses m)) as [| xy rest] eqn:Hel.
      * cbn [for_each then_ finished].
        destruct (Htail (set_presses ∅ m)) as (Hk & Hp & _).
        apply (presses_tracked_idle m); [exact Hcur | exact Hk | exact Hp | exact Hm].
      * cbn [for_each]. unfold deliver_key at 1. rewrite Hcur. exact Hm.
  - cbn [then_ finished].
    destruct (Z.eqb_spec page_num (-1)) as [-> | Hne]; [discriminate Hcond |].
    destruct (py_getitem (pages m) page_num) as [target | e] eqn:Htarget;
      [| discriminate Hcond].
    cbn [res_bind] in Hcond. injection Hcond as Hsame.
    apply negb_false_iff, bool_decide_eq_true in Hsame.
    destruct (Page_render_frame target (set_current_page (Some target) m))
      as (_ & Hp & Hc & _ & Hk).
    apply (presses_tracked_frame m); [exact Hk | exact Hp | | exact Hm].
    by rewrite Hc.
Qed.

Lemma Page_write_keys (p : nat) (op : LedOp) (m : BasePageManager) :
  key_events (fst (Page_write p op m)) = key_events m /\
  presses (fst (Page_write p op m)) = presses m /\
  current_page (fst (Page_write p op m)) = current_page m.
Proof.
  unfold Page_write.
  destruct (heap m !! p) as [pg |]; [| by repeat split].
  destruct (page_buffer pg) as [b |]; [| by repeat split].
  destruct (snd (GridBuffer_apply op b)); [by repeat split |].
  destruct (Page_is_active p _); by repeat split.
Qed.

Lemma Page_led_intensity_keys (p : nat) (i : Z) (m : BasePageManager) :
  key_events (fst (Page_led_intensity p i m)) = key_events m /\
  presses (fst (Page_led_intensity p i m)) = presses m /\
  current_page (fst (Page_led_intensity p i m)) = current_page m.
Proof.
  unfold Page_led_intensity.
  destruct (heap m !! p) as [pg |]; [| by repeat split].
  destruct (Page_is_active p _); by repeat split.
Qed.

Lemma BasePageManager_call_tracked (c : ManagerCall) (m : BasePageManager) :
  presses_tracked m -> presses_tracked (fst (BasePageManager_call c m)).
Proof.
  intros Hm. destruct c as [x y s | page_num | p op | p i | p]; cbn [BasePageManager_call].
  - by apply grid_key_tracked.
  - by apply switch_page_tracked.
  - destruct (Page_write_keys p op m) as (Hk & Hp & Hc).
    by apply (presses_tracked_frame m).
  - destruct (Page_led_intensity_keys p i m) as (Hk & Hp & Hc).
    by apply (presses_tracked_frame m).
  - destruct (Page_render_frame p m) as (_ & Hp & Hc & _ & Hk).
    by apply (presses_tracked_frame m).
Qed.

Lemma presses_tracked_fresh (m : BasePageManager) :
  key_events m = [] -> presses m = ∅ -> presses_tracked m.
Proof.
  intros Hk Hp p xy. rewrite Hk, Hp. split; [discriminate |].
  intros [_ Hin]. by apply elem_of_empty in Hin.
Qed.

(** X11. No page is left with a stuck key.  Start from a manager that has
    passed on no key yet and has an empty pressed-set, and let the link and
    the application make any calls in any order: [grid_key], [switch_page]
    (to a page, to none, to an index out of range), LED writes, intensity
    and [render] on its pages, some of which may raise.  At every point the
    keys for which a page was last told a press (state 1) are exactly the
    pressed-set if the page is the current one, and no key at all if it is
    not. *)
Theorem pressed_set_tracks_pages (cs : list ManagerCall) (m : BasePageManager) :
  key_events m = [] -> presses m = ∅ ->
  forall p xy,
    last_state p xy (key_events (BasePageManager_calls cs m)) = Some 1 <->
    current_page (BasePageManager_calls cs m) = Some p /\
    xy ∈ presses (BasePageManager_calls cs m).
Proof.
  intros Hk Hp.
  assert (Hrun : forall m0, presses_tracked m0 ->
            presses_tracked (BasePageManager_calls cs m0)).
  { induction cs as [| c cs IH]; intros m0 Hm0; [exact Hm0 |].
    apply IH. by apply BasePageManager_call_tracked. }
  apply Hrun. by apply presses_tracked_fresh.
Qed.

Lemma pressed_set_tracks_pages_witness :
  last_state 1 (0, 0)
    (key_events (BasePageManager_calls
                   [Call_grid_key 1 2 1; Call_grid_key 5 5 1; Call_switch_page 1;
                    Call_grid_key 0 0 1; Call_grid_key 1 2 0]
                   (set_presses ∅ three_page_manager))) = Some 1 <->
  (0, 0) ∈ presses (BasePageManager_calls
                      [Call_grid_key 1 2 1; Call_grid_key 5 5 1; Call_switch_page 1;
                       Call_grid_key 0 0 1; Call_grid_key 1 2 0]
                      (set_presses ∅ three_page_manager)).
Proof.
  pose proof (pressed_set_tracks_pages
                [Call_grid_key 1 2 1; Call_grid_key 5 5 1; Call_switch_page 1;
                 Call_grid_key 0 0 1; Call_grid_key 1 2 0]
                (set_presses ∅ three_page_manager) eq_refl eq_refl 1%nat (0, 0))
    as Htracked.
  rewrite Htracked. split; [by intros [_ Hin] | by split].
Defined.

Lemma SeqPageManager_grid_key_base (x y s : Z) (m : SeqPageManager) :
  base (fst (SeqPageManager_grid_key x y s m)) = base m \/
  base (fst (SeqPageManager_grid_key x y s m))
    = fst (BasePageManager_grid_key x y s (base m)) \/
  exists page_num,
    base (fst (SeqPageManager_grid_key x y s m))
      = fst (BasePageManager_switch_page page_num (base m)).
Proof.
  unfold SeqPageManager_grid_key.
  destruct (bool_decide (presses (base m) = ∅)); [| right; by left].
  destruct (switch_x m) as [sx |]; [| by left].
  destruct (x =? sx); [| right; by left].
  destruct (switch_y m) as [sy |]; [| by left].
  destruct ((y =? sy) && (s =? 1)); [| right; by left].
  destruct (py_list_index _ _) as [i | e]; [| by left].
  right. right. eexists. reflexivity.
Qed.

Lemma SeqPageManager_grid_key_tracked (x y s : Z) (m : SeqPageManager) :
  presses_tracked (base m) ->
  presses_tracked (base (fst (SeqPageManager_grid_key x y s m))).
Proof.
  intros Hm.
  destruct (SeqPageManager_grid_key_base x y s m) as [-> | [-> | [page_num ->]]].
  - exact Hm.
  - by apply grid_key_tracked.
  - by apply switch_page_tracked.
Qed.

(** X12. The same for a [SeqPageManager] driven by the device: whatever
    key events arrive, in whatever order, and however often the switch
    button changes the page, the keys a page was last told are pressed are
    exactly the pressed-set for the current page and none for the others. *)
Theorem seq_manager_tracks_pages (keys : list (Z * Z * Z)) (m : SeqPageManager) :
  key_events (base m) = [] -> presses (base m) = ∅ ->
  forall p xy,
    last_state p xy (key_events (base (SeqPageManager_keys keys m))) = Some 1 <->
    current_page (base (SeqPageManager_keys keys m)) = Some p /\
    xy ∈ presses (base (SeqPageManager_keys keys m)).
Proof.
  intros Hk Hp.
  assert (Hrun : forall m0, presses_tracked (base m0) ->
            presses_tracked (base (SeqPageManager_keys keys m0))).
  { induction keys as [| [[x y] s] keys IH]; intros m0 Hm0; [exact Hm0 |].
    apply IH. by apply SeqPageManager_grid_key_tracked. }
  apply Hrun. by apply presses_tracked_fresh.
Qed.

Lemma seq_manager_tracks_pages_witness :
  last_state 1 (4, 4)
    (key_events (base (SeqPageManager_keys
                         [(2, 3, 1); (2, 3, 0); (7, 7, 1); (4, 4, 1)] seq_manager)))
    = Some 1 <->
  (4, 4) ∈ presses (base (SeqPageManager_keys
                            [(2, 3, 1); (2, 3, 0); (7, 7, 1); (4, 4, 1)] seq_manager)).
Proof.
  pose proof (seq_manager_tracks_pages
                [(2, 3, 1); (2, 3, 0); (7, 7, 1); (4, 4, 1)]
                seq_manager eq_refl eq_refl 1%nat (4, 4)) as Htracked.
  rewrite Htracked. split; [by intros [_ Hin] | intros Hin; split; [by vm_compute | exact Hin]].
Defined.

(** ** [BasePageManager]: a manager without a current page *)

(** X13. After [switch_page(-1)] a [BasePageManager] has no current page.
    A key press then raises [AttributeError] (there is no page to call),
    but only after the coordinate has been added to the pressed-set; and as
    long as the pressed-set is not empty every [switch_page] raises, on the
    release it tries to send, and changes nothing: no page can be shown
    until the key has been released. *)
Theorem manager_without_page_is_stuck (m : BasePageManager) (x y : Z) :
  current_page m = None ->
  BasePageManager_grid_key x y 1 m
    = raised (set_presses ({[ (x, y) ]} ∪ presses m) m) AttributeError /\
  forall m1 page_num,
    current_page m1 = None -> presses m1 <> ∅ ->
    exists e, BasePageManager_switch_page page_num m1 = raised m1 e.
Proof.
  intros Hcur. split.
  - unfold BasePageManager_grid_key, deliver_key. cbn. by rewrite Hcur.
  - intros m1 page_num Hcur1 Hpressed. unfold BasePageManager_switch_page.
    assert (Hloop : for_each (fun xy => deliver_key (fst xy) (snd xy) 0)
                             (elements (presses m1)) m1 = raised m1 AttributeError).
    { destruct (elements (presses m1)) as [| xy rest] eqn:Hel.
      - apply elements_empty_inv in Hel. by apply leibniz_equiv in Hel.
      - cbn [for_each]. unfold deliver_key at 1. by rewrite Hcur1. }
    destruct (Z.eqb_spec page_num (-1)) as [-> | Hne].
    + rewrite Hloop. by exists AttributeError.
    + destruct (py_getitem (pages m1) page_num) as [target | e]; [| by exists e].
      cbn [res_bind]. rewrite Hcur1, bool_decide_eq_false_2 by discriminate.
      cbn [negb]. rewrite Hloop. by exists AttributeError.
Qed.

Lemma manager_without_page_is_stuck_witness :
  snd (BasePageManager_grid_key 4 4 1
         (fst (BasePageManager_switch_page (-1) three_page_manager)))
    = Some AttributeError /\
  exists e,
    BasePageManager_switch_page 0
      (fst (BasePageManager_grid_key 4 4 1
              (fst (BasePageManager_switch_page (-1) three_page_manager))))
    = raised (fst (BasePageManager_grid_key 4 4 1
                     (fst (BasePageManager_switch_page (-1) three_page_manager))))
             e.
Proof.
  destruct (manager_without_page_is_stuck
              (fst (BasePageManager_switch_page (-1) three_page_manager)) 4 4 eq_refl)
    as [Hkey Hstuck].
  split.
  - by rewrite Hkey.
  - apply Hstuck; [reflexivity |].
    rewrite Hkey. cbn [fst raised presses set_presses].
    intros Hempty.
    assert (Hin : (4, 4) ∈ ({[ (4, 4) ]} ∪
                  presses (fst (BasePageManager_switch_page (-1) three_page_manager))))
      by (apply elem_of_union_l, elem_of_singleton; reflexivity).
    rewrite Hempty in Hin. by apply elem_of_empty in Hin.
Defined.

(** ** [SeqPageManager]: cycling through the pages *)

Lemma switch_page_pages (page_num : Z) (m : BasePageManager) :
  pages (fst (BasePageManager_switch_page page_num m)) = pages m.
Proof.
  unfold BasePageManager_switch_page.
  destruct (if page_num =? -1 then _ else _) as [leaving | e]; [| reflexivity].
  rewrite (then_fst_frame pages).
  - destruct leaving; [| reflexivity].
    rewrite (then_fst_frame pages) by reflexivity.
    apply (for_each_inv (fun s => pages s = pages m)); [| reflexivity].
    intros xy s _ Hs. unfold deliver_key.
    destruct (current_page s); exact Hs.
  - intros s. destruct (page_num =? -1); [reflexivity |].
    destruct (py_getitem (pages s) page_num) as [target | e]; [| reflexivity].
    by destruct (Page_render_frame target (set_current_page (Some target) s)) as (-> & _).
Qed.

Lemma SeqPageManager_grid_key_shape (x y s : Z) (m : SeqPageManager) :
  (exists e, SeqPageManager_grid_key x y s m = raised m e) \/
  (exists f, SeqPageManager_grid_key x y s m = on_base f m).
Proof.
  unfold SeqPageManager_grid_key.
  destruct (bool_decide (presses (base m) = ∅)); [| right; eexists; reflexivity].
  destruct (switch_x m) as [sx |]; [| left; eexists; reflexivity].
  destruct (x =? sx); [| right; eexists; reflexivity].
  destruct (switch_y m) as [sy |]; [| left; eexists; reflexivity].
  destruct ((y =? sy) && (s =? 1)); [| right; eexists; reflexivity].
  destruct (py_list_index _ _) as [i | e]; [right | left]; eexists; reflexivity.
Qed.

Lemma SeqPageManager_grid_key_frame (x y s : Z) (m : SeqPageManager) :
  pages (base (fst (SeqPageManager_grid_key x y s m))) = pages (base m) /\
  switch_x (fst (SeqPageManager_grid_key x y s m)) = switch_x m /\
  switch_y (fst (SeqPageManager_grid_key x y s m)) = switch_y m /\
  switch_button (fst (SeqPageManager_grid_key x y s m)) = switch_button m.
Proof.
  split.
  - destruct (SeqPageManager_grid_key_base x y s m) as [-> | [-> | [page_num ->]]].
    + reflexivity.
    + unfold BasePageManager_grid_key, deliver_key. cbn.
      by destruct (current_page m.(base)).
    + apply switch_page_pages.
  - destruct (SeqPageManager_grid_key_shape x y s m) as [[e ->] | [f ->]];
      by repeat split.
Qed.

Lemma py_list_index_NoDup (l : list nat) (i : nat) (v : nat) :
  NoDup l -> l !! i = Some v -> py_list_index (Some v) l = Ok (Z.of_nat i).
Proof.
  revert i. induction l as [| w l IH]; intros i Hnd Hi; [discriminate Hi |].
  apply NoDup_cons in Hnd as [Hw Hnd]. cbn [py_list_index].
  destruct i as [| i]; simpl in Hi.
  - injection Hi as ->. by rewrite bool_decide_eq_true_2.
  - rewrite bool_decide_eq_false_2.
    + rewrite (IH i Hnd Hi). cbn [res_bind]. f_equal. lia.
    + intros [= ->]. apply Hw. by eapply list_elem_of_lookup_2.
Qed.

Lemma seq_tap_advances (m : SeqPageManager) (X Y : Z) (i : nat) (cur : nat) :
  NoDup (pages (base m)) ->
  switch_x m = Some X -> switch_y m = Some Y ->
  presses (base m) = ∅ ->
  pages (base m) !! i = Some cur -> current_page (base m) = Some cur ->
  let m' := SeqPageManager_keys [(X, Y, 1); (X, Y, 0)] m in
  pages (base m') = pages (base m) /\
  switch_x m' = Some X /\ switch_y m' = Some Y /\
  presses (base m') = ∅ /\
  exists target,
    pages (base m) !! ((i + 1) mod length (pages (base m)))%nat = Some target /\
    current_page (base m') = Some target.
Proof.
  intros Hnd HX HY Hempty Hi Hcur. cbn [SeqPageManager_keys foldl].
  set (m1 := fst (SeqPageManager_grid_key X Y 1 m)).
  pose proof (lookup_lt_Some _ _ _ Hi) as Hilt.
  destruct (seq_press_switch_button m cur (Z.of_nat i) X Y Hempty Hcur
              (py_list_index_NoDup _ _ _ Hnd Hi) HX HY)
    as (target & Htarget & Hcur1 & Hempty1 & _).
  fold m1 in Hcur1, Hempty1.
  destruct (SeqPageManager_grid_key_frame X Y 1 m) as (Hpages1 & HX1 & HY1 & _).
  fold m1 in Hpages1, HX1, HY1. rewrite HX in HX1. rewrite HY in HY1.
  rewrite (seq_release_switch_button m1 target X Y Hempty1 Hcur1 HX1 HY1).
  cbn [fst finished base switch_x switch_y log_key set_presses pages presses
       current_page].
  rewrite Hpages1, HX1, HY1, Hcur1. repeat split.
  - apply discard_from_empty.
  - exists target. split; [| reflexivity].
    rewrite <- Htarget. f_equal.
    rewrite <- (Nat2Z.id ((i + 1) mod length (pages (base m)))).
    f_equal. rewrite Nat2Z.inj_mod. f_equal. lia.
Qed.

(** X14. Tapping the switch button (press, then release) [k] times on a
    [SeqPageManager] whose pages are distinct objects, with no other key
    held, moves the current page [k] places forward in [self.pages], round
    the end of the list; after as many taps as there are pages the page
    that was current is current again. *)
Theorem seq_taps_cycle (k : nat) (m : SeqPageManager) (X Y : Z) (i : nat) (cur : nat) :
  NoDup (pages (base m)) ->
  switch_x m = Some X -> switch_y m = Some Y ->
  presses (base m) = ∅ ->
  pages (base m) !! i = Some cur -> current_page (base m) = Some cur ->
  current_page (base (SeqPageManager_keys
                        (concat (replicate k [(X, Y, 1); (X, Y, 0)])) m))
    = pages (base m) !! ((i + k) mod length (pages (base m)))%nat /\
  (k = length (pages (base m)) ->
   current_page (base (SeqPageManager_keys
                         (concat (replicate k [(X, Y, 1); (X, Y, 0)])) m))
     = Some cur).
Proof.
  intros Hnd HX HY Hempty Hi Hcur.
  pose proof (lookup_lt_Some _ _ _ Hi) as Hilt.
  assert (Hgen : forall k m i cur,
            NoDup (pages (base m)) ->
            switch_x m = Some X -> switch_y m = Some Y ->
            presses (base m) = ∅ ->
            pages (base m) !! i = Some cur -> current_page (base m) = Some cur ->
            current_page (base (SeqPageManager_keys
                                  (concat (replicate k [(X, Y, 1); (X, Y, 0)])) m))
              = pages (base m) !! ((i + k) mod length (pages (base m)))%nat).
  { clear. induction k as [| k IH]; intros m i cur Hnd HX HY Hempty Hi Hcur.
    - pose proof (lookup_lt_Some _ _ _ Hi) as Hilt.
      cbn [replicate concat SeqPageManager_keys foldl].
      by rewrite Nat.add_0_r, Nat.mod_small, Hi, Hcur.
    - pose proof (lookup_lt_Some _ _ _ Hi) as Hilt.
      destruct (seq_tap_advances m X Y i cur Hnd HX HY Hempty Hi Hcur)
        as (Hpages & HX' & HY' & Hempty' & target & Htarget & Hcur').
      change (SeqPageManager_keys (concat (replicate (S k) [(X, Y, 1); (X, Y, 0)])) m)
        with (SeqPageManager_keys (concat (replicate k [(X, Y, 1); (X, Y, 0)]))
                (SeqPageManager_keys [(X, Y, 1); (X, Y, 0)] m)).
      rewrite (IH _ ((i + 1) mod length (pages (base m)))%nat target);
        rewrite ?Hpages; try assumption.
      f_equal. rewrite Nat.Div0.add_mod_idemp_l. f_equal. lia. }
  split; [by apply (Hgen k m i cur) |].
  intros ->. rewrite (Hgen _ m i cur) by assumption.
  replace (i + length (pages (base m)))%nat
    with (i + 1 * length (pages (base m)))%nat by lia.
  by rewrite Nat.Div0.mod_add, Nat.mod_small.
Qed.

Lemma seq_taps_cycle_witness :
  current_page (base (SeqPageManager_keys
                        (concat (replicate 3 [(7, 7, 1); (7, 7, 0)])) seq_manager))
    = Some 0%nat.
Proof.
  apply (seq_taps_cycle 3 seq_manager 7 7 0 0).
  - cbn. repeat constructor; intros Hin; repeat (apply elem_of_cons in Hin as [Hin | Hin];
      [discriminate Hin |]); by apply elem_of_nil in Hin.
  - reflexivity.
  - reflexivity.
  - reflexivity.
  - reflexivity.
  - reflexivity.
  - reflexivity.
Defined.

Lemma grid_key_current (x y s : Z) (m : BasePageManager) :
  current_page (fst (BasePageManager_grid_key x y s m)) = current_page m.
Proof.
  unfold BasePageManager_grid_key, deliver_key. cbn [set_presses current_page].
  destruct (current_page m) eqn:Hcur; exact Hcur.
Qed.

(** X15. A [SeqPageManager] changes its current page on one event only: a
    press (state 1) at the switch button while the pressed-set is empty.
    Every other key event, the switch button pressed while another key is
    held included, leaves the current page as it is. *)
Theorem seq_page_changes_only_on_switch (x y s : Z) (m : SeqPageManager) :
  current_page (base (fst (SeqPageManager_grid_key x y s m)))
    <> current_page (base m) ->
  presses (base m) = ∅ /\ switch_x m = Some x /\ switch_y m = Some y /\ s = 1.
Proof.
  assert (Hregular : current_page (base (fst (on_base (BasePageManager_grid_key x y s) m)))
                     = current_page (base m))
    by (cbn [on_base fst base]; apply grid_key_current).
  unfold SeqPageManager_grid_key.
  destruct (bool_decide (presses (base m) = ∅)) eqn:Hempty; [| by intros []].
  apply bool_decide_eq_true in Hempty.
  destruct (switch_x m) as [sx |]; [| by intros []].
  destruct (Z.eqb_spec x sx) as [-> | _]; [| by intros []].
  destruct (switch_y m) as [sy |]; [| by intros []].
  destruct (Z.eqb_spec y sy) as [-> | _]; [| by intros []].
  destruct (Z.eqb_spec s 1) as [-> | _]; [| by intros []].
  by intros _.
Qed.

Lemma seq_page_changes_only_on_switch_witness :
  presses (base seq_manager) = ∅ /\ switch_x seq_manager = Some 7 /\
  switch_y seq_manager = Some 7 /\ 1 = 1.
Proof.
  apply (seq_page_changes_only_on_switch 7 7 1 seq_manager).
  vm_compute. discriminate.
Defined.

(** ** [Page.led_intensity] *)

(** X16. [Page.led_intensity(i)] stores [i] as the page's intensity in
    every case, and needs no buffer for it.  On the current page it then
    calls the manager's [led_intensity]: the intensity message is sent if
    [i] is in the 32-bit range, and otherwise [send] raises [struct.error],
    with [i] stored all the same.  On a page that is not current it returns
    without sending anything. *)
Theorem page_intensity_sent_if_current (m : BasePageManager) (p : nat) (i : Z)
    (pg : Page) :
  heap m !! p = Some pg ->
  (current_page m = Some p ->
   Page_led_intensity p i m
   = if int32 i
     then finished
            (set_grid (Grid_sendto (led_path (grid m) "/grid/led/intensity") [OInt i]
                                   (grid m))
               (set_page p {| page_buffer := page_buffer pg; page_intensity := i;
                              page_width := page_width pg;
                              page_height := page_height pg |} m))
     else raised (set_page p {| page_buffer := page_buffer pg; page_intensity := i;
                                page_width := page_width pg;
                                page_height := page_height pg |} m) StructError) /\
  (current_page m <> Some p ->
   Page_led_intensity p i m
   = finished (set_page p {| page_buffer := page_buffer pg; page_intensity := i;
                             page_width := page_width pg;
                             page_height := page_height pg |} m)).
Proof.
  intros Hpg. split; intros Hcur; unfold Page_led_intensity, Page_is_active; rewrite Hpg;
    cbn [set_page current_page].
  - rewrite bool_decide_eq_true_2 by exact Hcur.
    unfold on_grid, Grid_led_intensity, Grid_send. cbn [grid forallb packs].
    by destruct (int32 i).
  - by rewrite bool_decide_eq_false_2 by exact Hcur.
Qed.

Lemma page_intensity_sent_if_current_witness :
  sent (grid (fst (Page_led_intensity 0 4 fresh_page_manager)))
    = [mkMsg "/pymonome/grid/led/intensity" [OInt 4]] /\
  Page_led_intensity 0 (2 ^ 31) fresh_page_manager
    = raised (set_page 0 {| page_buffer := None; page_intensity := 2 ^ 31;
                            page_width := None; page_height := None |}
                       fresh_page_manager) StructError /\
  Page_led_intensity 1 4 fresh_page_manager
    = finished (set_page 1 {| page_buffer := None; page_intensity := 4;
                              page_width := None; page_height := None |}
                         fresh_page_manager).
Proof.
  destruct (page_intensity_sent_if_current fresh_page_manager 0 4 Page_init eq_refl)
    as [Hcur _].
  destruct (page_intensity_sent_if_current fresh_page_manager 0 (2 ^ 31) Page_init eq_refl)
    as [Hbig _].
  destruct (page_intensity_sent_if_current fresh_page_manager 1 4 Page_init eq_refl)
    as [_ Hother].
  split; [| split].
  - rewrite (Hcur eq_refl). reflexivity.
  - exact (Hbig eq_refl).
  - apply Hother. discriminate.
Defined.

(** ** [Grid.connect] *)

(** X17. [Grid.connect] acts in the state [DISCONNECTED] only: it moves
    the link to [CONNECTING] and sends the five messages of the handshake,
    ending with the two requests for the id and the size.  In every other
    state it does nothing, so calling it again, before or after the device
    has answered, sends nothing more. *)
Theorem connect_sends_handshake_once (g : Grid) :
  (state g = DISCONNECTED ->
   state (Grid_connect g) = CONNECTING /\
   exists msgs, sent (Grid_connect g) = sent g ++ msgs /\
     msg_path <$> msgs
       = ["/sys/host"; "/sys/port"; "/sys/prefix"; "/sys/info/id"; "/sys/info/size"]) /\
  (state g <> DISCONNECTED -> Grid_connect g = g) /\
  Grid_connect (Grid_connect g) = Grid_connect g.
Proof.
  assert (Hidle : forall g0, state g0 <> DISCONNECTED -> Grid_connect g0 = g0).
  { intros g0 Hstate. unfold Grid_connect. by destruct (state g0). }
  assert (Hmoves : state g = DISCONNECTED -> state (Grid_connect g) = CONNECTING).
  { intros Hstate. unfold Grid_connect. by rewrite Hstate. }
  split; [| split].
  - intros Hstate. split; [by apply Hmoves |].
    unfold Grid_connect. rewrite Hstate.
    eexists. cbn [sent Grid_sendto Grid_set_state].
    rewrite <- !app_assoc. split; reflexivity.
  - apply Hidle.
  - destruct (state g) eqn:Hstate.
    + apply Hidle. rewrite Hmoves by reflexivity. discriminate.
    + rewrite (Hidle g) by (rewrite Hstate; discriminate).
      apply Hidle. rewrite Hstate. discriminate.
    + rewrite (Hidle g) by (rewrite Hstate; discriminate).
      apply Hidle. rewrite Hstate. discriminate.
Qed.

Lemma connect_sends_handshake_once_witness :
  state (Grid_connect (Grid_set_state DISCONNECTED ready_grid)) = CONNECTING /\
  Grid_connect ready_grid = ready_grid.
Proof.
  destruct (connect_sends_handshake_once (Grid_set_state DISCONNECTED ready_grid))
    as ((Hstate & _) & _); [reflexivity |].
  destruct (connect_sends_handshake_once ready_grid) as (_ & Hidle & _).
  split; [exact Hstate |]. apply Hidle. discriminate.
Defined.

(** ** [Grid.__sys_info]: completing the handshake *)

(** X18. The handshake completes in either order.  For a link that knows
    neither its id nor its size, the answer ['/sys/id'] alone and the
    answer ['/sys/size'] alone are stored and nothing else happens; once
    both have arrived, whichever came first, the link is the same: it is
    [READY], it has the id, the width and the height of the answers, it
    stays varibright only if the id is an [m] followed by digits, it has
    sent nothing, and the listener, if one is attached, has been told
    [on_grid_ready] once. *)
Theorem handshake_completes_in_either_order (g : Grid) (id : string) (w h : Z) :
  grid_id g = None -> grid_width g = None -> grid_height g = None ->
  Grid_sys_info "/sys/id" [OStr id] g = Some (finished (Grid_set_id id g)) /\
  Grid_sys_info "/sys/size" [OInt w; OInt h] g = Some (finished (Grid_set_size w h g)) /\
  exists g',
    Grid_sys_infos [("/sys/id", [OStr id]); ("/sys/size", [OInt w; OInt h])] g = Some g' /\
    Grid_sys_infos [("/sys/size", [OInt w; OInt h]); ("/sys/id", [OStr id])] g = Some g' /\
    state g' = READY /\
    grid_id g' = Some id /\ grid_width g' = Some w /\ grid_height g' = Some h /\
    varibright g' = varibright g && matches_m_digits id /\
    sent g' = sent g /\
    callbacks g' = callbacks g ++ match event_handler g with
                                  | Some _ => [on_grid_ready]
                                  | None => []
                                  end.
Proof.
  intros Hid Hw Hh.
  assert (Hfirst : Grid_sys_info "/sys/id" [OStr id] g
                   = Some (finished (Grid_set_id id g))).
  { unfold Grid_sys_info. cbn. by rewrite Hw. }
  assert (Hsecond : Grid_sys_info "/sys/size" [OInt w; OInt h] g
                    = Some (finished (Grid_set_size w h g))).
  { unfold Grid_sys_info. cbn. by rewrite Hid. }
  split; [exact Hfirst |]. split; [exact Hsecond |].
  eexists. cbn [Grid_sys_infos]. rewrite Hfirst, Hsecond. cbn [finished].
  split; [unfold Grid_sys_info; cbn; reflexivity |].
  split; [unfold Grid_sys_info; cbn; reflexivity |].
  unfold Grid_ready.
  destruct (matches_m_digits id), (event_handler g) eqn:Hhandler; cbn;
    rewrite ?Hhandler; cbn;
    rewrite ?andb_true_r, ?andb_false_r, ?app_nil_r; by repeat split.
Qed.

Lemma handshake_completes_in_either_order_witness :
  exists g',
    Grid_sys_infos [("/sys/size", [OInt 16; OInt 8]); ("/sys/id", [OStr "m0000045"])]
      (Grid_connect (Grid_set_handler (Some 0%nat) fresh_grid)) = Some g' /\
    state g' = READY /\ grid_width g' = Some 16 /\ varibright g' = true /\
    callbacks g' = [on_grid_ready].
Proof.
  destruct (handshake_completes_in_either_order
              (Grid_connect (Grid_set_handler (Some 0%nat) fresh_grid))
              "m0000045" 16 8 eq_refl eq_refl eq_refl)
    as (_ & _ & g' & _ & Hrun & Hstate & _ & Hw & _ & Hvb & _ & Hcalls).
  exists g'. split; [exact Hrun |]. split; [exact Hstate |]. split; [exact Hw |].
  split; [exact Hvb | exact Hcalls].
Defined.

(** X19. Once the id and the size are known, every further ['/sys/...']
    message that the handler takes to its end, one that stores nothing such
    as ['/sys/prefix'], ['/sys/host'] or ['/sys/port'] included, sets the
    state to [READY] whatever it was and calls the listener's
    [on_grid_ready] again; nothing is sent, and the varibright flag can be
    lost on such a message but is never set again. *)
Theorem ready_again_on_every_sys_message (g : Grid) (path : string)
    (args : list OscArg) :
  grid_id g <> None -> grid_width g <> None -> grid_height g <> None ->
  (forall g', Grid_sys_info path args g = Some (finished g') ->
     state g' = READY /\
     callbacks g' = callbacks g ++ match event_handler g with
                                   | Some _ => [on_grid_ready]
                                   | None => []
                                   end /\
     (varibright g' = true -> varibright g = true) /\
     sent g' = sent g) /\
  (String.eqb path "/sys/id" = false -> String.eqb path "/sys/size" = false ->
   String.eqb path "/sys/rotation" = false ->
   exists g', Grid_sys_info path args g = Some (finished g')).
Proof.
  intros Hid Hw Hh.
  assert (Hfinal : forall g1 g',
            grid_id g1 <> None -> grid_width g1 <> None -> grid_height g1 <> None ->
            event_handler g1 = event_handler g -> callbacks g1 = callbacks g ->
            varibright g1 = varibright g -> sent g1 = sent g ->
            match grid_id g1, grid_width g1, grid_height g1 with
            | Some id, Some _, Some _ =>
                Some (finished (Grid_ready
                        (if matches_m_digits id then Grid_set_state READY g1
                         else Grid_set_varibright false (Grid_set_state READY g1))))
            | _, _, _ => Some (finished g1)
            end = Some (finished g') ->
            state g' = READY /\
            callbacks g' = callbacks g ++ match event_handler g with
                                          | Some _ => [on_grid_ready]
                                          | None => []
                                          end /\
            (varibright g' = true -> varibright g = true) /\
            sent g' = sent g).
  { intros g1 g' Hid1 Hw1 Hh1 Hhandler Hcalls Hvb Hsent.
    destruct (grid_id g1) as [id |]; [| contradiction].
    destruct (grid_width g1) as [w |]; [| contradiction].
    destruct (grid_height g1) as [h |]; [| contradiction].
    intros [= <-]. unfold Grid_ready.
    destruct (matches_m_digits id); cbn [event_handler Grid_set_state Grid_set_varibright];
      rewrite Hhandler; destruct (event_handler g);
      cbn [state callbacks varibright sent Grid_call_handler Grid_set_state
           Grid_set_varibright];
      rewrite ?Hcalls, ?Hvb, ?Hsent, ?app_nil_r; repeat split; congruence. }
  split.
  - intros g'. unfold Grid_sys_info.
    destruct (String.eqb path "/sys/id");
      [| destruct (String.eqb path "/sys/size");
         [| destruct (String.eqb path "/sys/rotation")]].
    + destruct args as [| [n | id] rest]; try discriminate.
      cbn [finished]. apply Hfinal; try reflexivity; try assumption. discriminate.
    + destruct args as [| [w | ?] [| [h | ?] rest]]; try discriminate.
      cbn [finished]. apply Hfinal; try reflexivity; try assumption; discriminate.
    + destruct args as [| arg rest]; try discriminate.
      cbn [finished]. by apply Hfinal.
    + cbn [finished]. by apply Hfinal.
  - intros Hp1 Hp2 Hp3. unfold Grid_sys_info. rewrite Hp1, Hp2, Hp3. cbn [finished].
    destruct (grid_id g) as [id |]; [| contradiction].
    destruct (grid_width g) as [w |]; [| contradiction].
    destruct (grid_height g) as [h |]; [| contradiction].
    eexists. reflexivity.
Qed.

Lemma ready_again_on_every_sys_message_witness :
  exists g',
    Grid_sys_info "/sys/prefix" [OStr "/pymonome"]
      (Grid_set_state DISCONNECTED ready_grid) = Some (finished g') /\
    state g' = READY /\ callbacks g' = [on_grid_ready].
Proof.
  destruct (ready_again_on_every_sys_message (Grid_set_state DISCONNECTED ready_grid)
              "/sys/prefix" [OStr "/pymonome"]) as (Hfacts & Hruns);
    try discriminate.
  destruct (Hruns eq_refl eq_refl eq_refl) as [g' Hrun].
  destruct (Hfacts g' Hrun) as (Hstate & Hcalls & _).
  exists g'. split; [exact Hrun |]. split; [exact Hstate | exact Hcalls].
Defined.

Example matches_m_digits_examples :
  matches_m_digits "m0000045" = true /\ matches_m_digits "monome64" = false /\
  matches_m_digits "m" = false /\ matches_m_digits "M128" = false /\
  matches_m_digits (String.append "m128" (String (Ascii.ascii_of_nat 10) EmptyString))
    = true.
Proof. repeat split. Qed.

(** ** [SumPageManager]: the page chooser *)

Lemma same_but_link_trans (m1 m2 m3 : SumPageManager) :
  same_but_link m1 m2 -> same_but_link m2 m3 -> same_but_link m1 m3.
Proof.
  unfold same_but_link. intros (A1 & A2 & A3 & A4 & A5 & A6 & A7 & A8)
                               (B1 & B2 & B3 & B4 & B5 & B6 & B7 & B8).
  repeat split; congruence.
Qed.

Lemma on_sum_grid_frame (f : Grid -> outcome Grid) (m : SumPageManager) :
  same_but_link m (fst (on_sum_base (on_grid f) m)).
Proof. by repeat split. Qed.

Lemma display_chooser_frame (m : SumPageManager) :
  same_but_link m (fst (SumPageManager_display_chooser m)).
Proof.
  unfold SumPageManager_display_chooser.
  pose proof (on_sum_grid_frame (Grid_led_all 0) m) as F1.
  destruct (on_sum_base (on_grid (Grid_led_all 0)) m) as [m1 [e |]];
    cbn [then_ fst snd] in *; [exact F1 |].
  destruct (grid_width (grid (sum_base m1))) as [w |]; [| exact F1].
  cbv zeta.
  destruct (grid_height (grid (sum_base m1))) as [h |]; [| exact F1].
  match goal with |- context [on_sum_base (on_grid ?f) m1] =>
    pose proof (on_sum_grid_frame f m1) as F2;
    destruct (on_sum_base (on_grid f) m1) as [m2 [e |]]
  end; cbn [then_ fst snd] in *; [exact (same_but_link_trans _ _ _ F1 F2) |].
  pose proof (same_but_link_trans _ _ _ F1 F2) as F12.
  destruct (selected_page m2) as [sel |]; [| exact F12].
  destruct (grid_height (grid (sum_base m2))) as [h2 |]; [| exact F12].
  exact (same_but_link_trans _ _ _ F12 (on_sum_grid_frame _ m2)).
Qed.

Lemma switch_to_none_idle (m : BasePageManager) :
  presses m = ∅ ->
  BasePageManager_switch_page (-1) m
  = on_grid (Grid_led_all 0) (set_current_page None (set_presses ∅ m)).
Proof.
  intros Hempty. unfold BasePageManager_switch_page. cbn [Z.eqb].
  rewrite Hempty, elements_empty. reflexivity.
Qed.

Lemma sum_press_switch (m : SumPageManager) (cur : nat) (i X Y : Z) :
  presses (sum_base m) = ∅ ->
  current_page (sum_base m) = Some cur ->
  py_list_index (Some cur) (pages (sum_base m)) = Ok i ->
  sum_switch_x m = Some X -> sum_switch_y m = Some Y ->
  chooser_shown m (fst (SumPageManager_grid_key X Y 1 m)) i.
Proof.
  intros Hempty Hcur Hidx HX HY. unfold SumPageManager_grid_key.
  rewrite bool_decide_eq_true_2 by exact Hempty.
  rewrite HX, HY, !Z.eqb_refl, Hcur, Hidx.
  unfold on_sum_base at 1. cbn [set_selected_page sum_base].
  rewrite (switch_to_none_idle _ Hempty). unfold on_grid. rewrite Grid_led_all_off.
  cbn [finished fst snd then_].
  match goal with |- chooser_shown m (fst (SumPageManager_display_chooser ?m1)) i =>
    destruct (display_chooser_frame m1) as (H1 & H2 & H3 & H4 & H5 & H6 & H7 & H8)
  end.
  unfold chooser_shown. rewrite H1, H2, H3, H4, H5, H6, H7, H8. by repeat split.
Qed.

Lemma sum_chooser_key (m0 m : SumPageManager) (sel x y s X Y : Z) :
  chooser_shown m0 m sel ->
  sum_switch_x m0 = Some X -> sum_switch_y m0 = Some Y ->
  (x, y) <> (X, Y) ->
  x < Z.of_nat (length (pages (sum_base m0))) ->
  chooser_shown m0 (fst (SumPageManager_grid_key x y s m)) x.
Proof.
  intros (Hpages & Hheap & Hkeys & HX' & HY' & Hempty & Hcur & Hsel) HX HY Hne Hx.
  assert (Hregular : chooser_shown m0
            (fst (if x <? Z.of_nat (length (pages (sum_base m)))
                  then SumPageManager_display_chooser (set_selected_page x m)
                  else finished m)) x).
  { rewrite Hpages. replace (x <? _) with true by (symmetry; by apply Z.ltb_lt).
    destruct (display_chooser_frame (set_selected_page x m))
      as (H1 & H2 & H3 & H4 & H5 & H6 & H7 & H8).
    unfold chooser_shown. rewrite H1, H2, H3, H4, H5, H6, H7, H8. by repeat split. }
  unfold SumPageManager_grid_key.
  rewrite bool_decide_eq_true_2 by exact Hempty.
  rewrite HX', HX, HY', HY, Hcur.
  destruct (Z.eqb_spec x X) as [-> | _]; [| exact Hregular].
  destruct (Z.eqb_spec y Y) as [-> | _]; [by destruct Hne | exact Hregular].
Qed.

Lemma sum_release_switch (m0 m : SumPageManager) (sel X Y : Z) (target : nat) :
  chooser_shown m0 m sel ->
  sum_switch_x m0 = Some X -> sum_switch_y m0 = Some Y ->
  sel <> -1 -> py_getitem (pages (sum_base m0)) sel = Ok target ->
  current_page (sum_base (fst (SumPageManager_grid_key X Y 0 m))) = Some target /\
  presses (sum_base (fst (SumPageManager_grid_key X Y 0 m))) = ∅ /\
  key_events (sum_base (fst (SumPageManager_grid_key X Y 0 m)))
    = key_events (sum_base m0).
Proof.
  intros (Hpages & Hheap & Hkeys & HX' & HY' & Hempty & Hcur & Hsel) HX HY Hne Hget.
  unfold SumPageManager_grid_key.
  rewrite bool_decide_eq_true_2 by exact Hempty.
  rewrite HX', HX, HY', HY, !Z.eqb_refl, Hsel. cbn [Z.eqb on_sum_base fst sum_base].
  rewrite <- Hkeys. apply switch_page_target; [exact Hempty | exact Hne |].
  by rewrite Hpages.
Qed.

(** X20. Choosing a page on a [SumPageManager].  With nothing else
    pressed, a press of the switch button hides the current page and shows
    the chooser; while it is shown, a key in column [k], with [k] below the
    number of pages, selects page [k], on its press and on its release
    alike; the release of the switch button then makes the page at index
    [k] current.  No page receives a key event during all this.  Without a
    selection, releasing the switch button brings back the page that was
    current. *)
Theorem sum_chooser_selects_page (m : SumPageManager) (cur target : nat)
    (i k y X Y : Z) :
  presses (sum_base m) = ∅ ->
  current_page (sum_base m) = Some cur ->
  py_list_index (Some cur) (pages (sum_base m)) = Ok i ->
  sum_switch_x m = Some X -> sum_switch_y m = Some Y ->
  (k, y) <> (X, Y) ->
  py_getitem (pages (sum_base m)) k = Ok target -> 0 <= k ->
  (current_page (sum_base (SumPageManager_keys
      [(X, Y, 1); (k, y, 1); (k, y, 0); (X, Y, 0)] m)) = Some target /\
   key_events (sum_base (SumPageManager_keys
      [(X, Y, 1); (k, y, 1); (k, y, 0); (X, Y, 0)] m)) = key_events (sum_base m) /\
   presses (sum_base (SumPageManager_keys
      [(X, Y, 1); (k, y, 1); (k, y, 0); (X, Y, 0)] m)) = ∅) /\
  (current_page (sum_base (SumPageManager_keys [(X, Y, 1)] m)) = None /\
   current_page (sum_base (SumPageManager_keys [(X, Y, 1); (X, Y, 0)] m)) = Some cur /\
   key_events (sum_base (SumPageManager_keys [(X, Y, 1); (X, Y, 0)] m))
     = key_events (sum_base m)).
Proof.
  intros Hempty Hcur Hidx HX HY Hne Hget Hk.
  pose proof (sum_press_switch m cur i X Y Hempty Hcur Hidx HX HY) as Hshown.
  assert (Hkp : k < Z.of_nat (length (pages (sum_base m)))).
  { unfold py_getitem in Hget.
    destruct (py_index (length (pages (sum_base m))) k) as [j |] eqn:Hj;
      [| discriminate Hget].
    unfold py_index in Hj.
    destruct (Z.leb_spec 0 k), (Z.ltb_spec k (Z.of_nat (length (pages (sum_base m)))));
      simpl in Hj; try lia.
    destruct (Z.leb_spec (- Z.of_nat (length (pages (sum_base m)))) k),
      (Z.ltb_spec k 0); simpl in Hj; [lia | discriminate Hj | discriminate Hj
                                        | discriminate Hj]. }
  split.
  - cbn [SumPageManager_keys foldl].
    pose proof (sum_chooser_key m _ i k y 1 X Y Hshown HX HY Hne Hkp) as Hpressed.
    pose proof (sum_chooser_key m _ k k y 0 X Y Hpressed HX HY Hne Hkp) as Hreleased.
    destruct (sum_release_switch m _ k X Y target Hreleased HX HY)
      as (Hc & Hp & Hkeys); [lia | exact Hget |]. by repeat split.
  - cbn [SumPageManager_keys foldl].
    split; [apply Hshown |].
    destruct (py_list_index_spec cur _ i Hidx) as [Hi Hlook].
    destruct (py_getitem_nonneg (pages (sum_base m)) i Hi) as (cur' & Hget' & Hlook').
    assert (cur' = cur) as -> by congruence.
    destruct (sum_release_switch m _ i X Y cur Hshown HX HY) as (Hc & _ & Hkeys);
      [lia | exact Hget' |]. by split.
Qed.

Lemma sum_chooser_selects_page_witness :
  current_page (sum_base (SumPageManager_keys
     [(7, 7, 1); (2, 0, 1); (2, 0, 0); (7, 7, 0)] sum_manager)) = Some 2%nat /\
  key_events (sum_base (SumPageManager_keys
     [(7, 7, 1); (2, 0, 1); (2, 0, 0); (7, 7, 0)] sum_manager)) = [].
Proof.
  destruct (sum_chooser_selects_page sum_manager 0 2 0 2 0 7 7)
    as ((Hcur & Hkeys & _) & _).
  - reflexivity.
  - reflexivity.
  - reflexivity.
  - reflexivity.
  - reflexivity.
  - discriminate.
  - reflexivity.
  - lia.
  - split; [exact Hcur | exact Hkeys].
Defined.

(** X21. The switch button of a [SumPageManager] out of step.  With
    nothing pressed, its release before any press (no page was ever
    selected) raises [AttributeError], and a second press while the chooser
    is shown (no page is current) raises [ValueError], from
    [self.pages.index(None)]; both leave the manager as it was. *)
Theorem sum_switch_button_out_of_step (m : SumPageManager) (X Y : Z) :
  presses (sum_base m) = ∅ ->
  sum_switch_x m = Some X -> sum_switch_y m = Some Y ->
  (selected_page m = None ->
   SumPageManager_grid_key X Y 0 m = raised m AttributeError) /\
  (current_page (sum_base m) = None ->
   SumPageManager_grid_key X Y 1 m = raised m ValueError).
Proof.
  intros Hempty HX HY. split.
  - intros Hsel. unfold SumPageManager_grid_key.
    rewrite bool_decide_eq_true_2 by exact Hempty.
    by rewrite HX, HY, !Z.eqb_refl, Hsel.
  - intros Hcur. unfold SumPageManager_grid_key.
    rewrite bool_decide_eq_true_2 by exact Hempty.
    rewrite HX, HY, !Z.eqb_refl, Hcur. cbn [Z.eqb].
    assert (Hindex : forall l, py_list_index None l = Raise ValueError).
    { induction l as [| w l IH]; [reflexivity |].
      cbn [py_list_index]. rewrite bool_decide_eq_false_2 by discriminate.
      by rewrite IH. }
    by rewrite Hindex.
Qed.

Lemma sum_switch_button_out_of_step_witness :
  SumPageManager_grid_key 7 7 0 sum_manager = raised sum_manager AttributeError /\
  SumPageManager_grid_key 7 7 1 (SumPageManager_keys [(7, 7, 1)] sum_manager)
    = raised (SumPageManager_keys [(7, 7, 1)] sum_manager) ValueError.
Proof.
  split.
  - by apply (sum_switch_button_out_of_step sum_manager 7 7).
  - by apply (sum_switch_button_out_of_step
                (SumPageManager_keys [(7, 7, 1)] sum_manager) 7 7).
Defined.

(** ** A [Section] on a link: rows and columns of narrow sections *)

Lemma pack_groups_short (data : list Z) :
  (length data < 8)%nat -> pack_groups data = Ok [].
Proof.
  intros Hlen. unfold pack_groups.
  rewrite Z.div_small by lia. reflexivity.
Qed.

(** X22. A section less than eight cells wide cannot light anything with
    [led_row]: the section cuts the data down to its width, and the link,
    which packs whole groups of eight, then passes the two coordinates to
    [send] without any data, whatever the data was: a row message without
    data is sent if the coordinates are in the 32-bit range, and otherwise
    [send] raises [struct.error].  The same holds for [led_col] through a
    section less than eight cells high. *)
Theorem narrow_section_rows_carry_no_data (sec : GridSection) (g : Grid) (a c : Z)
    (data : list Z) :
  (0 <= part_width sec < 8 ->
   exists fwd, Section_led_row sec a c data = Some fwd /\
     Grid_apply fwd g
     = if int32 (part_offset_x sec + a) && int32 (part_offset_y sec + c)
       then finished (Grid_sendto (led_path g "/grid/led/row")
                        [OInt (part_offset_x sec + a); OInt (part_offset_y sec + c)] g)
       else raised g StructError) /\
  (0 <= part_height sec < 8 ->
   exists fwd, Section_led_col sec a c data = Some fwd /\
     Grid_apply fwd g
     = if int32 (part_offset_x sec + a) && int32 (part_offset_y sec + c)
       then finished (Grid_sendto (led_path g "/grid/led/col")
                        [OInt (part_offset_x sec + a); OInt (part_offset_y sec + c)] g)
       else raised g StructError).
Proof.
  split; intros Hsize; eexists; (split; [reflexivity |]);
    cbn [Grid_apply]; unfold Grid_led_row, Grid_led_col;
    (rewrite pack_groups_short;
     [unfold Grid_send; cbn [fmap list_fmap forallb packs];
      by destruct (int32 _), (int32 _) |]);
    match goal with |- context [py_take ?n data] =>
      pose proof (py_take_length_le n data)
    end; lia.
Qed.

Lemma narrow_section_rows_carry_no_data_witness :
  exists fwd, Section_led_row (mkSection 4 8 4 0) 0 2 [1; 1; 1; 1; 1; 1; 1; 1] = Some fwd /\
    Grid_apply fwd ready_grid
    = finished (Grid_sendto "/pymonome/grid/led/row" [OInt 4; OInt 2] ready_grid).
Proof.
  destruct (narrow_section_rows_carry_no_data (mkSection 4 8 4 0) ready_grid 0 2
              [1; 1; 1; 1; 1; 1; 1; 1]) as [Hrow _].
  apply Hrow. simpl. lia.
Defined.

(** ** [ready] in the page managers *)

Lemma seq_key_without_switch_x (x y s : Z) (m : SeqPageManager) :
  switch_x m = None -> presses (base m) = ∅ ->
  SeqPageManager_grid_key x y s m = raised m AttributeError.
Proof.
  intros HX Hempty. unfold SeqPageManager_grid_key.
  by rewrite bool_decide_eq_true_2, HX by exact Hempty.
Qed.

(** X23. [ready] never completes in a page manager.
    [BasePageManager.ready] begins with [super().ready()], and no base class
    defines [ready]: it raises [AttributeError] before it touches a page,
    whatever the name [LedBuffer] is bound to.  [SeqPageManager.ready] and
    [SumPageManager.ready] stop there too, before they assign [switch_x]
    and [switch_y].  A [SeqPageManager] whose [switch_x] was never assigned
    raises [AttributeError] on every key while nothing is pressed, the key
    being neither recorded nor passed on: whatever the keys, the manager
    stays as it was; and so does a [SumPageManager] on each such key. *)
Theorem ready_stops_at_super_ready (G : Globals) :
  (forall m, BasePageManager_ready G m = raised m AttributeError) /\
  (forall m, SeqPageManager_ready G m = raised m AttributeError) /\
  (forall m, SumPageManager_ready G m = raised m AttributeError) /\
  (forall m keys, switch_x m = None -> presses (base m) = ∅ ->
     SeqPageManager_keys keys m = m /\
     Forall (fun '(x, y, s) => SeqPageManager_grid_key x y s m = raised m AttributeError)
            keys) /\
  (forall m x y s, sum_switch_x m = None -> presses (sum_base m) = ∅ ->
     SumPageManager_grid_key x y s m = raised m AttributeError).
Proof.
  split; [reflexivity |]. split; [by intros [] |]. split; [by intros [] |]. split.
  - intros m keys HX Hempty. split.
    + induction keys as [| [[x y] s] keys IH]; [reflexivity |].
      cbn [SeqPageManager_keys foldl].
      rewrite (seq_key_without_switch_x x y s m HX Hempty). exact IH.
    + apply Forall_forall. intros [[x y] s] _.
      by apply seq_key_without_switch_x.
  - intros m x y s HX Hempty. unfold SumPageManager_grid_key.
    by rewrite bool_decide_eq_true_2, HX by exact Hempty.
Qed.

Lemma ready_stops_at_super_ready_witness :
  SeqPageManager_ready monome_globals fresh_seq_manager
    = raised fresh_seq_manager AttributeError /\
  SeqPageManager_keys [(7, 7, 1); (7, 7, 0); (0, 0, 1)] fresh_seq_manager
    = fresh_seq_manager.
Proof.
  destruct (ready_stops_at_super_ready monome_globals) as (_ & Hready & _ & Hkeys & _).
  split; [apply Hready |].
  by apply (Hkeys fresh_seq_manager [(7, 7, 1); (7, 7, 0); (0, 0, 1)]).
Defined.

(** ** [GridBuffer.render]: whole tiles only *)

Lemma In_render_tiles_any (W H : nat) (b : GridBuffer) (p : Z * Z) :
  shape W H b -> In p (render_tiles b) ->
  exists i j, (i < W / 8)%nat /\ (j < H / 8)%nat /\
    p = (Z.of_nat (8 * i), Z.of_nat (8 * j)).
Proof.
  intros (Hw & Hh & _) Hp. unfold render_tiles in Hp. destruct p as [px py].
  apply in_prod_iff in Hp as [Hx Hy]. rewrite Hw in Hx. rewrite Hh in Hy.
  apply list_elem_of_In, list_elem_of_fmap in Hx as (i & -> & Hi).
  apply list_elem_of_In, list_elem_of_fmap in Hy as (j & -> & Hj).
  apply list_elem_of_In, In_py_range in Hi, Hj.
  change 8 with (Z.of_nat 8) in Hi, Hj. rewrite <- Nat2Z.inj_div in Hi, Hj.
  exists (Z.to_nat i), (Z.to_nat j). repeat split; try lia. f_equal; lia.
Qed.

Lemma render_tiles_length (W H : nat) (b : GridBuffer) :
  shape W H b -> length (render_tiles b) = (W / 8 * (H / 8))%nat.
Proof.
  intros (Hw & Hh & _). unfold render_tiles, py_range.
  rewrite length_prod, !length_fmap, !length_seq, Hw, Hh.
  change 8 with (Z.of_nat 8). by rewrite <- !Nat2Z.inj_div, !Nat2Z.id.
Qed.

Lemma forallb_concat {A : Type} (f : A -> bool) (ls : list (list A)) :
  forallb (forallb f) ls = true -> forallb f (concat ls) = true.
Proof.
  induction ls as [| l ls IH]; [reflexivity |].
  cbn [forallb concat]. rewrite forallb_app.
  intros [Hl Hls]%andb_true_iff. by rewrite Hl, IH.
Qed.

(** The link's [led_level_map] on an 8 by 8 map and offsets in the 32-bit
    range: one message is sent, provided, on a varibright link, that the
    levels are in the 32-bit range too; another link packs them into
    bytes. *)
Lemma Grid_led_level_map_sends (g : Grid) (xo yo : Z) (data : list (list Z)) :
  is_8x8 data = true -> int32 xo = true -> int32 yo = true ->
  (varibright g = true -> forallb (forallb int32) data = true) ->
  exists msg, Grid_led_level_map xo yo data g = finished (Grid_send_all [msg] g).
Proof.
  intros Hform Hxo Hyo Hlevels. unfold Grid_led_level_map.
  destruct (varibright g).
  - eexists. rewrite Grid_send_packed; [reflexivity |].
    cbn [forallb packs]. by rewrite Hxo, Hyo, packs_ints, forallb_concat by auto.
  - destruct (pack_map_roundtrip ((fun row : list Z => downgrade <$> row) <$> data))
      as (bytes & Hpack & _ & Hrange).
    + by apply is_8x8_fmap.
    + apply forallb_forall. intros row Hrow.
      apply list_elem_of_In, list_elem_of_fmap in Hrow as (row0 & -> & _).
      apply forallb_downgrade.
    + eexists. unfold Grid_led_map. rewrite Hpack.
      rewrite Grid_send_packed; [reflexivity |].
      cbn [forallb packs]. by rewrite Hxo, Hyo, packs_ints, (bytes_pack bytes Hrange).
Qed.

(** X24. [GridBuffer.render] works tile by tile.  For a well-formed [W] by
    [H] buffer, with [W] and [H] in the 32-bit range and, on a varibright
    link, the levels of the whole tiles too, it returns after
    [(W // 8) * (H // 8)] calls of the target's [led_level_map], here the
    link's, one message each; the cells beyond the last whole tile in
    either direction are never read, so two buffers that differ there only
    render alike, and a buffer less than eight cells wide or high renders
    nothing. *)
Theorem render_sends_whole_tiles_only (W H : nat) (b b' : GridBuffer) (g : Grid) :
  shape W H b -> shape W H b' ->
  int32 (Z.of_nat W) = true -> int32 (Z.of_nat H) = true ->
  (varibright g = true ->
   forall x y v, (x < 8 * (W / 8))%nat -> (y < 8 * (H / 8))%nat ->
     level_at b x y = Some v -> int32 v = true) ->
  (forall x y, (x < 8 * (W / 8))%nat -> (y < 8 * (H / 8))%nat ->
     level_at b x y = level_at b' x y) ->
  exists msgs,
    GridBuffer_render Grid_led_level_map b g = finished (Grid_send_all msgs g) /\
    length msgs = (W / 8 * (H / 8))%nat /\
    GridBuffer_render Grid_led_level_map b' g = finished (Grid_send_all msgs g).
Proof.
  intros Hb Hb' HW32 HH32 Hlevels Hsame.
  apply int32_spec in HW32, HH32.
  pose proof (Nat.Div0.mul_div_le W 8) as HWle.
  pose proof (Nat.Div0.mul_div_le H 8) as HHle.
  assert (Htiles : render_tiles b' = render_tiles b).
  { unfold render_tiles. destruct Hb as (-> & -> & _), Hb' as (-> & -> & _). reflexivity. }
  assert (Hbody : forall p s, In p (render_tiles b) -> varibright s = varibright g ->
            match GridBuffer_get_level_map (fst p) (snd p) b' with
            | Raise e => raised s e
            | Ok m => Grid_led_level_map (fst p) (snd p) m s
            end
            = match GridBuffer_get_level_map (fst p) (snd p) b with
              | Raise e => raised s e
              | Ok m => Grid_led_level_map (fst p) (snd p) m s
              end /\
            exists msg, match GridBuffer_get_level_map (fst p) (snd p) b with
                        | Raise e => raised s e
                        | Ok m => Grid_led_level_map (fst p) (snd p) m s
                        end = finished (Grid_send_all [msg] s)).
  { intros p s Hp Hvb.
    destruct (In_render_tiles_any W H b p Hb Hp) as (i & j & Hi & Hj & ->).
    cbn [fst snd].
    rewrite (get_level_map_tile W H b), (get_level_map_tile W H b');
      try assumption; try lia.
    assert (Htile : tile_of b' (8 * i) (8 * j) = tile_of b (8 * i) (8 * j)).
    { unfold tile_of.
      apply list_fmap_ext. intros r ? Hr. apply lookup_seq in Hr as [-> Hr].
      apply list_fmap_ext. intros c ? Hc. apply lookup_seq in Hc as [-> Hc].
      cbn [Nat.add]. rewrite Hsame; [reflexivity | lia | lia]. }
    rewrite Htile. split; [reflexivity |].
    apply Grid_led_level_map_sends.
    - apply tile_of_8x8.
    - apply int32_spec. lia.
    - apply int32_spec. lia.
    - rewrite Hvb. intros Hvar. unfold tile_of.
      apply forallb_forall. intros row Hrow.
      apply list_elem_of_In, list_elem_of_fmap in Hrow as (r & -> & Hr).
      apply elem_of_seq in Hr.
      apply forallb_forall. intros v Hv.
      apply list_elem_of_In, list_elem_of_fmap in Hv as (c & -> & Hc).
      apply elem_of_seq in Hc.
      destruct (level_at b (8 * i + c) (8 * j + r)) as [v |] eqn:Hv; [| reflexivity].
      cbn [default]. apply (Hlevels Hvar (8 * i + c)%nat (8 * j + r)%nat); [lia | lia |].
      exact Hv. }
  destruct (for_each_sends (fun _ _ => True)
              (fun p s => match GridBuffer_get_level_map (fst p) (snd p) b with
                          | Raise e => raised s e
                          | Ok m => Grid_led_level_map (fst p) (snd p) m s
                          end) (render_tiles b) g) as (msgs & Hrun & Hmsgs).
  { intros p s Hp Hvb _. destruct (Hbody p s Hp Hvb) as [_ [msg Hmsg]]. by exists msg. }
  exists msgs.
  assert (Hrender : GridBuffer_render Grid_led_level_map b g
                    = finished (Grid_send_all msgs g)).
  { unfold GridBuffer_render. rewrite for_each_nested. exact Hrun. }
  split; [exact Hrender |]. split.
  - rewrite (Forall2_length _ _ _ Hmsgs). by apply render_tiles_length.
  - rewrite <- Hrender. unfold GridBuffer_render. rewrite !for_each_nested.
    fold (render_tiles b') (render_tiles b). rewrite Htiles.
    apply (for_each_ext_in (fun s => varibright s = varibright g)); [| reflexivity].
    intros p s Hp Hvb. split; [by apply Hbody |].
    destruct (Hbody p s Hp Hvb) as [_ [msg ->]]. exact Hvb.
Qed.

Lemma render_sends_whole_tiles_only_witness :
  exists msgs,
    GridBuffer_render Grid_led_level_map (GridBuffer_init 12 8) ready_grid
      = finished (Grid_send_all msgs ready_grid) /\
    length msgs = 1%nat /\
    GridBuffer_render Grid_led_level_map
      (fst (GridBuffer_led_level_set 10 3 15 (GridBuffer_init 12 8))) ready_grid
      = finished (Grid_send_all msgs ready_grid).
Proof.
  apply (render_sends_whole_tiles_only 12 8 (GridBuffer_init 12 8)
           (fst (GridBuffer_led_level_set 10 3 15 (GridBuffer_init 12 8))) ready_grid).
  - apply (shape_init 12 8).
  - vm_compute. repeat split; repeat constructor.
  - reflexivity.
  - reflexivity.
  - intros _ x y v Hx Hy. change (8 * (12 / 8))%nat with 8%nat in Hx.
    change (8 * (8 / 8))%nat with 8%nat in Hy.
    do 8 (destruct x as [| x];
          [do 8 (destruct y as [| y]; [by intros [= <-] |]); lia |]).
    lia.
  - intros x y Hx Hy. change (8 * (12 / 8))%nat with 8%nat in Hx.
    change (8 * (8 / 8))%nat with 8%nat in Hy.
    do 8 (destruct x as [| x]; [do 8 (destruct y as [| y]; [reflexivity |]); lia |]).
    lia.
Defined.

(** ** [App]: attaching and detaching *)

Lemma assign_same {V : Type} (k : nat) (v : V) (f : nat -> V) : assign k v f k = v.
Proof. unfold assign. by rewrite decide_True. Qed.

Lemma assign_other {V : Type} (k j : nat) (v : V) (f : nat -> V) :
  j <> k -> assign k v f j = f j.
Proof. intros Hne. unfold assign. by rewrite decide_False. Qed.

(** X25. [App.attach] makes the application the listener of the link and
    starts the handshake if the link is [DISCONNECTED]; key messages then
    reach the application.  [App.detach] empties the listener slot and the
    application's reference, after which key messages are dropped, and a
    second [detach] raises [AttributeError]. *)
Theorem app_attach_then_detach (a gr : nat) (x y s : Z) (w : World) :
  state (world_grids w gr) = DISCONNECTED ->
  let w1 := App_attach a gr w in
  event_handler (world_grids w1 gr) = Some a /\
  world_apps w1 a = Some gr /\
  state (world_grids w1 gr) = CONNECTING /\
  callbacks (world_grids (World_grid_key gr x y s w1) gr)
    = callbacks (world_grids w gr) ++ [on_grid_key x y s] /\
  exists w2,
    App_detach a w1 = finished w2 /\
    event_handler (world_grids w2 gr) = None /\
    world_apps w2 a = None /\
    callbacks (world_grids (World_grid_key gr x y s w2) gr)
      = callbacks (world_grids w2 gr) /\
    App_detach a w2 = raised w2 AttributeError.
Proof.
  intros Hstate w1. unfold w1, App_attach. cbn [world_grids world_apps].
  rewrite !assign_same. unfold Grid_connect at 1 2.
  cbn [state Grid_set_handler]. rewrite Hstate.
  split; [reflexivity |]. split; [reflexivity |]. split; [reflexivity |].
  split.
  - unfold World_grid_key. cbn [world_grids]. rewrite !assign_same.
    unfold Grid_connect. cbn [state Grid_set_handler]. by rewrite Hstate.
  - unfold App_detach. cbn [world_apps world_grids]. rewrite !assign_same.
    eexists. split; [reflexivity |]. cbn [world_grids world_apps].
    rewrite !assign_same. split; [reflexivity |]. split; [reflexivity |].
    split; [| reflexivity].
    unfold World_grid_key. cbn [world_grids world_apps]. by rewrite !assign_same.
Qed.

Lemma app_attach_then_detach_witness :
  state (world_grids (App_attach 0 0 fresh_world) 0) = CONNECTING /\
  callbacks (world_grids (World_grid_key 0 1 2 1 (App_attach 0 0 fresh_world)) 0)
    = [on_grid_key 1 2 1].
Proof.
  destruct (app_attach_then_detach 0 0 1 2 1 fresh_world eq_refl)
    as (_ & _ & Hstate & Hkey & _).
  split; [exact Hstate | exact Hkey].
Defined.

(** X26. A link has one listener slot, and [detach] empties it without
    looking at who is in it.  When a second application attaches to a link
    that a first one is attached to, the second replaces the first as the
    listener while the first keeps its reference; when the first then
    detaches, the slot is emptied, and the second application, still
    attached, is told of no further key. *)
Theorem detach_silences_the_later_listener (a b gr : nat) (x y s : Z) (w : World) :
  a <> b ->
  let w2 := App_attach b gr (App_attach a gr w) in
  event_handler (world_grids w2 gr) = Some b /\
  world_apps w2 a = Some gr /\
  exists w3,
    App_detach a w2 = finished w3 /\
    world_apps w3 b = Some gr /\
    event_handler (world_grids w3 gr) = None /\
    callbacks (world_grids (World_grid_key gr x y s w3) gr)
      = callbacks (world_grids w3 gr).
Proof.
  intros Hab w2. unfold w2, App_attach. cbn [world_grids world_apps].
  rewrite !assign_same.
  assert (Hhandler : forall g h, event_handler (Grid_connect (Grid_set_handler h g)) = h).
  { intros g h. unfold Grid_connect. by destruct (state (Grid_set_handler h g)). }
  split; [apply Hhandler |].
  rewrite !(assign_other b a) by exact Hab. rewrite assign_same.
  split; [reflexivity |].
  unfold App_detach. cbn [world_apps world_grids].
  rewrite !(assign_other b a) by exact Hab. rewrite !assign_same.
  eexists. split; [reflexivity |]. cbn [world_grids world_apps].
  rewrite (assign_other a b) by congruence. rewrite !assign_same.
  split; [reflexivity |]. split; [reflexivity |].
  unfold World_grid_key. cbn [world_grids world_apps]. by rewrite !assign_same.
Qed.

Lemma detach_silences_the_later_listener_witness :
  exists w3,
    App_detach 0 (App_attach 1 0 (App_attach 0 0 fresh_world)) = finished w3 /\
    world_apps w3 1 = Some 0%nat /\
    event_handler (world_grids w3 0) = None.
Proof.
  destruct (detach_silences_the_later_listener 0 1 0 1 2 1 fresh_world)
    as (_ & _ & w3 & Hrun & Happ & Hslot & _).
  - discriminate.
  - exists w3. split; [exact Hrun |]. split; [exact Happ | exact Hslot].
Defined.

(** ** Binary operations and levels *)

(** X27. On a well-formed buffer the binary operations are the level
    operations at the levels 0 and 15: [led_set], [led_all], [led_row],
    [led_col] and [led_map] with the values [s] leave the buffer that
    [led_level_set], [led_level_all], [led_level_row], [led_level_col] and
    [led_level_map] leave with the levels [s * 15], whenever the level
    operation returns; the cell-by-cell guard of the binary rows and the
    slice of the level rows cut the data at the same place. *)
Theorem binary_ops_are_level_ops (W H : nat) (op : LedOp) (b : GridBuffer) :
  shape W H b ->
  snd (GridBuffer_apply (as_level_op op) b) = None ->
  GridBuffer_apply op b = GridBuffer_apply (as_level_op op) b.
Proof. apply binary_as_level. Qed.

Lemma binary_ops_are_level_ops_witness :
  GridBuffer_apply (Op_led_row 5 2 [1; 0; 1; 1; 1; 1]) (GridBuffer_init 8 8)
  = GridBuffer_apply (Op_led_level_row 5 2 [15; 0; 15; 15; 15; 15]) (GridBuffer_init 8 8).
Proof.
  apply (binary_ops_are_level_ops 8 8 (Op_led_row 5 2 [1; 0; 1; 1; 1; 1])
           (GridBuffer_init 8 8)).
  - apply (shape_init 8 8).
  - reflexivity.
Defined.

(** X28. What a link that is not varibright makes of a level:
    [led_level_set] and [led_level_all] call the binary [led_set] and
    [led_all], and for a level in [[0,15]] the value passed is 1 from level
    8 on and 0 below; whatever the integer, even one outside the 32-bit
    range, the value passed is 0 or 1, so the message is sent as soon as
    the coordinates are in the 32-bit range.  A varibright link passes the
    level itself to [send]: the message is sent if coordinates and level
    are in the 32-bit range, and otherwise [send] raises [struct.error]. *)
Theorem level_becomes_on_from_8 (g : Grid) (x y l : Z) :
  (varibright g = false ->
   Grid_led_level_set x y l g = Grid_led_set x y (downgrade l) g /\
   Grid_led_level_all l g = Grid_led_all (downgrade l) g /\
   binary (downgrade l) = true /\
   (0 <= l <= 15 -> downgrade l = if 8 <=? l then 1 else 0) /\
   Grid_led_level_all l g
     = finished (Grid_sendto (led_path g "/grid/led/all") [OInt (downgrade l)] g) /\
   (int32 x && int32 y = true ->
    Grid_led_level_set x y l g
      = finished (Grid_sendto (led_path g "/grid/led/set")
                              [OInt x; OInt y; OInt (downgrade l)] g))) /\
  (varibright g = true ->
   Grid_led_level_set x y l g
     = (if int32 x && int32 y && int32 l
        then finished (Grid_sendto (led_path g "/grid/led/level/set")
                                   [OInt x; OInt y; OInt l] g)
        else raised g StructError) /\
   Grid_led_level_all l g
     = (if int32 l
        then finished (Grid_sendto (led_path g "/grid/led/level/all") [OInt l] g)
        else raised g StructError)).
Proof.
  split; intros Hvb; unfold Grid_led_level_set, Grid_led_level_all; rewrite Hvb.
  - pose proof (binary_int32 _ (downgrade_binary l)) as Hpacks.
    split; [reflexivity |]. split; [reflexivity |]. split; [apply downgrade_binary |].
    split; [| split].
    + intros Hl. rewrite (downgrade_threshold l Hl).
      destruct (Z.ltb_spec 7 l), (Z.leb_spec 8 l); try reflexivity; lia.
    + unfold Grid_led_all. apply Grid_send_packed. cbn [forallb packs].
      by rewrite Hpacks.
    + intros [Hx Hy]%andb_true_iff. unfold Grid_led_set. apply Grid_send_packed.
      cbn [forallb packs]. by rewrite Hx, Hy, Hpacks.
  - unfold Grid_send. cbn [forallb packs]. split.
    + by destruct (int32 x), (int32 y), (int32 l).
    + by destruct (int32 l).
Qed.

Lemma level_becomes_on_from_8_witness :
  Grid_led_level_set 0 0 8 (grid binary_link_manager)
    = Grid_led_set 0 0 1 (grid binary_link_manager) /\
  Grid_led_level_set 0 0 7 (grid binary_link_manager)
    = Grid_led_set 0 0 0 (grid binary_link_manager) /\
  Grid_led_level_set 0 0 (2 ^ 40) (grid binary_link_manager)
    = finished (Grid_sendto "/pymonome/grid/led/set" [OInt 0; OInt 0; OInt 0]
                            (grid binary_link_manager)) /\
  Grid_led_level_set 0 0 (2 ^ 40) ready_grid = raised ready_grid StructError.
Proof.
  destruct (level_becomes_on_from_8 (grid binary_link_manager) 0 0 8) as [H8 _].
  destruct (level_becomes_on_from_8 (grid binary_link_manager) 0 0 7) as [H7 _].
  destruct (level_becomes_on_from_8 (grid binary_link_manager) 0 0 (2 ^ 40)) as [Hbig _].
  destruct (level_becomes_on_from_8 ready_grid 0 0 (2 ^ 40)) as [_ Hvar].
  destruct (H8 eq_refl) as (H8set & _). destruct (H7 eq_refl) as (H7set & _).
  destruct (Hbig eq_refl) as (_ & _ & _ & _ & _ & Hsent).
  destruct (Hvar eq_refl) as (Hraise & _).
  split; [exact H8set |]. split; [exact H7set |]. split; [exact (Hsent eq_refl) |].
  exact Hraise.
Defined.

(** ** [Page.render] without a buffer *)



